(** * kirk: scheduling and fault-tolerant execution engine

    A shallow embedding of [libkirk/sut.py], [libkirk/host.py] and
    [libkirk/scheduler.py], and the properties of the natural-language
    specification proved (or refuted) on it.

    Coroutines are embedded as computations of a state-and-exception monad.
    The monad threads one [state] record (the mutable attributes of the SUT
    class, of [TestScheduler] and of [SuiteScheduler], the external world
    the SUT talks to, and a chronological log of the SUT calls and of the
    events handed to [libkirk.events.fire]).  A computation ends by
    returning, by raising a Python exception, or by being cancelled
    ([asyncio.CancelledError]).  [asyncio.wait_for] is embedded with the
    stack of the active timers: a primitive that is cut short by the [k]-th
    enclosing timer answers [Cancelled k], and the [wait_for] that owns the
    timer turns it into [asyncio.TimeoutError]. *)

From Stdlib Require Import List String Ascii ZArith QArith Bool Lia Permutation.
Import ListNotations.
Local Close Scope Q_scope.
Local Open Scope string_scope.
Local Open Scope list_scope.

Set Implicit Arguments.

(** ** Exceptions *)

(** The exception classes the embedded modules raise or catch.
    [KernelPanicError] is the class of [libkirk/sut.py] (the one that
    [host.py] and [scheduler.py] import), a subclass of [SUTError];
    [KernelTaintedError] and [KernelTimeoutError] are the classes of
    [scheduler.py].  [TimeoutError] is [asyncio.TimeoutError]. *)
Inductive exn_class : Type :=
| Exception
| KirkException
| SUTError
| KernelPanicError
| KernelTaintedError
| KernelTimeoutError
| ValueError
| TimeoutError.

Definition exn_class_eqb (c d : exn_class) : bool :=
  match c, d with
  | Exception, Exception
  | KirkException, KirkException
  | SUTError, SUTError
  | KernelPanicError, KernelPanicError
  | KernelTaintedError, KernelTaintedError
  | KernelTimeoutError, KernelTimeoutError
  | ValueError, ValueError
  | TimeoutError, TimeoutError => true
  | _, _ => false
  end.

(** Method resolution order of each class (the class and its ancestors). *)
Definition mro (c : exn_class) : list exn_class :=
  match c with
  | Exception => [Exception]
  | KirkException => [KirkException; Exception]
  | SUTError => [SUTError; KirkException; Exception]
  | KernelPanicError => [KernelPanicError; SUTError; KirkException; Exception]
  | KernelTaintedError => [KernelTaintedError; KirkException; Exception]
  | KernelTimeoutError => [KernelTimeoutError; KirkException; Exception]
  | ValueError => [ValueError; Exception]
  | TimeoutError => [TimeoutError; Exception]
  end.

Definition issubclass (c d : exn_class) : bool :=
  existsb (exn_class_eqb d) (mro c).

(** An exception instance: its class and the arguments it was built with
    ([SUTError("SUT is not running")] has one, [KernelPanicError()] none). *)
Record exn : Type := mk_exn { exn_cls : exn_class; exn_args : list string }.

Definition isinstance (e : exn) (c : exn_class) : bool :=
  issubclass (exn_cls e) c.

(** How an awaited coroutine ends. *)
Inductive outcome (A : Type) : Type :=
| Ok (a : A)
| Raise (e : exn)
| Cancelled (k : nat).

Arguments Ok {A} a.
Arguments Raise {A} e.
Arguments Cancelled {A} k.

Definition is_ok {A} (o : outcome A) : bool :=
  match o with Ok _ => true | _ => false end.

(** ** The monad of coroutines *)

Definition M (S A : Type) : Type := list Q -> S -> outcome A * S.

Definition ret {S A} (a : A) : M S A := fun _ s => (Ok a, s).

Definition bind {S A B} (m : M S A) (f : A -> M S B) : M S B :=
  fun timers s =>
    match m timers s with
    | (Ok a, s') => f a timers s'
    | (Raise e, s') => (Raise e, s')
    | (Cancelled k, s') => (Cancelled k, s')
    end.

Definition raise {S A} (e : exn) : M S A := fun _ s => (Raise e, s).

Definition get {S} : M S S := fun _ s => (Ok s, s).

Definition modify {S} (f : S -> S) : M S unit := fun _ s => (Ok tt, f s).

Declare Scope coro_scope.
Delimit Scope coro_scope with coro.

Notation "x <- c1 ;; c2" := (bind c1 (fun x => c2))
  (at level 61, c1 at next level, right associativity) : coro_scope.
Notation "c1 ;; c2" := (bind c1 (fun _ => c2))
  (at level 61, right associativity) : coro_scope.

Local Open Scope coro_scope.

(** [try: m except ...: h]: the handler [h] says which exceptions it
    catches.  A cancellation is not an exception of these handlers. *)
Definition try_except {S A} (m : M S A) (h : exn -> option (M S A)) : M S A :=
  fun timers s =>
    match m timers s with
    | (Raise e, s') =>
        match h e with
        | Some k => k timers s'
        | None => (Raise e, s')
        end
    | r => r
    end.

(** [try: m finally: f]: [f] always runs; when it ends normally the
    outcome of [m] stands, otherwise its own outcome replaces it. *)
Definition try_finally {S A} (m : M S A) (f : M S unit) : M S A :=
  fun timers s =>
    let '(r, s') := m timers s in
    match f timers s' with
    | (Ok _, s'') => (r, s'')
    | (Raise e, s'') => (Raise e, s'')
    | (Cancelled k, s'') => (Cancelled k, s'')
    end.

(** [asyncio.wait_for(m, timeout)]: [m] runs with one more active timer;
    a cancellation by that timer becomes [asyncio.TimeoutError], a
    cancellation by an outer one keeps unwinding. *)
Definition wait_for {S A} (m : M S A) (timeout : Q) : M S A :=
  fun timers s =>
    match m (timeout :: timers) s with
    | (Cancelled O, s') => (Raise (mk_exn TimeoutError []), s')
    | (Cancelled (Datatypes.S k), s') => (Cancelled k, s')
    | r => r
    end.

(** ** Data model *)

(** [libkirk.data.Test].  The class lives in a module outside this
    development; its attributes are the ones the schedulers read
    ([full_command] is the command followed by its arguments). *)
Record Test : Type := mk_Test {
  test_name : string;
  test_full_command : string;
  test_cwd : option string;
  test_env : list (string * string);
  test_parallelizable : bool
}.

(** [libkirk.data.Suite]. *)
Record Suite : Type := mk_Suite {
  suite_name : string;
  suite_tests : list Test
}.

(** [libkirk.results.TestResults], with the keyword arguments of its
    constructor calls in [scheduler.py] and [ltp.py]. *)
Record TestResults : Type := mk_TestResults {
  res_test : Test;
  res_failed : Z;
  res_passed : Z;
  res_broken : Z;
  res_skipped : Z;
  res_warnings : Z;
  res_exec_time : Q;
  res_retcode : Z;
  res_stdout : string
}.

(** The dictionary [SUT.get_info] returns. *)
Record sut_info : Type := mk_info {
  info_distro : string;
  info_distro_ver : string;
  info_kernel : string;
  info_arch : string;
  info_cpu : string;
  info_ram : string;
  info_swap : string
}.

(** [libkirk.results.SuiteResults]. *)
Record SuiteResults : Type := mk_SuiteResults {
  sres_suite : Suite;
  sres_tests : list TestResults;
  sres_distro : string;
  sres_distro_ver : string;
  sres_kernel : string;
  sres_arch : string;
  sres_cpu : string;
  sres_swap : string;
  sres_ram : string
}.

(** The dictionary [run_command] returns. *)
Record cmd_data : Type := mk_cmd_data {
  cd_command : string;
  cd_stdout : string;
  cd_returncode : Z;
  cd_exec_time : Q
}.

(** What is handed to [libkirk.events.fire]. *)
Inductive kirk_event : Type :=
| test_started (t : Test)
| test_stdout (t : Test) (data : string)
| kernel_tainted (msg : string)
| kernel_tainted_list (msgs : option (list string))
| kernel_panic
| sut_not_responding
| test_completed (r : TestResults)
| suite_started (s : Suite)
| suite_timeout (s : Suite) (timeout : Q)
| suite_completed (r : SuiteResults) (exec_time : Q)
| sut_restart (name : string)
| sut_stdout (name : string) (data : string).

(** The chronological log: every call of a SUT primitive, with the timers
    that bound it and the way it ended, and every fired event. *)
Inductive event : Type :=
| SutCommunicate (timers : list Q) (r : outcome unit)
| SutStop (timers : list Q) (r : outcome unit)
| SutPing (timers : list Q) (r : outcome Q)
| SutRunCommand (command : string) (timers : list Q) (r : outcome cmd_data)
| Fire (e : kirk_event).

(** The two [IOBuffer] implementations of [scheduler.py]. *)
Inductive IOBuffer : Type :=
| RedirectTestStdout (t : Test)
| RedirectSUTStdout (name : string).

(** ** The SUT and the framework as interfaces *)

(** The primitives a concrete SUT implements ([communicate], [stop],
    [ping], [run_command]), as transitions of the world [W] it lives in.
    Each receives the active timers, and each answers with the chunks it
    writes to the [iobuffer] it was given.  [time_time] reads the clock. *)
Record SUT (W : Type) : Type := mk_SUT {
  sut_name : string;
  sut_communicate : list Q -> W -> list string * outcome unit * W;
  sut_stop : list Q -> W -> list string * outcome unit * W;
  sut_ping : list Q -> W -> outcome Q * W;
  sut_run_command :
    string -> option string -> list (string * string) ->
    list Q -> W -> list string * outcome cmd_data * W;
  time_time : W -> Q
}.

(** [Framework.read_result], the result interpreter. *)
Record Framework : Type := mk_Framework {
  read_result : Test -> string -> Z -> Q -> TestResults
}.

(** ** The state *)

Record state (W : Type) : Type := mk_state {
  world : W;
  log : list event;
  (* class attributes of SUT *)
  tainted_lock : bool;
  tainted_status : option (Z * list string);
  (* the [stdout] attribute of the live RedirectTestStdout *)
  iobuffer_stdout : string;
  (* TestScheduler *)
  ts_results : list TestResults;
  ts_stop : bool;
  ts_stopped : bool;
  ts_tasks : list Test;
  (* SuiteScheduler *)
  ss_results : list SuiteResults;
  ss_stop : bool;
  ss_stopped : bool
}.

Section StateUpdates.
Context {W : Type}.
Implicit Type s : state W.

Definition set_world (w : W) s :=
  mk_state w (log s) (tainted_lock s) (tainted_status s) (iobuffer_stdout s)
    (ts_results s) (ts_stop s) (ts_stopped s) (ts_tasks s)
    (ss_results s) (ss_stop s) (ss_stopped s).
Definition set_log (l : list event) s :=
  mk_state (world s) l (tainted_lock s) (tainted_status s) (iobuffer_stdout s)
    (ts_results s) (ts_stop s) (ts_stopped s) (ts_tasks s)
    (ss_results s) (ss_stop s) (ss_stopped s).
Definition set_tainted_lock (b : bool) s :=
  mk_state (world s) (log s) b (tainted_status s) (iobuffer_stdout s)
    (ts_results s) (ts_stop s) (ts_stopped s) (ts_tasks s)
    (ss_results s) (ss_stop s) (ss_stopped s).
Definition set_tainted_status (q : option (Z * list string)) s :=
  mk_state (world s) (log s) (tainted_lock s) q (iobuffer_stdout s)
    (ts_results s) (ts_stop s) (ts_stopped s) (ts_tasks s)
    (ss_results s) (ss_stop s) (ss_stopped s).
Definition set_iobuffer_stdout (o : string) s :=
  mk_state (world s) (log s) (tainted_lock s) (tainted_status s) o
    (ts_results s) (ts_stop s) (ts_stopped s) (ts_tasks s)
    (ss_results s) (ss_stop s) (ss_stopped s).
Definition set_ts_results (r : list TestResults) s :=
  mk_state (world s) (log s) (tainted_lock s) (tainted_status s)
    (iobuffer_stdout s) r (ts_stop s) (ts_stopped s) (ts_tasks s)
    (ss_results s) (ss_stop s) (ss_stopped s).
Definition set_ts_stop (b : bool) s :=
  mk_state (world s) (log s) (tainted_lock s) (tainted_status s)
    (iobuffer_stdout s) (ts_results s) b (ts_stopped s) (ts_tasks s)
    (ss_results s) (ss_stop s) (ss_stopped s).
Definition set_ts_stopped (b : bool) s :=
  mk_state (world s) (log s) (tainted_lock s) (tainted_status s)
    (iobuffer_stdout s) (ts_results s) (ts_stop s) b (ts_tasks s)
    (ss_results s) (ss_stop s) (ss_stopped s).
Definition set_ts_tasks (t : list Test) s :=
  mk_state (world s) (log s) (tainted_lock s) (tainted_status s)
    (iobuffer_stdout s) (ts_results s) (ts_stop s) (ts_stopped s) t
    (ss_results s) (ss_stop s) (ss_stopped s).
Definition set_ss_results (r : list SuiteResults) s :=
  mk_state (world s) (log s) (tainted_lock s) (tainted_status s)
    (iobuffer_stdout s) (ts_results s) (ts_stop s) (ts_stopped s)
    (ts_tasks s) r (ss_stop s) (ss_stopped s).

(** A fresh state around a world: nothing logged, nothing cached, both
    schedulers as their constructors leave them. *)
Definition init_state (w : W) : state W :=
  mk_state w [] false None "" [] false false [] [] false false.
End StateUpdates.

(** ** Python strings

    A [str] is embedded as a [string]; the characters of the commands'
    output that the code looks at are ASCII. *)

(** [c.isspace()] on the ASCII range: tab, line feed, vertical tab, form
    feed, carriage return, the four separators 0x1c-0x1f and the space. *)
Definition isspace (c : ascii) : bool :=
  let n := nat_of_ascii c in
  ((9 <=? n) && (n <=? 13) || (28 <=? n) && (n <=? 32))%nat.

(** A decimal digit. *)
Definition isdigit_char (c : ascii) : bool :=
  let n := nat_of_ascii c in ((48 <=? n) && (n <=? 57))%nat.

Definition str_rev (s : string) : string :=
  string_of_list_ascii (rev (list_ascii_of_string s)).

(** [s.lstrip()], [s.rstrip()], [s.strip()]. *)
Fixpoint lstrip (s : string) : string :=
  match s with
  | EmptyString => EmptyString
  | String c rest => if isspace c then lstrip rest else s
  end.

Definition rstrip (s : string) : string := str_rev (lstrip (str_rev s)).

Definition strip (s : string) : string := rstrip (lstrip s).

(** [s.isdigit()]: not empty and made of digits. *)
Definition isdigit (s : string) : bool :=
  match s with
  | EmptyString => false
  | _ => forallb isdigit_char (list_ascii_of_string s)
  end.

(** [int(s)] for a string of digits. *)
Definition int (s : string) : Z :=
  fold_left (fun acc c => (10 * acc + (Z.of_nat (nat_of_ascii c) - 48))%Z)
            (list_ascii_of_string s) 0%Z.

(** The binary digits of a positive number, the most significant first. *)
Fixpoint bin_digits (p : positive) : list ascii :=
  match p with
  | xH => ["1"%char]
  | xO q => bin_digits q ++ ["0"%char]
  | xI q => bin_digits q ++ ["1"%char]
  end.

(** [format(code, "0{width}b")] for [code >= 0]: the binary digits, padded
    on the left with zeros up to [width] characters. *)
Definition format_0b (width : nat) (code : Z) : string :=
  let digits := match code with
                | Zpos p => bin_digits p
                | _ => ["0"%char]
                end in
  string_of_list_ascii
    (repeat "0"%char (width - List.length digits) ++ digits).

(** [s[i]], for an index inside the string. *)
Definition str_index (s : string) (i : nat) : option ascii :=
  nth_error (list_ascii_of_string s) i.

Definition ascii_eqb_opt (o : option ascii) (c : ascii) : bool :=
  match o with Some d => Ascii.eqb d c | None => false end.

(** [sub in s]. *)
Fixpoint str_contains (sub s : string) : bool :=
  if String.prefix sub s then true
  else match s with
       | EmptyString => false
       | String _ rest => str_contains sub rest
       end.

(** [s[-n:]]: the last [n] characters of [s] (all of it when shorter). *)
Definition str_last (n : nat) (s : string) : string :=
  let l := String.length s in
  String.substring (l - n) (l - (l - n)) s.

(** The double quote and the line feed, as strings. *)
Definition dquote : string := String (ascii_of_nat 34) EmptyString.
Definition newline : string := String (ascii_of_nat 10) EmptyString.
(** ** [libkirk/sut.py]: the SUT base class *)

(** The table [TAINTED_MSG]. *)
Definition TAINTED_MSG : list string := [
  "proprietary module was loaded";
  "module was force loaded";
  "kernel running on an out of specification system";
  "module was force unloaded";
  "processor reported a Machine Check Exception (MCE)";
  "bad page referenced or some unexpected page flags";
  "taint requested by userspace application";
  "kernel died recently, i.e. there was an OOPS or BUG";
  "ACPI table overridden by user";
  "kernel issued warning";
  "staging driver was loaded";
  "workaround for bug in platform firmware applied";
  "externally-built (“out-of-tree”) module was loaded";
  "unsigned module was loaded";
  "soft lockup occurred";
  "kernel has been live patched";
  "auxiliary taint, defined for and used by distros";
  "kernel was built with the struct randomization plugin"
].

(** The decoding loop of [get_tainted_info]:
    [bits = format(code, f"0{tainted_num}b")[::-1]], then for each [i] of
    [range(0, tainted_num)] the message [i] is appended when
    [bits[i] == "1"]. *)
Definition tainted_messages (code : Z) : list string :=
  let tainted_num := List.length TAINTED_MSG in
  let bits := str_rev (format_0b tainted_num code) in
  fold_left
    (fun messages i =>
       if ascii_eqb_opt (str_index bits i) "1"
       then messages ++ [nth i TAINTED_MSG ""]
       else messages)
    (seq 0 tainted_num) [].

(** The longest prefix of [s] whose characters satisfy [p], and the rest. *)
Fixpoint span (p : ascii -> bool) (s : string) : string * string :=
  match s with
  | EmptyString => (EmptyString, EmptyString)
  | String c rest =>
      if p c then let '(a, b) := span p rest in (String c a, b)
      else (EmptyString, s)
  end.

Definition str_drop (n : nat) (s : string) : string :=
  String.substring n (String.length s - n) s.

(** A match of [label\s+(\d+\s+kB)] at the start of [s]: the group.  The
    three classes and the letter [k] are disjoint, so the greedy match is
    the only one. *)
Definition match_total (label s : string) : option string :=
  if String.prefix label s then
    let '(sp1, r1) := span isspace (str_drop (String.length label) s) in
    let '(digits, r2) := span isdigit_char r1 in
    let '(sp2, r3) := span isspace r2 in
    match sp1, digits, sp2 with
    | String _ _, String _ _, String _ _ =>
        if String.prefix "kB" r3 then Some (digits ++ sp2 ++ "kB")%string
        else None
    | _, _, _ => None
    end
  else None.

(** [re.search(label + r'\s+(?P<g>\d+\s+kB)', s)]: the group of the
    leftmost match. *)
Fixpoint search_total (label s : string) : option string :=
  match match_total label s with
  | Some g => Some g
  | None =>
      match s with
      | EmptyString => None
      | String _ rest => search_total label rest
      end
  end.

Section Sut.
Context {W : Type} (sut : SUT W).

Local Abbreviation coro := (M (state W)).

(** [libkirk.events.fire]: the event goes to the log; the handlers are
    outside the core and the core does not depend on them. *)
Definition fire (e : kirk_event) : coro unit :=
  modify (fun s => set_log (log s ++ [Fire e]) s).

(** [IOBuffer.write] of the two buffers of [scheduler.py]. *)
Definition write (iobuffer : IOBuffer) (data : string) : coro unit :=
  match iobuffer with
  | RedirectTestStdout t =>
      fire (test_stdout t data) ;;
      modify (fun s => set_iobuffer_stdout (iobuffer_stdout s ++ data) s)
  | RedirectSUTStdout name =>
      fire (sut_stdout name data)
  end.

(** [if iobuffer: await iobuffer.write(chunk)], for each chunk. *)
Fixpoint write_all (iobuffer : option IOBuffer) (chunks : list string)
  : coro unit :=
  match chunks with
  | [] => ret tt
  | c :: rest =>
      match iobuffer with
      | Some b => write b c
      | None => ret tt
      end ;;
      write_all iobuffer rest
  end.

(** A call of a primitive: the world moves, the chunks reach the buffer,
    the call is logged with its outcome. *)
Definition primitive {A}
    (call : list Q -> W -> list string * outcome A * W)
    (ev : list Q -> outcome A -> event)
    (iobuffer : option IOBuffer) : coro A :=
  fun timers s =>
    let '(chunks, r, w') := call timers (world s) in
    match write_all iobuffer chunks timers (set_world w' s) with
    | (Ok _, s2) => (r, set_log (log s2 ++ [ev timers r]) s2)
    | (Raise e, s2) => (Raise e, s2)
    | (Cancelled k, s2) => (Cancelled k, s2)
    end.

Definition communicate (iobuffer : option IOBuffer) : coro unit :=
  primitive (sut_communicate sut) SutCommunicate iobuffer.

Definition stop (iobuffer : option IOBuffer) : coro unit :=
  primitive (sut_stop sut) SutStop iobuffer.

Definition ping : coro Q :=
  primitive (fun timers w => let '(r, w') := sut_ping sut timers w in
                             ([], r, w'))
            SutPing None.

Definition run_command (command : string) (cwd : option string)
    (env : list (string * string)) (iobuffer : option IOBuffer)
  : coro cmd_data :=
  primitive (sut_run_command sut command cwd env)
            (SutRunCommand command) iobuffer.

(** What one turn of a [for] loop asks for. *)
Inductive loop_ctl : Type := Break | Continue.

(** The body of [for retry in range(retries)] in [ensure_communicate],
    over the [n] indices that remain from [retry] on. *)
Fixpoint ensure_communicate_loop (iobuffer : option IOBuffer)
    (retries retry : Z) (n : nat) : coro unit :=
  match n with
  | O => ret tt
  | Datatypes.S n' =>
      c <- try_except
             (communicate iobuffer ;; ret Break)
             (fun err =>
                if isinstance err KirkException then
                  Some (if (retry >=? retries - 1)%Z
                        then raise err
                        else stop iobuffer ;; ret Continue)
                else None) ;;
      match c with
      | Break => ret tt
      | Continue =>
          ensure_communicate_loop iobuffer retries (retry + 1) n'
      end
  end.

Definition ensure_communicate (iobuffer : option IOBuffer) (retries : Z)
  : coro unit :=
  let retries := Z.max retries 1 in
  ensure_communicate_loop iobuffer retries 0 (Z.to_nat retries).

(** [_run_cmd] of [get_info]. *)
Definition _run_cmd (cmd : string) : coro string :=
  try_except
    (ret_ <- wait_for (run_command cmd None [] None) 1.5%Q ;;
     if (cd_returncode ret_ =? 0)%Z
     then ret (rstrip (cd_stdout ret_))
     else ret "unknown")
    (fun err =>
       if isinstance err TimeoutError then Some (ret "unknown") else None).

(** [get_info]; the six probes of [asyncio.gather] in their order. *)
Definition get_info : coro sut_info :=
  distro <- _run_cmd (". /etc/os-release && echo " ++ dquote ++ "$ID" ++ dquote) ;;
  distro_ver <- _run_cmd (". /etc/os-release && echo " ++ dquote ++ "$VERSION_ID"
                         ++ dquote) ;;
  kernel <- _run_cmd "uname -s -r -v" ;;
  arch <- _run_cmd "uname -m" ;;
  cpu <- _run_cmd "uname -p" ;;
  meminfo <- _run_cmd "cat /proc/meminfo" ;;
  let memory := "unknown" in
  let swap := "unkown" in
  let '(memory, swap) :=
    match meminfo with
    | EmptyString => (memory, swap)
    | _ =>
        (match search_total "MemTotal:" meminfo with
         | Some g => g
         | None => memory
         end,
         match search_total "SwapTotal:" meminfo with
         | Some g => g
         | None => swap
         end)
    end in
  ret (mk_info distro distro_ver kernel arch cpu memory swap).

(** [get_tainted_info].  The lock is held from the read to the return,
    and released however the body ends. *)
Definition get_tainted_info : coro (Z * list string) :=
  s <- get ;;
  match tainted_lock s, tainted_status s with
  | true, Some status =>
      modify (set_tainted_status None) ;;
      ret status
  | _, _ =>
      modify (set_tainted_lock true) ;;
      try_finally
        (ret_ <- run_command "cat /proc/sys/kernel/tainted" None [] None ;;
         if negb (cd_returncode ret_ =? 0)%Z then
           raise (mk_exn SUTError ["Can't read tainted kernel information"])
         else
           let code := strip (cd_stdout ret_) in
           if negb (isdigit code) then raise (mk_exn SUTError [code])
           else
             let code := int code in
             let messages := tainted_messages code in
             s1 <- get ;;
             match tainted_status s1 with
             | Some _ => modify (set_tainted_status None)
             | None => ret tt
             end ;;
             modify (set_tainted_status (Some (code, messages))) ;;
             ret (code, messages))
        (modify (set_tainted_lock false))
  end.

End Sut.


(** ** [libkirk/host.py]: the SUT on the host's shell *)

(** What [proc.stdout.read(BUFFSIZE)] and the liveness check that follows
    it give: a decoded chunk and whether the process is still alive, or a
    read that does not return before the [k]-th enclosing timer fires. *)
Inductive read : Type :=
| Data (chunk : string) (alive : bool)
| Blocks (k : nat).

(** A process the shell can spawn: its successive reads (after the last
    one the pipe is at end of file and the process is gone), its return
    code and the time it runs. *)
Record process : Type := mk_process {
  pid : nat;
  reads : list read;
  returncode : Z;
  duration : Q
}.

(** What the operating system is asked to do. *)
Inductive os_event : Type :=
| Spawn (command : string) (p : nat)
| Kill (p : nat)
| Wait (p : nat).

(** The attributes of a [HostSUT] and the operating system around it:
    the processes the next [create_subprocess_shell] calls will give (or
    the error they raise), and the requests made so far. *)
Record host : Type := mk_host {
  _running : bool;
  _procs : list nat;
  _stop : bool;
  os_next : list (outcome process);
  os_log : list os_event;
  os_clock : Q
}.

Definition BUFFSIZE : nat := 1024.

(** The [while True] loop of [run_command]: the chunks handed to the
    buffer, the accumulated [stdout], the last value of [panic], and the
    timer that cancelled the loop, if one did. *)
Fixpoint read_loop (rs : list read) (written : list string) (stdout : string)
  : list string * string * bool * option nat :=
  match rs with
  | [] =>
      let sline := "" in
      let stdout := (stdout ++ sline)%string in
      (written ++ [sline], stdout,
       str_contains "Kernel panic" (str_last (2 * BUFFSIZE) stdout), None)
  | Data sline alive :: rest =>
      let stdout := (stdout ++ sline)%string in
      if alive then read_loop rest (written ++ [sline]) stdout
      else (written ++ [sline], stdout,
            str_contains "Kernel panic" (str_last (2 * BUFFSIZE) stdout),
            None)
  | Blocks k :: _ => (written, stdout, false, Some k)
  end.

Fixpoint remove_pid (p : nat) (l : list nat) : list nat :=
  match l with
  | [] => []
  | q :: rest => if Nat.eqb p q then rest else q :: remove_pid p rest
  end.

(** The [finally] clause of [run_command] for a spawned process: it is
    removed from [_procs], killed and waited for. *)
Definition reap (p : nat) (h : host) : host :=
  mk_host (_running h) (remove_pid p (_procs h)) (_stop h) (os_next h)
          (os_log h ++ [Kill p; Wait p]) (os_clock h).

(** [HostSUT.run_command]. *)
Definition host_run_command (command : string) (cwd : option string)
    (env : list (string * string)) (timers : list Q) (h : host)
  : list string * outcome cmd_data * host :=
  match command with
  | EmptyString => ([], Raise (mk_exn ValueError ["command is empty"]), h)
  | _ =>
      if negb (_running h) then
        ([], Raise (mk_exn SUTError ["SUT is not running"]), h)
      else
        match os_next h with
        | [] => ([], Raise (mk_exn Exception ["no process"]), h)
        | Raise e :: next =>
            ([], Raise e,
             mk_host (_running h) (_procs h) (_stop h) next (os_log h)
                     (os_clock h))
        | Cancelled k :: next =>
            ([], Cancelled k,
             mk_host (_running h) (_procs h) (_stop h) next (os_log h)
                     (os_clock h))
        | Ok proc :: next =>
            let h1 := mk_host (_running h) (_procs h ++ [pid proc]) (_stop h)
                              next (os_log h ++ [Spawn command (pid proc)])
                              (os_clock h) in
            let '(written, stdout, panic, cancelled) :=
              read_loop (reads proc) [] "" in
            match cancelled with
            | Some k => (written, Cancelled k, reap (pid proc) h1)
            | None =>
                let h2 := mk_host (_running h1) (_procs h1) (_stop h1)
                                  (os_next h1)
                                  (os_log h1 ++ [Wait (pid proc)])
                                  (os_clock h1 + duration proc)%Q in
                let t_end := duration proc in
                if panic then
                  (written, Raise (mk_exn KernelPanicError []),
                   reap (pid proc) h2)
                else
                  (written,
                   Ok (mk_cmd_data command stdout (returncode proc) t_end),
                   reap (pid proc) h2)
            end
        end
  end.





(** ** [libkirk/ltp.py]: the result interpreter of LTP *)

Definition isalpha_ascii (c : ascii) : bool :=
  let n := nat_of_ascii c in
  ((65 <=? n) && (n <=? 90) || (97 <=? n) && (n <=? 122))%nat.

Definition is_color_param (c : ascii) : bool :=
  isdigit_char c || Ascii.eqb c ";".

(** A match of [\u001b\[[0-9;]+[a-zA-Z]] at the start of [s]: its length. *)
Definition match_color (s : string) : option nat :=
  match s with
  | String esc (String "[" rest) =>
      if Ascii.eqb esc (ascii_of_nat 27) then
        let '(params, after) := span is_color_param rest in
        match params, after with
        | String _ _, String c _ =>
            if isalpha_ascii c then Some (3 + String.length params)%nat
            else None
        | _, _ => None
        end
      else None
  | _ => None
  end.

(** [re.sub(r'\u001b\[[0-9;]+[a-zA-Z]', '', s)]; [skip] characters of a
    match are still to be dropped. *)
Fixpoint sub_colors (skip : nat) (s : string) : string :=
  match s with
  | EmptyString => EmptyString
  | String c rest =>
      match skip with
      | Datatypes.S k => sub_colors k rest
      | O =>
          match match_color s with
          | Some n => sub_colors (n - 1) rest
          | None => String c (sub_colors 0 rest)
          end
      end
  end.

(** [s.count(sub)] for a non-empty [sub]: the occurrences that do not
    overlap, from the left. *)
Fixpoint count_from (skip : nat) (sub s : string) : Z :=
  match s with
  | EmptyString => 0
  | String _ rest =>
      match skip with
      | Datatypes.S k => count_from k sub rest
      | O =>
          if String.prefix sub s
          then 1 + count_from (String.length sub - 1) sub rest
          else count_from 0 sub rest
      end
  end.

Definition str_count (s sub : string) : Z := count_from 0 sub s.

(** A match of [label\s*(\d+)\n] at the start of [s]: the number and what
    follows the match. *)
Definition match_field (label s : string) : option (Z * string) :=
  if String.prefix label s then
    let '(_, r1) := span isspace (str_drop (String.length label) s) in
    let '(digits, r2) := span isdigit_char r1 in
    match digits, r2 with
    | String _ _, String nl r3 =>
        if Ascii.eqb nl (ascii_of_nat 10) then Some (int digits, r3)
        else None
    | _, _ => None
    end
  else None.

(** The five numbers of a summary. *)
Record summary : Type := mk_summary {
  sum_passed : Z;
  sum_failed : Z;
  sum_broken : Z;
  sum_skipped : Z;
  sum_warnings : Z
}.

(** A match of the summary pattern of [read_result] at the start of [s]. *)
Definition match_summary (s : string) : option summary :=
  if String.prefix ("Summary:" ++ newline) s then
    match match_field "passed" (str_drop 9 s) with
    | Some (passed, s1) =>
        match match_field "failed" s1 with
        | Some (failed, s2) =>
            match match_field "broken" s2 with
            | Some (broken, s3) =>
                match match_field "skipped" s3 with
                | Some (skipped, s4) =>
                    match match_field "warnings" s4 with
                    | Some (warnings, _) =>
                        Some (mk_summary passed failed broken skipped
                                         warnings)
                    | None => None
                    end
                | None => None
                end
            | None => None
            end
        | None => None
        end
    | None => None
    end
  else None.

(** [re.search] of the summary pattern: the leftmost match. *)
Fixpoint search_summary (s : string) : option summary :=
  match match_summary s with
  | Some m => Some m
  | None =>
      match s with
      | EmptyString => None
      | String _ rest => search_summary rest
      end
  end.

(** [LTPFramework.read_result]. *)
Definition ltp_read_result (test : Test) (stdout : string) (retcode : Z)
    (exec_t : Q) : TestResults :=
  let stdout := sub_colors 0 stdout in
  let error := (retcode =? -1)%Z in
  let counts :=
    match search_summary stdout with
    | Some m => m
    | None =>
        let passed := str_count stdout "TPASS" in
        let failed := str_count stdout "TFAIL" in
        let skipped := str_count stdout "TSKIP" in
        let broken := str_count stdout "TBROK" in
        let warnings := str_count stdout "TWARN" in
        if (passed =? 0)%Z && (failed =? 0)%Z && (skipped =? 0)%Z
           && (broken =? 0)%Z && (warnings =? 0)%Z
        then
          if (retcode =? 0)%Z then mk_summary 1 failed broken skipped warnings
          else if (retcode =? 4)%Z then mk_summary passed failed broken skipped 1
          else if (retcode =? 32)%Z then mk_summary passed failed broken 1 warnings
          else if negb error then mk_summary passed 1 broken skipped warnings
          else mk_summary passed failed broken skipped warnings
        else mk_summary passed failed broken skipped warnings
    end in
  let broken := if error then 1%Z else sum_broken counts in
  mk_TestResults test (sum_failed counts) (sum_passed counts) broken
                 (sum_skipped counts) (sum_warnings counts) exec_t retcode
                 stdout.

Definition LTPFramework : Framework := mk_Framework ltp_read_result.

(** ** [libkirk/scheduler.py]: [TestScheduler] *)

(** [try: m except ...: h except asyncio.CancelledError: hc]. *)
Definition try_except_cancelled {S A} (m : M S A)
    (h : exn -> option (M S A)) (hc : nat -> M S A) : M S A :=
  fun timers s =>
    match m timers s with
    | (Raise e, s') =>
        match h e with
        | Some k => k timers s'
        | None => (Raise e, s')
        end
    | (Cancelled k, s') => hc k timers s'
    | r => r
    end.

(** The classification of a test attempt. *)
Inductive status : Type :=
| STATUS_OK
| TEST_TIMEOUT
| KERNEL_PANIC
| KERNEL_TAINTED
| KERNEL_TIMEOUT.

(** The local variables of [_run_test] when its [try] statement is left:
    [status], [test_data], [tainted_msg] and [exec_time]. *)
Record attempt : Type := mk_attempt {
  at_status : status;
  at_test_data : option cmd_data;
  at_tainted_msg : option (list string);
  at_exec_time : Q
}.

(** The constructor arguments of a [TestScheduler]. *)
Record TestScheduler : Type := mk_TestScheduler {
  _framework : Framework;
  _timeout : Q;
  _max_workers : nat;
  _force_parallel : bool
}.

Section TestSchedulerCode.
Context {W : Type} (sut : SUT W) (self : TestScheduler).

(** [sys.argv[0]] and [os.getpid()], as the text put in the kernel log. *)
Variable argv0 : string.
Variable getpid : string.

(** The concurrent batch of [_run_parallel]: the tasks of
    [asyncio.gather] under the semaphore of [_max_workers] permits.  How
    they interleave is not fixed by the code; any behaviour is allowed. *)
Variable parallel_batch : list Test -> M (state W) unit.

Local Abbreviation coro := (M (state W)).

(** The [for msg in messages] loop of [_get_tainted_status]. *)
Fixpoint fire_tainted (messages : list string) : coro unit :=
  match messages with
  | [] => ret tt
  | msg :: rest =>
      match msg with
      | EmptyString => ret tt
      | _ => fire (kernel_tainted msg)
      end ;;
      fire_tainted rest
  end.

Definition _get_tainted_status : coro (Z * list string) :=
  r <- get_tainted_info sut ;;
  fire_tainted (snd r) ;;
  ret r.

Definition _write_kmsg (test : Test) : coro unit :=
  ret_ <- run_command sut "id -u" None [] None ;;
  if negb (String.eqb (cd_stdout ret_) ("0" ++ newline)) then ret tt
  else
    let message :=
      (argv0 ++ "[" ++ getpid ++ "]: starting test " ++ test_name test
             ++ " (" ++ test_full_command test ++ ")" ++ newline)%string in
    run_command sut ("echo -n " ++ dquote ++ message ++ dquote
                                ++ " > /dev/kmsg") None [] None ;;
    ret tt.

(** The [try] statement of [_run_test], from the first taint read to the
    end of its handlers. *)
Definition _run_test_try (test : Test) (iobuffer : IOBuffer) (start_t : Q)
  : coro attempt :=
  try_except
    (r1 <- _get_tainted_status ;;
     test_data <- wait_for
                    (run_command sut (test_full_command test) (test_cwd test)
                                 (test_env test) (Some iobuffer))
                    (_timeout self) ;;
     r2 <- _get_tainted_status ;;
     if negb (fst r2 =? fst r1)%Z
     then ret (mk_attempt KERNEL_TAINTED (Some test_data) (Some (snd r2)) 0)
     else ret (mk_attempt STATUS_OK (Some test_data) None 0))
    (fun err =>
       if isinstance err KernelPanicError then
         Some (s <- get ;;
               let exec_time := (time_time sut (world s) - start_t)%Q in
               ret (mk_attempt KERNEL_PANIC None None exec_time))
       else if isinstance err TimeoutError then
         Some (s <- get ;;
               let exec_time := (time_time sut (world s) - start_t)%Q in
               try_except
                 (wait_for (ping sut) 10 ;;
                  ret (mk_attempt TEST_TIMEOUT None None exec_time))
                 (fun err2 =>
                    if isinstance err2 TimeoutError then
                      Some (ret (mk_attempt KERNEL_TIMEOUT None None
                                            exec_time))
                    else None))
       else None).

(** [test_data] as [read_result] receives it: the data of the command,
    or the synthetic one when the status is not OK nor KERNEL_TAINTED. *)
Definition result_data (test : Test) (a : attempt) (stdout : string)
  : cmd_data :=
  match at_status a, at_test_data a with
  | (STATUS_OK | KERNEL_TAINTED), Some d => d
  | _, _ => mk_cmd_data (test_full_command test) stdout (-1)
                        (at_exec_time a)
  end.

Definition _run_test (test : Test) : coro unit :=
  s <- get ;;
  if ts_stop s then ret tt
  else
    fire (test_started test) ;;
    _write_kmsg test ;;
    let iobuffer := RedirectTestStdout test in
    modify (set_iobuffer_stdout "") ;;
    s0 <- get ;;
    let start_t := time_time sut (world s0) in
    a <- _run_test_try test iobuffer start_t ;;
    s1 <- get ;;
    let test_data := result_data test a (iobuffer_stdout s1) in
    let results := read_result (_framework self) test (cd_stdout test_data)
                               (cd_returncode test_data)
                               (cd_exec_time test_data) in
    modify (fun s => set_ts_results (ts_results s ++ [results]) s) ;;
    match at_status a with
    | KERNEL_TAINTED =>
        fire (kernel_tainted_list (at_tainted_msg a)) ;;
        raise (mk_exn KernelTaintedError [])
    | KERNEL_PANIC =>
        fire kernel_panic ;;
        raise (mk_exn KernelPanicError [])
    | KERNEL_TIMEOUT =>
        fire sut_not_responding ;;
        raise (mk_exn KernelTimeoutError [])
    | _ => fire (test_completed results)
    end.

(** [_run_and_wait]: one task after the other. *)
Fixpoint _run_and_wait (tests : list Test) : coro unit :=
  match tests with
  | [] => ret tt
  | test :: rest =>
      modify (fun s => set_ts_tasks (ts_tasks s ++ [test]) s) ;;
      _run_test test ;;
      _run_and_wait rest
  end.

Definition _run_parallel (tests : list Test) : coro unit :=
  match tests with
  | [] => ret tt
  | _ => parallel_batch tests
  end.

(** [TestScheduler.schedule]. *)
Definition TestScheduler_schedule (jobs : list Test) : coro unit :=
  match jobs with
  | [] => raise (mk_exn ValueError ["jobs list is empty"])
  | _ =>
      modify (set_ts_tasks []) ;;
      modify (set_ts_results []) ;;
      try_finally
        (try_except_cancelled
           (if _force_parallel self then _run_parallel jobs
            else
              _run_parallel (filter test_parallelizable jobs) ;;
              _run_and_wait
                (filter (fun t => negb (test_parallelizable t)) jobs))
           (fun err =>
              if isinstance err KirkException then
                Some (s <- get ;;
                      if negb (ts_stop s) then raise err else ret tt)
              else None)
           (fun k =>
              s <- get ;;
              if negb (ts_stop s) then (fun _ s => (Cancelled k, s))
              else ret tt))
        (modify (set_ts_tasks []))
  end.

(** [TestScheduler.stop], called when no task is running any more. *)
Definition TestScheduler_stop : coro unit :=
  s <- get ;;
  match ts_tasks s with
  | [] => ret tt
  | _ =>
      modify (set_ts_stop true) ;;
      try_finally (ret tt)
        (modify (set_ts_stop false) ;; modify (set_ts_stopped true))
  end.

End TestSchedulerCode.

(** ** [libkirk/scheduler.py]: [SuiteScheduler] *)

(** The constructor arguments of a [SuiteScheduler]: the [TestScheduler]
    it builds and the timeout of a suite. *)
Record SuiteScheduler : Type := mk_SuiteScheduler {
  _scheduler : TestScheduler;
  _suite_timeout : Q
}.

(** The local variables of [_run_suite] that its loop updates. *)
Record suite_locals : Type := mk_locals {
  timed_out : bool;
  exec_times : list Q;
  tests_results : list TestResults;
  tests_left : list Test
}.

(** The inner loop of [_run_suite] over [tests_results]: is there a result
    with the name of [test]? *)
Definition found (test : Test) (tests_results : list TestResults) : bool :=
  existsb (fun test_res =>
             String.eqb (test_name test) (test_name (res_test test_res)))
          tests_results.

(** The result given to a test that a suite timeout leaves without one. *)
Definition skipped_result (test : Test) : TestResults :=
  mk_TestResults test 0 0 0 1 0 0 32 "".

Definition is_kernel_error (e : exn) : bool :=
  isinstance e KernelPanicError || isinstance e KernelTaintedError
  || isinstance e KernelTimeoutError.

Section SuiteSchedulerCode.
Context {W : Type} (sut : SUT W) (self : SuiteScheduler).
Variable argv0 : string.
Variable getpid : string.
Variable parallel_batch : list Test -> M (state W) unit.

Local Abbreviation coro := (M (state W)).

Definition _restart_sut : coro unit :=
  fire (sut_restart (sut_name sut)) ;;
  let iobuffer := RedirectSUTStdout (sut_name sut) in
  TestScheduler_stop ;;
  stop sut (Some iobuffer) ;;
  ensure_communicate sut (Some iobuffer) 10.

(** The [try] statement inside the loop of [_run_suite], with its three
    handlers and its [finally] clause. *)
Definition suite_attempt (suite : Suite) (l : suite_locals)
  : list Q -> state W -> outcome unit * suite_locals * state W :=
  fun timers s =>
    let start_t := time_time sut (world s) in
    let '(r, s1) :=
      wait_for (TestScheduler_schedule sut (_scheduler self) argv0 getpid
                                       parallel_batch (tests_left l))
               (_suite_timeout self) timers s in
    let '(r', l', s2) :=
      match r with
      | Ok _ =>
          (Ok tt,
           mk_locals (timed_out l)
                     (exec_times l
                        ++ [(time_time sut (world s1) - start_t)%Q])
                     (tests_results l) (tests_left l),
           s1)
      | Raise e =>
          if isinstance e TimeoutError then
            let '(r2, s2) :=
              fire (suite_timeout suite (_suite_timeout self)) timers s1 in
            (r2,
             mk_locals true (exec_times l) (tests_results l) (tests_left l),
             s2)
          else if is_kernel_error e then
            let '(r2, s2) := _restart_sut timers s1 in (r2, l, s2)
          else (Raise e, l, s1)
      | Cancelled k => (Cancelled k, l, s1)
      end in
    (r',
     mk_locals (timed_out l') (exec_times l')
               (tests_results l' ++ ts_results s2) (tests_left l'),
     s2).

(** The [while not self._stop and tests_left] loop of [_run_suite];
    [None] when [fuel] turns of the loop are not enough. *)
Fixpoint suite_loop (fuel : nat) (suite : Suite) (l : suite_locals)
    (timers : list Q) (s : state W)
  : option (outcome unit * suite_locals * state W) :=
  if negb (ss_stop s) && match tests_left l with [] => false | _ => true end
  then
    match fuel with
    | O => None
    | Datatypes.S fuel' =>
        let '(r, l1, s1) := suite_attempt suite l timers s in
        match r with
        | Ok _ =>
            let left :=
              filter (fun test => negb (found test (tests_results l1)))
                     (suite_tests suite) in
            if timed_out l1 then
              Some (Ok tt,
                    mk_locals true (exec_times l1)
                              (tests_results l1 ++ map skipped_result left)
                              [],
                    s1)
            else
              suite_loop fuel' suite
                         (mk_locals (timed_out l1) (exec_times l1)
                                    (tests_results l1) left)
                         timers s1
        | Raise e => Some (Raise e, l1, s1)
        | Cancelled k => Some (Cancelled k, l1, s1)
        end
    end
  else Some (Ok tt, l, s).

(** The [finally] clause of [_run_suite]. *)
Definition suite_finally (suite : Suite) (info : sut_info) (l : suite_locals)
  : coro unit :=
  let suite_exec_time :=
    match exec_times l with
    | [] => _suite_timeout self
    | _ => fold_left Qplus (exec_times l) 0%Q
    end in
  let suite_results :=
    mk_SuiteResults suite (tests_results l) (info_distro info)
                    (info_distro_ver info) (info_kernel info)
                    (info_arch info) (info_cpu info) (info_swap info)
                    (info_ram info) in
  fire (suite_completed suite_results suite_exec_time) ;;
  modify (fun s => set_ss_results (ss_results s ++ [suite_results]) s).

Definition _run_suite (fuel : nat) (suite : Suite)
  : list Q -> state W -> option (outcome unit * state W) :=
  fun timers s =>
    match (fire (suite_started suite) ;; get_info sut) timers s with
    | (Ok info, s0) =>
        match suite_loop fuel suite
                         (mk_locals false [] [] (suite_tests suite))
                         timers s0 with
        | None => None
        | Some (r, l, s1) =>
            match suite_finally suite info l timers s1 with
            | (Ok _, s2) => Some (r, s2)
            | (Raise e, s2) => Some (Raise e, s2)
            | (Cancelled k, s2) => Some (Cancelled k, s2)
            end
        end
    | (Raise e, s0) => Some (Raise e, s0)
    | (Cancelled k, s0) => Some (Cancelled k, s0)
    end.

(** The [for suite in jobs] loop of [SuiteScheduler.schedule]. *)
Fixpoint run_suites (fuel : nat) (jobs : list Suite)
    (timers : list Q) (s : state W) : option (outcome unit * state W) :=
  match jobs with
  | [] => Some (Ok tt, s)
  | suite :: rest =>
      match _run_suite fuel suite timers s with
      | Some (Ok _, s') => run_suites fuel rest timers s'
      | other => other
      end
  end.

(** [SuiteScheduler.schedule]. *)
Definition SuiteScheduler_schedule (fuel : nat) (jobs : list Suite)
  : list Q -> state W -> option (outcome unit * state W) :=
  fun timers s =>
    match jobs with
    | [] => Some (Raise (mk_exn ValueError ["jobs list is empty"]), s)
    | _ => run_suites fuel jobs timers (set_ss_results [] s)
    end.

End SuiteSchedulerCode.
(** ** A scripted SUT

    A test double, the stub of the unit tests: its world is the list of
    the answers it still has to give, each call consumes the next one. *)

Inductive reply : Type :=
| ReplySession (chunks : list string) (r : outcome unit)
| ReplyPing (r : outcome Q)
| ReplyCommand (chunks : list string) (r : outcome cmd_data).

Definition script_error : exn := mk_exn Exception ["unexpected call"].

Definition scripted_session (timers : list Q) (w : list reply)
  : list string * outcome unit * list reply :=
  match w with
  | ReplySession chunks r :: w' => (chunks, r, w')
  | _ => ([], Raise script_error, w)
  end.

Definition scripted_ping (timers : list Q) (w : list reply)
  : outcome Q * list reply :=
  match w with
  | ReplyPing r :: w' => (r, w')
  | _ => (Raise script_error, w)
  end.

Definition scripted_run_command (command : string) (cwd : option string)
    (env : list (string * string)) (timers : list Q) (w : list reply)
  : list string * outcome cmd_data * list reply :=
  match w with
  | ReplyCommand chunks r :: w' => (chunks, r, w')
  | _ => ([], Raise script_error, w)
  end.

Definition scripted_sut : SUT (list reply) :=
  mk_SUT "scripted" scripted_session scripted_session scripted_ping
         scripted_run_command (fun _ => 0%Q).

(** * Properties *)

(** ** Running a computation step by step *)

Lemma bind_ok {S A B} (m : M S A) (f : A -> M S B) timers s a s' :
  m timers s = (Ok a, s') -> bind m f timers s = f a timers s'.
Proof. intros H. unfold bind. now rewrite H. Qed.

Lemma bind_raise {S A B} (m : M S A) (f : A -> M S B) timers s e s' :
  m timers s = (Raise e, s') -> bind m f timers s = (Raise e, s').
Proof. intros H. unfold bind. now rewrite H. Qed.

Lemma bind_cancelled {S A B} (m : M S A) (f : A -> M S B) timers s k s' :
  m timers s = (Cancelled k, s') -> bind m f timers s = (Cancelled k, s').
Proof. intros H. unfold bind. now rewrite H. Qed.

(** A computation that did not return passes its outcome on. *)
Definition pass {A B} (o : outcome A) : outcome B :=
  match o with
  | Ok _ => Raise (mk_exn Exception [])
  | Raise e => Raise e
  | Cancelled k => Cancelled k
  end.

Lemma bind_fail {S A B} (m : M S A) (f : A -> M S B) timers s r s' :
  m timers s = (r, s') -> is_ok r = false ->
  bind m f timers s = (pass r, s').
Proof.
  intros H Hr. unfold bind. rewrite H. destruct r; [discriminate| |];
    reflexivity.
Qed.

(** ** Facts on the primitives *)

(** The calls of SUT primitives in a piece of log, fired events left out. *)
Definition calls (l : list event) : list event :=
  filter (fun ev => match ev with Fire _ => false | _ => true end) l.

Lemma calls_app (l1 l2 : list event) : calls (l1 ++ l2) = calls l1 ++ calls l2.
Proof. apply filter_app. Qed.

(** What a call leaves untouched: everything but the world, the log and
    the text gathered by the live test buffer. *)
Definition same_objects {W} (s s' : state W) : Prop :=
  tainted_lock s' = tainted_lock s /\
  tainted_status s' = tainted_status s /\
  ts_results s' = ts_results s /\
  ts_stop s' = ts_stop s /\
  ts_stopped s' = ts_stopped s /\
  ts_tasks s' = ts_tasks s /\
  ss_results s' = ss_results s /\
  ss_stop s' = ss_stop s /\
  ss_stopped s' = ss_stopped s.

Lemma same_objects_refl {W} (s : state W) : same_objects s s.
Proof. repeat split. Qed.

Lemma same_objects_trans {W} (s1 s2 s3 : state W) :
  same_objects s1 s2 -> same_objects s2 s3 -> same_objects s1 s3.
Proof.
  unfold same_objects; intros H1 H2.
  decompose [and] H1; decompose [and] H2; repeat split; congruence.
Qed.

Section SutFacts.
Context {W : Type} (sut : SUT W).

Lemma write_all_spec iobuffer chunks timers (s : state W) :
  exists s' fires,
    write_all iobuffer chunks timers s = (Ok tt, s') /\
    log s' = log s ++ fires /\ calls fires = [] /\
    world s' = world s /\ same_objects s s'.
Proof.
  revert s; induction chunks as [|c rest IH]; intros s.
  - exists s, []. simpl. rewrite app_nil_r. repeat split.
  - simpl. destruct iobuffer as [[t|name]|]; unfold bind at 1; simpl;
      match goal with |- context [write_all _ rest timers ?s1] =>
        destruct (IH s1) as (s' & fires & E & L & C & Wd & Sm) end;
      rewrite E; simpl in L, Wd.
    + eexists s', (_ :: fires). split; [reflexivity|].
      rewrite L, <- app_assoc. simpl.
      split; [reflexivity|]. split; [exact C|]. split; [exact Wd|].
      exact Sm.
    + eexists s', (_ :: fires). split; [reflexivity|].
      rewrite L, <- app_assoc. simpl.
      split; [reflexivity|]. split; [exact C|]. split; [exact Wd|].
      exact Sm.
    + exists s', fires. repeat split; try assumption; apply Sm.
Qed.

(** A primitive moves the world as the SUT says, logs the call after the
    events of its chunks, and returns what the SUT answered. *)
Lemma primitive_spec {A} (call : list Q -> W -> list string * outcome A * W)
    ev iobuffer timers (s : state W) chunks r w' :
  call timers (world s) = (chunks, r, w') ->
  exists fires s',
    primitive call ev iobuffer timers s = (r, s') /\
    world s' = w' /\
    log s' = log s ++ fires ++ [ev timers r] /\
    calls fires = [] /\ same_objects s s'.
Proof.
  intros E. unfold primitive. rewrite E.
  destruct (write_all_spec iobuffer chunks timers (set_world w' s))
    as (s2 & fires & E2 & L & C & Wd & Sm).
  rewrite E2. exists fires. eexists. split; [reflexivity|].
  simpl in *. split; [exact Wd|].
  rewrite L, <- app_assoc. split; [reflexivity|].
  split; [exact C|]. exact Sm.
Qed.

(** *** [ensure_communicate] *)

(** A failed attempt that is followed by another one: [communicate] raised
    the [KirkException] [e], then [stop] returned. *)
Definition failed_round (timers : list Q) (e : exn) : list event :=
  [SutCommunicate timers (Raise e); SutStop timers (Ok tt)].

(** An outcome the [except KirkException] clause does not catch. *)
Definition uncaught (o : outcome unit) : Prop :=
  match o with
  | Ok _ => False
  | Raise e => isinstance e KirkException = false
  | Cancelled _ => True
  end.

(** The ways [ensure_communicate] ends after [k] failed rounds when [n]
    attempts are allowed: the next attempt succeeds; or it is the [n]-th,
    it fails and its error is raised again; or it ends in a way the loop
    does not catch; or the [stop] that follows it does not return. *)
Definition ensure_communicate_end (timers : list Q) (n k : nat)
    (tail : list event) (r : outcome unit) : Prop :=
  (tail = [SutCommunicate timers (Ok tt)] /\ r = Ok tt) \/
  (exists e, isinstance e KirkException = true /\
             tail = [SutCommunicate timers (Raise e)] /\
             Datatypes.S k = n /\ r = Raise e) \/
  (exists o, tail = [SutCommunicate timers o] /\ uncaught o /\ r = o) \/
  (exists e o, isinstance e KirkException = true /\
               tail = [SutCommunicate timers (Raise e); SutStop timers o] /\
               is_ok o = false /\ (Datatypes.S k < n)%nat /\ r = o).

Lemma ensure_communicate_loop_spec iobuffer retries timers :
  forall (n : nat) (retry : Z) (s s' : state W) r,
    (retry + Z.of_nat n = retries)%Z -> (0 < n)%nat ->
    ensure_communicate_loop sut iobuffer retries retry n timers s = (r, s') ->
    exists es tail tr,
      log s' = log s ++ tr /\
      calls tr = flat_map (failed_round timers) es ++ tail /\
      Forall (fun e => isinstance e KirkException = true) es /\
      (List.length es < n)%nat /\
      ensure_communicate_end timers n (List.length es) tail r /\
      same_objects s s'.
Proof.
  induction n as [|n IH]; intros retry s s' r Hn Hpos Hrun; [lia|].
  simpl in Hrun. unfold bind at 1, try_except, bind at 1, communicate in Hrun.
  destruct (sut_communicate sut timers (world s)) as [[chunks o] w1] eqn:E.
  destruct (primitive_spec (sut_communicate sut) SutCommunicate iobuffer
              timers s E) as (fires & s1 & P & _ & L1 & C1 & S1).
  rewrite P in Hrun. destruct o as [[]|e|k].
  - (* the attempt succeeds *)
    cbn in Hrun. inversion Hrun; subst s' r; clear Hrun.
    exists [], [SutCommunicate timers (Ok tt)], (fires ++ [SutCommunicate timers (Ok tt)]).
    split; [exact L1|]. split; [rewrite calls_app, C1; reflexivity|].
    split; [constructor|]. split; [simpl; lia|].
    split; [left; split; reflexivity|exact S1].
  - destruct (isinstance e KirkException) eqn:K.
    + destruct (retry >=? retries - 1)%Z eqn:Last.
      * (* the last attempt fails *)
        cbn in Hrun. inversion Hrun; subst s' r; clear Hrun.
        exists [], [SutCommunicate timers (Raise e)],
               (fires ++ [SutCommunicate timers (Raise e)]).
        split; [exact L1|]. split; [rewrite calls_app, C1; reflexivity|].
        split; [constructor|]. split; [simpl; lia|].
        split; [|exact S1].
        right; left. exists e. repeat split; try assumption.
        simpl. apply Z.geb_le in Last. lia.
      * (* an attempt fails and the SUT is stopped *)
        rewrite Z.geb_leb in Last. apply Z.leb_gt in Last.
        unfold bind at 1, stop in Hrun.
        destruct (sut_stop sut timers (world s1)) as [[chunks2 o2] w2] eqn:E2.
        destruct (primitive_spec (sut_stop sut) SutStop iobuffer
                    timers s1 E2) as (fires2 & s2 & P2 & _ & L2 & C2 & S2).
        rewrite P2 in Hrun. destruct o2 as [[]|e2|k2].
        -- cbn in Hrun.
           apply IH in Hrun; [|lia|lia].
           destruct Hrun as (es & tail & tr & L & C & F & Len & End & Sm).
           exists (e :: es), tail,
             (fires ++ [SutCommunicate timers (Raise e)] ++ fires2
                ++ [SutStop timers (Ok tt)] ++ tr).
           split.
           { rewrite L, L2, L1. repeat rewrite <- app_assoc. reflexivity. }
           split.
           { repeat rewrite calls_app. rewrite C1, C2, C. reflexivity. }
           split; [constructor; assumption|].
           split; [simpl; lia|]. split.
           { simpl. destruct End as [End|[End|[End|End]]].
             - left; exact End.
             - right; left. destruct End as (e' & ? & ? & ? & ?).
               exists e'. repeat split; try assumption. lia.
             - right; right; left. exact End.
             - right; right; right. destruct End as (e' & o' & ? & ? & ? & ? & ?).
               exists e', o'. repeat split; try assumption. lia. }
           eapply same_objects_trans; [exact S1|].
           eapply same_objects_trans; [exact S2|exact Sm].
        -- cbn in Hrun. inversion Hrun; subst s' r; clear Hrun.
           exists [], [SutCommunicate timers (Raise e); SutStop timers (Raise e2)],
             (fires ++ [SutCommunicate timers (Raise e)] ++ fires2
                ++ [SutStop timers (Raise e2)]).
           split.
           { rewrite L2, L1. repeat rewrite <- app_assoc. reflexivity. }
           split.
           { repeat rewrite calls_app. rewrite C1, C2. reflexivity. }
           split; [constructor|]. split; [simpl; lia|]. split.
           { right; right; right. exists e, (Raise e2).
             repeat split; try assumption. simpl. lia. }
           eapply same_objects_trans; [exact S1|exact S2].
        -- cbn in Hrun. inversion Hrun; subst s' r; clear Hrun.
           exists [], [SutCommunicate timers (Raise e); SutStop timers (Cancelled k2)],
             (fires ++ [SutCommunicate timers (Raise e)] ++ fires2
                ++ [SutStop timers (Cancelled k2)]).
           split.
           { rewrite L2, L1. repeat rewrite <- app_assoc. reflexivity. }
           split.
           { repeat rewrite calls_app. rewrite C1, C2. reflexivity. }
           split; [constructor|]. split; [simpl; lia|]. split.
           { right; right; right. exists e, (Cancelled k2).
             repeat split; try assumption. simpl. lia. }
           eapply same_objects_trans; [exact S1|exact S2].
    + (* an error that is not a KirkException *)
      cbn in Hrun. inversion Hrun; subst s' r; clear Hrun.
      exists [], [SutCommunicate timers (Raise e)],
             (fires ++ [SutCommunicate timers (Raise e)]).
      split; [exact L1|]. split; [rewrite calls_app, C1; reflexivity|].
      split; [constructor|]. split; [simpl; lia|].
      split; [|exact S1].
      right; right; left. exists (Raise e). repeat split. exact K.
  - (* the attempt is cancelled *)
    cbn in Hrun. inversion Hrun; subst s' r; clear Hrun.
    exists [], [SutCommunicate timers (Cancelled k)],
           (fires ++ [SutCommunicate timers (Cancelled k)]).
    split; [exact L1|]. split; [rewrite calls_app, C1; reflexivity|].
    split; [constructor|]. split; [simpl; lia|].
    split; [|exact S1].
    right; right; left. exists (Cancelled k). repeat split.
Qed.

Lemma ensure_communicate_spec iobuffer retries timers (s s' : state W) r :
  ensure_communicate sut iobuffer retries timers s = (r, s') ->
  exists es tail tr,
    log s' = log s ++ tr /\
    calls tr = flat_map (failed_round timers) es ++ tail /\
    Forall (fun e => isinstance e KirkException = true) es /\
    (List.length es < Z.to_nat (Z.max retries 1))%nat /\
    ensure_communicate_end timers (Z.to_nat (Z.max retries 1))
                           (List.length es) tail r /\
    same_objects s s'.
Proof.
  unfold ensure_communicate. intros Hrun.
  apply ensure_communicate_loop_spec in Hrun; [exact Hrun|lia|lia].
Qed.

(** A [communicate] that fails twice and then succeeds, under three
    allowed attempts. *)
Lemma ensure_communicate_third_attempt iobuffer timers (s : state W)
    e1 e2 c1 c2 c3 c4 c5 w1 w2 w3 w4 w5 :
  isinstance e1 KirkException = true ->
  isinstance e2 KirkException = true ->
  sut_communicate sut timers (world s) = (c1, Raise e1, w1) ->
  sut_stop sut timers w1 = (c2, Ok tt, w2) ->
  sut_communicate sut timers w2 = (c3, Raise e2, w3) ->
  sut_stop sut timers w3 = (c4, Ok tt, w4) ->
  sut_communicate sut timers w4 = (c5, Ok tt, w5) ->
  exists s' tr,
    ensure_communicate sut iobuffer 3 timers s = (Ok tt, s') /\
    world s' = w5 /\ log s' = log s ++ tr /\
    calls tr = [SutCommunicate timers (Raise e1); SutStop timers (Ok tt);
                SutCommunicate timers (Raise e2); SutStop timers (Ok tt);
                SutCommunicate timers (Ok tt)].
Proof.
  intros K1 K2 E1 E2 E3 E4 E5.
  destruct (primitive_spec (sut_communicate sut) SutCommunicate iobuffer
              timers s E1) as (f1 & s1 & P1 & W1 & L1 & C1 & _).
  rewrite <- W1 in E2.
  destruct (primitive_spec (sut_stop sut) SutStop iobuffer
              timers s1 E2) as (f2 & s2 & P2 & W2 & L2 & C2 & _).
  rewrite <- W2 in E3.
  destruct (primitive_spec (sut_communicate sut) SutCommunicate iobuffer
              timers s2 E3) as (f3 & s3 & P3 & W3 & L3 & C3 & _).
  rewrite <- W3 in E4.
  destruct (primitive_spec (sut_stop sut) SutStop iobuffer
              timers s3 E4) as (f4 & s4 & P4 & W4 & L4 & C4 & _).
  rewrite <- W4 in E5.
  destruct (primitive_spec (sut_communicate sut) SutCommunicate iobuffer
              timers s4 E5) as (f5 & s5 & P5 & W5 & L5 & C5 & _).
  exists s5. eexists. split.
  { unfold ensure_communicate.
    change (Z.to_nat (Z.max 3 1)) with 3%nat. change (Z.max 3 1) with 3%Z.
    cbn [ensure_communicate_loop].
    unfold bind, try_except, communicate, stop, ret, raise.
    rewrite P1, K1. cbn. rewrite P2, P3, K2. cbn. rewrite P4, P5.
    reflexivity. }
  split; [exact W5|]. split.
  { rewrite L5, L4, L3, L2, L1. repeat rewrite <- app_assoc. reflexivity. }
  repeat rewrite calls_app. rewrite C1, C2, C3, C4, C5. reflexivity.
Qed.

End SutFacts.

(** C6.  With [retries = n >= 1], [ensure_communicate] makes at most [n]
    [communicate] attempts; every attempt that fails with a
    [KirkException] and is not the [n]-th is followed by exactly one
    [stop]; the first success ends the loop; the error is raised again
    only when the [n]-th attempt has failed, with no [stop] after it.  The
    calls are [communicate; stop] for each failed round, then the tail of
    [ensure_communicate_end].  With [retries = 3] and a [communicate] that
    fails twice and then succeeds, [stop] is called exactly twice and the
    third [communicate] succeeds. *)
Theorem ensure_communicate_retries :
  (forall W (sut : SUT W) iobuffer retries timers (s s' : state W) r,
      (1 <= retries)%Z ->
      ensure_communicate sut iobuffer retries timers s = (r, s') ->
      exists es tail tr,
        log s' = log s ++ tr /\
        calls tr = flat_map (failed_round timers) es ++ tail /\
        Forall (fun e => isinstance e KirkException = true) es /\
        (List.length es < Z.to_nat retries)%nat /\
        ensure_communicate_end timers (Z.to_nat retries)
                               (List.length es) tail r) /\
  (forall W (sut : SUT W) iobuffer timers (s : state W)
          e1 e2 c1 c2 c3 c4 c5 w1 w2 w3 w4 w5,
      isinstance e1 KirkException = true ->
      isinstance e2 KirkException = true ->
      sut_communicate sut timers (world s) = (c1, Raise e1, w1) ->
      sut_stop sut timers w1 = (c2, Ok tt, w2) ->
      sut_communicate sut timers w2 = (c3, Raise e2, w3) ->
      sut_stop sut timers w3 = (c4, Ok tt, w4) ->
      sut_communicate sut timers w4 = (c5, Ok tt, w5) ->
      exists s' tr,
        ensure_communicate sut iobuffer 3 timers s = (Ok tt, s') /\
        world s' = w5 /\ log s' = log s ++ tr /\
        calls tr = [SutCommunicate timers (Raise e1); SutStop timers (Ok tt);
                    SutCommunicate timers (Raise e2); SutStop timers (Ok tt);
                    SutCommunicate timers (Ok tt)]).
Proof.
  split.
  - intros W sut iobuffer retries timers s s' r Hn Hrun.
    destruct (ensure_communicate_spec _ _ _ _ _ Hrun)
      as (es & tail & tr & L & C & F & Len & End & _).
    rewrite Z.max_l in Len, End by lia.
    exists es, tail, tr. repeat split; assumption.
  - intros. eapply ensure_communicate_third_attempt; eassumption.
Qed.

(** The stub of the unit test: two [SUTError]s, then a success. *)
Definition fails_twice : list reply :=
  [ReplySession [] (Raise (mk_exn SUTError ["boot failed"]));
   ReplySession [] (Ok tt);
   ReplySession [] (Raise (mk_exn SUTError ["boot failed"]));
   ReplySession [] (Ok tt);
   ReplySession [] (Ok tt)].

Lemma ensure_communicate_retries_witness :
  exists s' tr,
    ensure_communicate scripted_sut None 3 [] (init_state fails_twice)
      = (Ok tt, s') /\
    world s' = [] /\ log s' = log (init_state fails_twice) ++ tr /\
    calls tr = [SutCommunicate [] (Raise (mk_exn SUTError ["boot failed"]));
                SutStop [] (Ok tt);
                SutCommunicate [] (Raise (mk_exn SUTError ["boot failed"]));
                SutStop [] (Ok tt);
                SutCommunicate [] (Ok tt)].
Proof.
  apply (proj2 ensure_communicate_retries _ scripted_sut None []
           (init_state fails_twice)
           (mk_exn SUTError ["boot failed"]) (mk_exn SUTError ["boot failed"])
           [] [] [] [] []
           (tl fails_twice) (tl (tl fails_twice)) (tl (tl (tl fails_twice)))
           (tl (tl (tl (tl fails_twice)))) []);
    reflexivity.
Defined.

(** C10.  With [retries <= 0] the count is clamped to 1: [communicate] is
    attempted exactly once, [stop] is never called, and the outcome of
    that single attempt (its error, when it fails) is the outcome of
    [ensure_communicate]. *)
Theorem ensure_communicate_clamped :
  forall W (sut : SUT W) iobuffer retries timers (s : state W),
    (retries <= 0)%Z ->
    exists chunks o w' s' tr,
      sut_communicate sut timers (world s) = (chunks, o, w') /\
      ensure_communicate sut iobuffer retries timers s = (o, s') /\
      world s' = w' /\ log s' = log s ++ tr /\
      calls tr = [SutCommunicate timers o].
Proof.
  intros W sut iobuffer retries timers s Hn.
  destruct (sut_communicate sut timers (world s)) as [[chunks o] w'] eqn:E.
  destruct (primitive_spec (sut_communicate sut) SutCommunicate iobuffer
              timers s E) as (fires & s1 & P & W1 & L1 & C1 & _).
  exists chunks, o, w', s1, (fires ++ [SutCommunicate timers o]).
  split; [reflexivity|]. split.
  - unfold ensure_communicate. rewrite Z.max_r by lia.
    change (Z.to_nat 1) with 1%nat. cbn [ensure_communicate_loop].
    unfold bind, try_except, communicate, ret, raise. rewrite P.
    destruct o as [[]|e|k]; try reflexivity.
    destruct (isinstance e KirkException); reflexivity.
  - split; [exact W1|]. split; [exact L1|].
    rewrite calls_app, C1. reflexivity.
Qed.

Lemma ensure_communicate_clamped_witness :
  exists chunks o w' s' tr,
    sut_communicate scripted_sut []
      (world (init_state [ReplySession [] (Raise (mk_exn SUTError ["down"]))]))
      = (chunks, o, w') /\
    ensure_communicate scripted_sut None (-2)%Z []
      (init_state [ReplySession [] (Raise (mk_exn SUTError ["down"]))])
      = (o, s') /\
    world s' = w' /\
    log s' = log (init_state [ReplySession [] (Raise (mk_exn SUTError ["down"]))]) ++ tr /\
    calls tr = [SutCommunicate [] o].
Proof.
  apply (@ensure_communicate_clamped _ scripted_sut None (-2)%Z []
           (init_state [ReplySession [] (Raise (mk_exn SUTError ["down"]))])).
  lia.
Defined.

(** ** Decoding of the taint bitmask *)

Lemma fold_left_append_filter {A B} (f : A -> bool) (g : A -> B) l init :
  fold_left (fun acc i => if f i then acc ++ [g i] else acc) l init
  = init ++ map g (filter f l).
Proof.
  revert init; induction l as [|a l IH]; intros init; simpl.
  - now rewrite app_nil_r.
  - rewrite IH. destruct (f a); simpl; [now rewrite <- app_assoc|reflexivity].
Qed.

Lemma nth_error_zeros k i :
  ascii_eqb_opt (nth_error (repeat "0"%char k) i) "1" = false.
Proof.
  revert i; induction k as [|k IH]; intros [|i]; simpl; auto.
Qed.

Lemma pred_N_of_succ_nat j : Pos.pred_N (Pos.of_succ_nat j) = N.of_nat j.
Proof.
  destruct j as [|k]; [reflexivity|].
  simpl Pos.of_succ_nat. now rewrite Pos.pred_N_succ.
Qed.

(** Read from the least significant end, character [i] of the binary
    digits (and of any padding with zeros) is bit [i]. *)
Lemma rev_bin_digits_bit p k : forall i,
  ascii_eqb_opt (nth_error (rev (bin_digits p) ++ repeat "0"%char k) i) "1"
  = Pos.testbit p (N.of_nat i).
Proof.
  induction p as [q IH|q IH|]; intros i; simpl bin_digits.
  - rewrite rev_app_distr. destruct i; [reflexivity|].
    simpl. rewrite pred_N_of_succ_nat. apply IH.
  - rewrite rev_app_distr. destruct i; [reflexivity|].
    simpl. rewrite pred_N_of_succ_nat. apply IH.
  - destruct i; simpl; [reflexivity|apply nth_error_zeros].
Qed.

Lemma rev_repeat {A} (a : A) k : rev (repeat a k) = repeat a k.
Proof.
  induction k as [|k IH]; simpl; [reflexivity|].
  rewrite IH. clear IH. induction k; simpl; [reflexivity|congruence].
Qed.

Lemma format_0b_bit width code i :
  (0 <= code)%Z ->
  ascii_eqb_opt (str_index (str_rev (format_0b width code)) i) "1"
  = Z.testbit code (Z.of_nat i).
Proof.
  intros Hc. unfold str_index, str_rev, format_0b.
  rewrite !list_ascii_of_string_of_list_ascii, rev_app_distr, rev_repeat.
  destruct code as [|p|p]; [| |lia].
  - simpl rev. rewrite Z.testbit_0_l.
    destruct i; simpl; [reflexivity|apply nth_error_zeros].
  - rewrite rev_bin_digits_bit.
    destruct i; [destruct p; reflexivity|reflexivity].
Qed.

(** The reasons of the bits of [code] that are set, by increasing bit. *)
Definition reasons_of (code : Z) : list string :=
  map (fun i => nth i TAINTED_MSG "")
      (filter (fun i => Z.testbit code (Z.of_nat i))
              (seq 0 (List.length TAINTED_MSG))).

Lemma tainted_messages_bits code :
  (0 <= code)%Z -> tainted_messages code = reasons_of code.
Proof.
  intros Hc. unfold tainted_messages, reasons_of.
  rewrite fold_left_append_filter, app_nil_l.
  apply f_equal, filter_ext. intros i. now apply format_0b_bit.
Qed.

Lemma int_nonneg_from l : forall acc,
  (0 <= acc)%Z -> forallb isdigit_char l = true ->
  (0 <= fold_left
          (fun acc c => (10 * acc + (Z.of_nat (nat_of_ascii c) - 48))%Z)
          l acc)%Z.
Proof.
  induction l as [|c l IH]; intros acc Ha Hd; cbn [fold_left];
    [exact Ha|].
  cbn [forallb] in Hd. apply andb_true_iff in Hd. destruct Hd as [Hc Hl].
  apply IH; [|exact Hl].
  unfold isdigit_char in Hc. cbv zeta in Hc.
  remember (nat_of_ascii c) as n. apply andb_true_iff in Hc.
  destruct Hc as [H1 _]. apply Nat.leb_le in H1. lia.
Qed.

Lemma int_nonneg s : isdigit s = true -> (0 <= int s)%Z.
Proof.
  intros H. unfold int. apply int_nonneg_from; [lia|].
  destruct s; [discriminate|exact H].
Qed.

Section TaintFacts.
Context {W : Type} (sut : SUT W).

(** A read of the taint file that succeeds, by a caller that is not
    served from the cache. *)
Lemma get_tainted_info_reads timers (s : state W) chunks data w' :
  tainted_lock s && (if tainted_status s is Some _ then true else false)
    = false ->
  sut_run_command sut "cat /proc/sys/kernel/tainted" None [] timers (world s)
    = (chunks, Ok data, w') ->
  cd_returncode data = 0%Z ->
  isdigit (strip (cd_stdout data)) = true ->
  let code := int (strip (cd_stdout data)) in
  exists s',
    get_tainted_info sut timers s = (Ok (code, reasons_of code), s') /\
    tainted_status s' = Some (code, reasons_of code) /\
    tainted_lock s' = false /\ world s' = w' /\
    ts_results s' = ts_results s /\ ts_stop s' = ts_stop s.
Proof.
  intros Hcache E Hrc Hdig code.
  assert (Hs0 : world (set_tainted_lock true s) = world s) by reflexivity.
  rewrite <- Hs0 in E.
  destruct (primitive_spec (sut_run_command sut "cat /proc/sys/kernel/tainted"
                              None [])
              (SutRunCommand "cat /proc/sys/kernel/tainted") None timers
              (set_tainted_lock true s) E)
    as (fires & s1 & P & W1 & L1 & C1 & S1).
  assert (Hrun :
    get_tainted_info sut timers s
    = try_finally
        (ret_ <- run_command sut "cat /proc/sys/kernel/tainted" None [] None ;;
         if negb (cd_returncode ret_ =? 0)%Z then
           raise (mk_exn SUTError ["Can't read tainted kernel information"])
         else
           let code := strip (cd_stdout ret_) in
           if negb (isdigit code) then raise (mk_exn SUTError [code])
           else
             let code := int code in
             let messages := tainted_messages code in
             s1 <- get ;;
             match tainted_status s1 with
             | Some _ => modify (set_tainted_status None)
             | None => ret tt
             end ;;
             modify (set_tainted_status (Some (code, messages))) ;;
             ret (code, messages))
        (modify (set_tainted_lock false)) timers (set_tainted_lock true s)).
  { unfold get_tainted_info, bind at 1, get at 1.
    destruct (tainted_lock s), (tainted_status s); try discriminate;
      reflexivity. }
  rewrite Hrun. unfold try_finally, bind at 1, run_command. rewrite P.
  rewrite Hrc. change (negb (0 =? 0)%Z) with false. cbv iota zeta.
  rewrite Hdig. change (negb true) with false. cbv iota.
  rewrite (tainted_messages_bits (int_nonneg _ Hdig)).
  destruct S1 as (_ & _ & R & St & _).
  unfold bind, get, modify, ret.
  destruct (tainted_status s1); eexists; (split; [reflexivity|]);
    simpl; repeat split; assumption.
Qed.

End TaintFacts.

(** X1.  [get_tainted_info] decodes the integer it reads as a bit vector
    against the ordered table [TAINTED_MSG]: the reason of index [i] is
    returned exactly when bit [i] of the integer is set, and the reasons
    come by increasing index; for the bitmask 5 these are the reasons of
    index 0 and 2, in that order.  The decoded pair replaces the cache. *)
Theorem get_tainted_info_decodes :
  forall W (sut : SUT W) timers (s : state W) chunks data w',
    tainted_lock s && (if tainted_status s is Some _ then true else false)
    = false ->
    sut_run_command sut "cat /proc/sys/kernel/tainted" None [] timers
                    (world s) = (chunks, Ok data, w') ->
    cd_returncode data = 0%Z ->
    isdigit (strip (cd_stdout data)) = true ->
    let code := int (strip (cd_stdout data)) in
    exists s',
      get_tainted_info sut timers s
      = (Ok (code,
             map (fun i => nth i TAINTED_MSG "")
                 (filter (fun i => Z.testbit code (Z.of_nat i))
                         (seq 0 (List.length TAINTED_MSG)))), s') /\
      tainted_status s' = Some (code, reasons_of code) /\
      (code = 5%Z ->
       get_tainted_info sut timers s
       = (Ok (5%Z, [nth 0 TAINTED_MSG ""; nth 2 TAINTED_MSG ""]), s')).
Proof.
  intros W sut timers s chunks data w' Hcache E Hrc Hdig code.
  destruct (get_tainted_info_reads sut timers s Hcache E Hrc Hdig)
    as (s' & Hrun & Hst & _).
  fold code in Hrun, Hst. exists s'. split; [unfold reasons_of in Hrun; exact Hrun|].
  split; [exact Hst|]. intros H5. rewrite Hrun, H5.
  apply (f_equal (fun x => (Ok (5%Z, x), s'))). vm_compute. reflexivity.
Qed.

(** A SUT that answers the taint read with the text of bitmask 5. *)
Definition tainted_five : list reply :=
  [ReplyCommand [] (Ok (mk_cmd_data "cat /proc/sys/kernel/tainted"
                                    (String "5" (String (ascii_of_nat 10) ""))
                                    0 0))].

Lemma get_tainted_info_decodes_witness :
  exists s',
    get_tainted_info scripted_sut [] (init_state tainted_five)
    = (Ok (5%Z, ["proprietary module was loaded";
                 "kernel running on an out of specification system"]), s').
Proof.
  destruct (@get_tainted_info_decodes _ scripted_sut [] (init_state tainted_five)
              [] (mk_cmd_data "cat /proc/sys/kernel/tainted"
                              (String "5" (String (ascii_of_nat 10) "")) 0 0)
              [] eq_refl eq_refl eq_refl eq_refl) as (s' & _ & _ & H5).
  exists s'. exact (H5 eq_refl).
Defined.

Section TaintFailures.
Context {W : Type} (sut : SUT W).

(** X2.  A caller of [get_tainted_info] that is not served from the cache
    and whose read fails: when the command ends without returning, its
    outcome is passed on; when it returns a code other than 0 the call
    raises [SUTError]; when its output is not a number the call raises
    [SUTError] with that output.  In every case the lock is released and
    the cache is left as it was. *)
Theorem get_tainted_info_fails :
  forall timers (s : state W) chunks r w',
    tainted_lock s && (if tainted_status s is Some _ then true else false)
    = false ->
    sut_run_command sut "cat /proc/sys/kernel/tainted" None [] timers
                    (world s) = (chunks, r, w') ->
    match r with
    | Ok data => cd_returncode data <> 0%Z \/
                 isdigit (strip (cd_stdout data)) = false
    | _ => True
    end ->
    exists s',
      get_tainted_info sut timers s
      = (match r with
         | Ok data =>
             if (cd_returncode data =? 0)%Z
             then Raise (mk_exn SUTError [strip (cd_stdout data)])
             else Raise (mk_exn SUTError
                           ["Can't read tainted kernel information"])
         | Raise e => Raise e
         | Cancelled k => Cancelled k
         end, s') /\
      tainted_lock s' = false /\
      tainted_status s' = tainted_status s /\
      world s' = w'.
Proof.
  intros timers s chunks r w' Hcache E Hfail.
  assert (Hs0 : world (set_tainted_lock true s) = world s) by reflexivity.
  rewrite <- Hs0 in E.
  destruct (primitive_spec (sut_run_command sut "cat /proc/sys/kernel/tainted"
                              None [])
              (SutRunCommand "cat /proc/sys/kernel/tainted") None timers
              (set_tainted_lock true s) E)
    as (fires & s1 & P & W1 & L1 & C1 & S1).
  destruct S1 as (_ & St & _). simpl in St.
  assert (Hrun : forall X,
    X = get_tainted_info sut timers s ->
    X = try_finally
        (ret_ <- run_command sut "cat /proc/sys/kernel/tainted" None [] None ;;
         if negb (cd_returncode ret_ =? 0)%Z then
           raise (mk_exn SUTError ["Can't read tainted kernel information"])
         else
           let code := strip (cd_stdout ret_) in
           if negb (isdigit code) then raise (mk_exn SUTError [code])
           else
             let code := int code in
             let messages := tainted_messages code in
             s1 <- get ;;
             match tainted_status s1 with
             | Some _ => modify (set_tainted_status None)
             | None => ret tt
             end ;;
             modify (set_tainted_status (Some (code, messages))) ;;
             ret (code, messages))
        (modify (set_tainted_lock false)) timers (set_tainted_lock true s)).
  { intros X ->. unfold get_tainted_info, bind at 1, get at 1.
    destruct (tainted_lock s), (tainted_status s); try discriminate;
      reflexivity. }
  rewrite (Hrun _ eq_refl). unfold try_finally, bind at 1, run_command.
  rewrite P. exists (set_tainted_lock false s1).
  destruct r as [data|e|k].
  - destruct (cd_returncode data =? 0)%Z eqn:Hrc; simpl negb; cbv iota.
    + destruct Hfail as [Hfail|Hfail].
      * apply Z.eqb_eq in Hrc. contradiction.
      * cbv zeta. rewrite Hfail. simpl. repeat split; assumption.
    + simpl. repeat split; assumption.
  - simpl. repeat split; assumption.
  - simpl. repeat split; assumption.
Qed.

(** X3.  A caller of [get_tainted_info] that finds the lock held and a
    value in the cache is served that value: no command is run, nothing is
    logged, and the value is taken out of the cache. *)
Theorem get_tainted_info_cached :
  forall timers (s : state W) status,
    tainted_lock s = true -> tainted_status s = Some status ->
    exists s',
      get_tainted_info sut timers s = (Ok status, s') /\
      world s' = world s /\ log s' = log s /\
      tainted_status s' = None /\ tainted_lock s' = true.
Proof.
  intros timers s status Hl Hc.
  exists (set_tainted_status None s).
  unfold get_tainted_info, bind at 1, get at 1. rewrite Hl, Hc.
  unfold bind, modify, ret. simpl. repeat split; assumption.
Qed.

End TaintFailures.

(** A SUT whose taint file cannot be read. *)
Definition tainted_unreadable : list reply :=
  [ReplyCommand [] (Ok (mk_cmd_data "cat /proc/sys/kernel/tainted"
                                    "cat: permission denied" 1 0))].

Lemma get_tainted_info_fails_witness :
  exists s',
    get_tainted_info scripted_sut [] (init_state tainted_unreadable)
    = (Raise (mk_exn SUTError ["Can't read tainted kernel information"]), s')
    /\ tainted_lock s' = false /\ tainted_status s' = None /\ world s' = [].
Proof.
  apply (@get_tainted_info_fails _ scripted_sut [] (init_state tainted_unreadable)
           [] (Ok (mk_cmd_data "cat /proc/sys/kernel/tainted"
                               "cat: permission denied" 1 0)) []);
    [reflexivity|reflexivity|left; discriminate].
Defined.

(** A state whose taint lock is held by a reader that has published. *)
Definition contended : state (list reply) :=
  set_tainted_status (Some (5%Z, reasons_of 5))
    (set_tainted_lock true (init_state [])).

Lemma get_tainted_info_cached_witness :
  exists s',
    get_tainted_info scripted_sut [] contended = (Ok (5%Z, reasons_of 5), s')
    /\ world s' = world contended /\ log s' = log contended /\
    tainted_status s' = None /\ tainted_lock s' = true.
Proof.
  apply (@get_tainted_info_cached _ scripted_sut [] contended
           (5%Z, reasons_of 5)); reflexivity.
Defined.

(** ** [HostSUT] *)

Lemma append_nil_r (s : string) : (s ++ "")%string = s.
Proof. induction s; simpl; congruence. Qed.

Lemma append_assoc (a b c : string) :
  ((a ++ b) ++ c)%string = (a ++ (b ++ c))%string.
Proof. induction a; simpl; congruence. Qed.

(** The concatenation of the chunks handed to a buffer. *)
Definition str_join (l : list string) : string :=
  fold_right String.append "" l.

Lemma str_join_app l1 l2 :
  str_join (l1 ++ l2) = (str_join l1 ++ str_join l2)%string.
Proof.
  induction l1 as [|a l1 IH]; simpl; [reflexivity|].
  now rewrite IH, append_assoc.
Qed.

(** The loop hands to the buffer exactly what it accumulates, and when it
    is not cancelled its [panic] is the test on the last [2 * BUFFSIZE]
    characters of all the output. *)
Lemma read_loop_spec rs : forall written stdout written' stdout' panic c,
  read_loop rs written stdout = (written', stdout', panic, c) ->
  exists new,
    written' = written ++ new /\
    stdout' = (stdout ++ str_join new)%string /\
    (c = None ->
     panic = str_contains "Kernel panic" (str_last (2 * BUFFSIZE) stdout')).
Proof.
  induction rs as [|[sline alive|k] rest IH];
    intros written stdout written' stdout' panic c H.
  - cbn [read_loop] in H. inversion H; subst. exists [""]. simpl str_join.
    repeat split.
  - cbn [read_loop] in H. destruct alive.
    + apply IH in H. destruct H as (new & Hw & Hs & Hp).
      subst written' stdout'. rewrite append_assoc in Hp.
      exists (sline :: new). rewrite <- app_assoc. simpl.
      rewrite append_assoc. repeat split. exact Hp.
    + inversion H; subst. exists [sline]. simpl. rewrite append_nil_r.
      repeat split.
  - cbn [read_loop] in H. inversion H; subst. exists []. simpl.
    rewrite app_nil_r, append_nil_r. repeat split. discriminate.
Qed.

(** X6.  [HostSUT.run_command] refuses an empty command with a
    [ValueError], and any command on a session that is not running with a
    [SUTError]; in both cases nothing is spawned and the host is left as it
    was. *)
Theorem host_run_command_rejects :
  forall command cwd env timers (h : host),
    (command = "" ->
     host_run_command command cwd env timers h
     = ([], Raise (mk_exn ValueError ["command is empty"]), h)) /\
    (command <> "" -> _running h = false ->
     host_run_command command cwd env timers h
     = ([], Raise (mk_exn SUTError ["SUT is not running"]), h)).
Proof.
  intros command cwd env timers h. split.
  - intros ->. reflexivity.
  - intros Hc Hr. unfold host_run_command. rewrite Hr.
    destruct command; [congruence|reflexivity].
Qed.

(** A host that is not running, with a process ready to be spawned. *)
Definition idle_host : host :=
  mk_host false [] false [Ok (mk_process 7 [Data "ok" false] 0 1)] [] 0.

Lemma host_run_command_rejects_witness :
  host_run_command "" None [] [] idle_host
  = ([], Raise (mk_exn ValueError ["command is empty"]), idle_host) /\
  host_run_command "uname" None [] [] idle_host
  = ([], Raise (mk_exn SUTError ["SUT is not running"]), idle_host).
Proof.
  split.
  - apply (proj1 (host_run_command_rejects "" None [] [] idle_host)).
    reflexivity.
  - apply (proj2 (host_run_command_rejects "uname" None [] [] idle_host));
      [discriminate|reflexivity].
Defined.

(** X7.  For a command that is spawned and runs until its process exits,
    [HostSUT.run_command] hands every chunk to the buffer, and the
    accumulated output is their concatenation; the process is waited for,
    removed from [_procs], killed and waited for again.  The call then
    raises [KernelPanicError] (a [SUTError], built without arguments)
    exactly when the last [2 * BUFFSIZE] characters of the accumulated
    output contain the text Kernel panic, and otherwise returns the
    output, the return code and the execution time. *)
Theorem host_run_command_outcome :
  forall command cwd env timers (h : host) proc next written stdout panic,
    command <> "" -> _running h = true ->
    os_next h = Ok proc :: next ->
    read_loop (reads proc) [] "" = (written, stdout, panic, None) ->
    exists h',
      host_run_command command cwd env timers h
      = (written,
         if str_contains "Kernel panic" (str_last (2 * BUFFSIZE) stdout)
         then Raise (mk_exn KernelPanicError [])
         else Ok (mk_cmd_data command stdout (returncode proc)
                              (duration proc)),
         h') /\
      stdout = str_join written /\
      isinstance (mk_exn KernelPanicError []) SUTError = true /\
      os_log h' = os_log h ++ [Spawn command (pid proc); Wait (pid proc);
                               Kill (pid proc); Wait (pid proc)] /\
      _procs h' = remove_pid (pid proc) (_procs h ++ [pid proc]) /\
      os_next h' = next.
Proof.
  intros command cwd env timers h proc next written stdout panic
         Hc Hr Hn Hloop.
  destruct (read_loop_spec _ _ _ Hloop) as (new & Hw & Hs & Hp).
  specialize (Hp eq_refl). simpl in Hw, Hs. subst new.
  unfold host_run_command. rewrite Hr, Hn, Hloop. simpl negb. cbv iota.
  destruct command as [|c0 command']; [congruence|].
  rewrite <- Hp. destruct panic; eexists; (split; [reflexivity|]);
    simpl; rewrite <- ?app_assoc; repeat split; assumption.
Qed.

(** A process that dies on a panic, on a running host. *)
Definition panicking : process :=
  mk_process 7 [Data "boot" true; Data "Kernel panic - not syncing" false]
             0 1.

Definition running_host (p : process) : host :=
  mk_host true [] false [Ok p] [] 0.

Lemma host_run_command_outcome_witness :
  exists h',
    host_run_command "dmesg" None [] [] (running_host panicking)
    = (["boot"; "Kernel panic - not syncing"],
       Raise (mk_exn KernelPanicError []), h') /\
    os_log h' = [Spawn "dmesg" 7; Wait 7; Kill 7; Wait 7] /\
    _procs h' = [].
Proof.
  destruct (@host_run_command_outcome "dmesg" None [] []
              (running_host panicking) panicking []
              ["boot"; "Kernel panic - not syncing"]
              "bootKernel panic - not syncing" true)
    as (h' & Hrun & _ & _ & Hlog & Hprocs & _);
    [discriminate|reflexivity|reflexivity|reflexivity|].
  exists h'. split; [exact Hrun|]. split; [exact Hlog|exact Hprocs].
Defined.

Lemma remove_pid_last p l : ~ In p l -> remove_pid p (l ++ [p]) = l.
Proof.
  induction l as [|q l IH]; intros Hn; simpl.
  - now rewrite Nat.eqb_refl.
  - destruct (Nat.eqb p q) eqn:E.
    + apply Nat.eqb_eq in E. subst q. exfalso. apply Hn. now left.
    + rewrite IH; [reflexivity|]. intros Hin. apply Hn. now right.
Qed.

(** X8.  Once [HostSUT.run_command] has spawned a process it never leaves
    it behind: however the call ends (data returned, panic raised, or the
    read cancelled by a timer), the process has been killed and waited
    for, [_procs] is what it was before the call, and the session is still
    running. *)
Theorem host_run_command_reaps :
  forall command cwd env timers (h : host) proc next,
    command <> "" -> _running h = true ->
    os_next h = Ok proc :: next ->
    ~ In (pid proc) (_procs h) ->
    exists written r h' mid,
      host_run_command command cwd env timers h = (written, r, h') /\
      _procs h' = _procs h /\
      os_log h' = os_log h ++ Spawn command (pid proc) :: mid
                    ++ [Kill (pid proc); Wait (pid proc)] /\
      _running h' = true /\ os_next h' = next.
Proof.
  intros command cwd env timers h proc next Hc Hr Hn Hfresh.
  unfold host_run_command. rewrite Hr, Hn. simpl negb. cbv iota.
  destruct command as [|c0 command']; [congruence|].
  destruct (read_loop (reads proc) [] "") as [[[written stdout] panic] c].
  destruct c as [k|].
  - exists written, (Cancelled k). eexists. exists [].
    split; [reflexivity|]. simpl. rewrite remove_pid_last by assumption.
    rewrite <- app_assoc. repeat split; assumption.
  - destruct panic.
    + exists written, (Raise (mk_exn KernelPanicError [])). eexists.
      exists [Wait (pid proc)]. split; [reflexivity|]. simpl.
      rewrite remove_pid_last by assumption. rewrite <- !app_assoc.
      repeat split; assumption.
    + eexists written, _, _, [Wait (pid proc)]. split; [reflexivity|].
      simpl. rewrite remove_pid_last by assumption. rewrite <- !app_assoc.
      repeat split; assumption.
Qed.

(** A process whose second read never returns. *)
Definition hanging : process :=
  mk_process 9 [Data "start" true; Blocks 0] 0 1.

Lemma host_run_command_reaps_witness :
  exists written r h' mid,
    host_run_command "sleep 100" None [] [3600%Q] (running_host hanging)
    = (written, r, h') /\
    _procs h' = [] /\
    os_log h' = [] ++ Spawn "sleep 100" 9 :: mid ++ [Kill 9; Wait 9] /\
    _running h' = true /\ os_next h' = [].
Proof.
  apply (@host_run_command_reaps "sleep 100" None [] [3600%Q]
           (running_host hanging) hanging []);
    [discriminate|reflexivity|reflexivity|intros []].
Defined.


Section HostSession.


End HostSession.


(** ** [get_info] *)

(** What a probe of [get_info] makes of the way its command ended. *)
Definition probe_value (r : outcome cmd_data) : outcome string :=
  match r with
  | Ok data =>
      Ok (if (cd_returncode data =? 0)%Z then rstrip (cd_stdout data)
          else "unknown")
  | Raise e => if isinstance e TimeoutError then Ok "unknown" else Raise e
  | Cancelled O => Ok "unknown"
  | Cancelled (Datatypes.S k) => Cancelled k
  end.

Section InfoFacts.
Context {W : Type} (sut : SUT W).

(** X4.  A probe of [get_info] runs its command under a timer of 1.5
    seconds.  It gives the output without its trailing white space when
    the command returns 0, and the text unknown when the command returns
    another code or the timer fires; any other error of the command, and a
    cancellation from outside, are not absorbed. *)
Theorem _run_cmd_best_effort :
  forall cmd timers (s : state W),
    exists s',
      _run_cmd sut cmd timers s
      = (probe_value
           (snd (fst (sut_run_command sut cmd None [] (1.5%Q :: timers)
                                      (world s)))), s') /\
      world s' = snd (sut_run_command sut cmd None [] (1.5%Q :: timers)
                                      (world s)) /\
      same_objects s s'.
Proof.
  intros cmd timers s.
  destruct (sut_run_command sut cmd None [] (1.5%Q :: timers) (world s))
    as [[chunks r] w'] eqn:E.
  destruct (primitive_spec (sut_run_command sut cmd None [])
              (SutRunCommand cmd) None (1.5%Q :: timers) s E)
    as (fires & s1 & P & W1 & _ & _ & S1).
  exists s1. simpl fst; simpl snd. split; [|split; assumption].
  unfold _run_cmd, try_except, bind, wait_for, run_command. rewrite P.
  destruct r as [data|e|[|k]]; cbn [probe_value].
  - destruct (cd_returncode data =? 0)%Z; reflexivity.
  - destruct (isinstance e TimeoutError); reflexivity.
  - reflexivity.
  - reflexivity.
Qed.

(** X5.  When its six probes return, [get_info] returns their values for
    the distribution, its version, the kernel, the architecture and the
    CPU.  The RAM and swap totals are the first matches of the two
    patterns in the text of the last probe; without a match the RAM is
    reported as unknown and the swap as unkown (sic), which is also what a
    failed probe of the memory gives. *)
Theorem get_info_fields :
  forall timers (s0 s1 s2 s3 s4 s5 s6 : state W)
         distro distro_ver kernel arch cpu meminfo,
    _run_cmd sut (". /etc/os-release && echo " ++ dquote ++ "$ID" ++ dquote)
             timers s0 = (Ok distro, s1) ->
    _run_cmd sut (". /etc/os-release && echo " ++ dquote ++ "$VERSION_ID"
                    ++ dquote) timers s1 = (Ok distro_ver, s2) ->
    _run_cmd sut "uname -s -r -v" timers s2 = (Ok kernel, s3) ->
    _run_cmd sut "uname -m" timers s3 = (Ok arch, s4) ->
    _run_cmd sut "uname -p" timers s4 = (Ok cpu, s5) ->
    _run_cmd sut "cat /proc/meminfo" timers s5 = (Ok meminfo, s6) ->
    exists ram swap,
      get_info sut timers s0
      = (Ok (mk_info distro distro_ver kernel arch cpu ram swap), s6) /\
      (search_total "MemTotal:" meminfo = None -> ram = "unknown") /\
      (search_total "SwapTotal:" meminfo = None -> swap = "unkown") /\
      (meminfo = "unknown" -> ram = "unknown" /\ swap = "unkown") /\
      (forall g, meminfo <> "" ->
                 search_total "MemTotal:" meminfo = Some g -> ram = g) /\
      (forall g, meminfo <> "" ->
                 search_total "SwapTotal:" meminfo = Some g -> swap = g).
Proof.
  intros timers s0 s1 s2 s3 s4 s5 s6 distro distro_ver kernel arch cpu
         meminfo H1 H2 H3 H4 H5 H6.
  unfold get_info.
  rewrite (bind_ok _ _ _ _ H1), (bind_ok _ _ _ _ H2), (bind_ok _ _ _ _ H3),
    (bind_ok _ _ _ _ H4), (bind_ok _ _ _ _ H5), (bind_ok _ _ _ _ H6).
  destruct meminfo as [|c m].
  - exists "unknown", "unkown". split; [reflexivity|].
    repeat split; try reflexivity; try discriminate;
      intros; congruence.
  - remember (String c m) as meminfo eqn:Hm.
    exists (match search_total "MemTotal:" meminfo with
            | Some g => g | None => "unknown" end),
           (match search_total "SwapTotal:" meminfo with
            | Some g => g | None => "unkown" end).
    split; [subst meminfo; reflexivity|].
    split; [intros ->; reflexivity|].
    split; [intros ->; reflexivity|].
    split; [intros ->; split; reflexivity|].
    split; intros g _ ->; reflexivity.
Qed.

End InfoFacts.

(** A SUT whose memory probe runs into its timer. *)
Definition meminfo_times_out : list reply :=
  [ReplyCommand [] (Ok (mk_cmd_data "" ("opensuse" ++ newline) 0 0));
   ReplyCommand [] (Ok (mk_cmd_data "" ("15.5" ++ newline) 0 0));
   ReplyCommand [] (Ok (mk_cmd_data "" "Linux 6.4" 0 0));
   ReplyCommand [] (Ok (mk_cmd_data "" "x86_64" 0 0));
   ReplyCommand [] (Ok (mk_cmd_data "" "" 1 0));
   ReplyCommand [] (Cancelled 0)].

Lemma get_info_fields_witness :
  exists s',
    get_info scripted_sut [] (init_state meminfo_times_out)
    = (Ok (mk_info "opensuse" "15.5" "Linux 6.4" "x86_64" "unknown"
                   "unknown" "unkown"), s').
Proof.
  destruct (@get_info_fields _ scripted_sut []
              (init_state meminfo_times_out)
              (snd (_run_cmd scripted_sut
                      (". /etc/os-release && echo " ++ dquote ++ "$ID"
                         ++ dquote) [] (init_state meminfo_times_out)))
              _ _ _ _ _
              "opensuse" "15.5" "Linux 6.4" "x86_64" "unknown" "unknown"
              eq_refl eq_refl eq_refl eq_refl eq_refl eq_refl)
    as (ram & swap & Hrun & _ & _ & Hunknown & _).
  destruct (Hunknown eq_refl) as [-> ->].
  eexists. exact Hrun.
Defined.

(** ** The result interpreter of LTP *)

(** X11.  [LTPFramework.read_result] keeps the test, the return code and
    the execution time it is given, reports the output without its colour
    sequences, and, whatever the output says, counts one broken when the
    return code is -1. *)
Theorem ltp_read_result_error_is_broken :
  forall test stdout retcode exec_t,
    let r := ltp_read_result test stdout retcode exec_t in
    res_test r = test /\ res_retcode r = retcode /\
    res_exec_time r = exec_t /\ res_stdout r = sub_colors 0 stdout /\
    (retcode = (-1)%Z -> res_broken r = 1%Z).
Proof.
  intros test stdout retcode exec_t r. subst r. unfold ltp_read_result.
  cbn [res_test res_retcode res_exec_time res_stdout res_broken].
  repeat split. intros ->. reflexivity.
Qed.

(** X12.  When the output has no summary and none of the five markers,
    [LTPFramework.read_result] decides by the return code alone, and
    counts exactly one outcome: passed for 0, warnings for 4, skipped for
    32, broken for -1 and failed for any other code. *)
Theorem ltp_read_result_by_retcode :
  forall test stdout retcode exec_t,
    let out := sub_colors 0 stdout in
    search_summary out = None ->
    str_count out "TPASS" = 0%Z -> str_count out "TFAIL" = 0%Z ->
    str_count out "TSKIP" = 0%Z -> str_count out "TBROK" = 0%Z ->
    str_count out "TWARN" = 0%Z ->
    let r := ltp_read_result test stdout retcode exec_t in
    (res_passed r, res_failed r, res_broken r, res_skipped r, res_warnings r)
    = if (retcode =? 0)%Z then (1, 0, 0, 0, 0)%Z
      else if (retcode =? 4)%Z then (0, 0, 0, 0, 1)%Z
      else if (retcode =? 32)%Z then (0, 0, 0, 1, 0)%Z
      else if (retcode =? -1)%Z then (0, 0, 1, 0, 0)%Z
      else (0, 1, 0, 0, 0)%Z.
Proof.
  intros test stdout retcode exec_t out Hs Hp Hf Hk Hb Hw r. subst r.
  unfold ltp_read_result. fold out. rewrite Hs, Hp, Hf, Hk, Hb, Hw.
  cbn [Z.eqb andb].
  destruct (retcode =? 0)%Z eqn:E0.
  { apply Z.eqb_eq in E0. subst retcode. reflexivity. }
  destruct (retcode =? 4)%Z eqn:E4.
  { apply Z.eqb_eq in E4. subst retcode. reflexivity. }
  destruct (retcode =? 32)%Z eqn:E32.
  { apply Z.eqb_eq in E32. subst retcode. reflexivity. }
  destruct (retcode =? -1)%Z eqn:E1; reflexivity.
Qed.

Lemma ltp_read_result_by_retcode_witness :
  let r := ltp_read_result (mk_Test "t" "true" None [] false)
                           "no marker here" 32 0 in
  (res_passed r, res_failed r, res_broken r, res_skipped r, res_warnings r)
  = (0, 0, 0, 1, 0)%Z.
Proof.
  apply (@ltp_read_result_by_retcode (mk_Test "t" "true" None [] false)
           "no marker here" 32 0);
    reflexivity.
Defined.

(** ** What the calls to the SUT leave untouched *)

(** The attributes of the two schedulers. *)
Definition same_sched {W} (s s' : state W) : Prop :=
  ts_results s' = ts_results s /\
  ts_stop s' = ts_stop s /\
  ts_stopped s' = ts_stopped s /\
  ts_tasks s' = ts_tasks s /\
  ss_results s' = ss_results s /\
  ss_stop s' = ss_stop s /\
  ss_stopped s' = ss_stopped s.

Lemma same_sched_refl {W} (s : state W) : same_sched s s.
Proof. repeat split. Qed.

Lemma same_sched_trans {W} (s1 s2 s3 : state W) :
  same_sched s1 s2 -> same_sched s2 s3 -> same_sched s1 s3.
Proof.
  unfold same_sched; intros H1 H2.
  decompose [and] H1; decompose [and] H2; repeat split; congruence.
Qed.

Lemma same_objects_sched {W} (s s' : state W) :
  same_objects s s' -> same_sched s s'.
Proof.
  unfold same_objects, same_sched. intros H. decompose [and] H.
  repeat split; assumption.
Qed.

(** A computation that keeps the attributes of the schedulers. *)
Definition keeps {W A} (m : M (state W) A) : Prop :=
  forall timers s r s', m timers s = (r, s') -> same_sched s s'.

Section Frames.
Context {W : Type} (sut : SUT W).

Lemma keeps_ret {A} (a : A) : keeps (ret a : M (state W) A).
Proof. intros t s r s' H. inversion H; subst. apply same_sched_refl. Qed.

Lemma keeps_raise {A} e : keeps (raise e : M (state W) A).
Proof. intros t s r s' H. inversion H; subst. apply same_sched_refl. Qed.

Lemma keeps_get : keeps (get : M (state W) (state W)).
Proof. intros t s r s' H. inversion H; subst. apply same_sched_refl. Qed.

Lemma keeps_modify (f : state W -> state W) :
  (forall s, same_sched s (f s)) -> keeps (modify f).
Proof. intros Hf t s r s' H. inversion H; subst. apply Hf. Qed.

Lemma keeps_bind {A B} (m : M (state W) A) (f : A -> M (state W) B) :
  keeps m -> (forall a, keeps (f a)) -> keeps (bind m f).
Proof.
  intros Hm Hf t s r s' H. unfold bind in H.
  destruct (m t s) as [[a|e|k] s1] eqn:E; specialize (Hm _ _ _ _ E).
  - eapply same_sched_trans; [exact Hm|]. eapply Hf; exact H.
  - inversion H; subst. exact Hm.
  - inversion H; subst. exact Hm.
Qed.

Lemma keeps_try_except {A} (m : M (state W) A) h :
  keeps m -> (forall e k, h e = Some k -> keeps k) ->
  keeps (try_except m h).
Proof.
  intros Hm Hh t s r s' H. unfold try_except in H.
  destruct (m t s) as [[a|e|k] s1] eqn:E; specialize (Hm _ _ _ _ E).
  - inversion H; subst. exact Hm.
  - destruct (h e) as [k|] eqn:Eh.
    + eapply same_sched_trans; [exact Hm|]. eapply Hh; eassumption.
    + inversion H; subst. exact Hm.
  - inversion H; subst. exact Hm.
Qed.

Lemma keeps_wait_for {A} (m : M (state W) A) timeout :
  keeps m -> keeps (wait_for m timeout).
Proof.
  intros Hm t s r s' H. unfold wait_for in H.
  destruct (m (timeout :: t) s) as [[a|e|[|k]] s1] eqn:E;
    specialize (Hm _ _ _ _ E); inversion H; subst; exact Hm.
Qed.

Lemma keeps_fire e : keeps (fire e : M (state W) unit).
Proof. apply keeps_modify. intros s. repeat split. Qed.

Lemma keeps_primitive {A} (call : list Q -> W -> list string * outcome A * W)
    ev iobuffer : keeps (primitive call ev iobuffer).
Proof.
  intros t s r s' H.
  destruct (call t (world s)) as [[chunks r0] w'] eqn:E.
  destruct (primitive_spec call ev iobuffer t s E)
    as (fires & s1 & P & _ & _ & _ & S1).
  rewrite P in H. inversion H; subst. now apply same_objects_sched.
Qed.

Lemma keeps_run_command command cwd env iobuffer :
  keeps (run_command sut command cwd env iobuffer).
Proof. apply keeps_primitive. Qed.

Lemma keeps_ping : keeps (ping sut).
Proof. apply keeps_primitive. Qed.

Lemma keeps_stop iobuffer : keeps (stop sut iobuffer).
Proof. apply keeps_primitive. Qed.

Lemma keeps_ensure_communicate iobuffer retries :
  keeps (ensure_communicate sut iobuffer retries).
Proof.
  intros t s r s' H.
  destruct (ensure_communicate_spec _ _ _ _ _ H)
    as (_ & _ & _ & _ & _ & _ & _ & _ & Sm).
  now apply same_objects_sched.
Qed.

Lemma keeps_try_finally {A} (m : M (state W) A) f :
  keeps m -> keeps f -> keeps (try_finally m f).
Proof.
  intros Hm Hf t s r s' H. unfold try_finally in H.
  destruct (m t s) as [r1 s1] eqn:E. specialize (Hm _ _ _ _ E).
  destruct (f t s1) as [[u|e|k] s2] eqn:E2; specialize (Hf _ _ _ _ E2);
    inversion H; subst; eapply same_sched_trans; eassumption.
Qed.

Lemma keeps_get_tainted_info : keeps (get_tainted_info sut).
Proof.
  unfold get_tainted_info. apply keeps_bind; [apply keeps_get|].
  intros s0.
  assert (Hread : keeps
    (modify (set_tainted_lock true) ;;
     try_finally
       (ret_ <- run_command sut "cat /proc/sys/kernel/tainted" None [] None ;;
        if negb (cd_returncode ret_ =? 0)%Z then
          raise (mk_exn SUTError ["Can't read tainted kernel information"])
        else
          let code := strip (cd_stdout ret_) in
          if negb (isdigit code) then raise (mk_exn SUTError [code])
          else
            let code := int code in
            let messages := tainted_messages code in
            s1 <- get ;;
            match tainted_status s1 with
            | Some _ => modify (set_tainted_status None)
            | None => ret tt
            end ;;
            modify (set_tainted_status (Some (code, messages))) ;;
            ret (code, messages))
       (modify (set_tainted_lock false)) : M (state W) (Z * list string))).
  { apply keeps_bind; [apply keeps_modify; intros s; repeat split|].
    intros _. apply keeps_try_finally;
      [|apply keeps_modify; intros s; repeat split].
    apply keeps_bind; [apply keeps_run_command|]. intros d.
    destruct (negb (cd_returncode d =? 0)%Z); [apply keeps_raise|].
    cbv zeta. destruct (negb (isdigit (strip (cd_stdout d))));
      [apply keeps_raise|].
    apply keeps_bind; [apply keeps_get|]. intros s1.
    apply keeps_bind.
    { destruct (tainted_status s1);
        [apply keeps_modify; intros s; repeat split|apply keeps_ret]. }
    intros _. apply keeps_bind;
      [apply keeps_modify; intros s; repeat split|].
    intros _. apply keeps_ret. }
  destruct (tainted_lock s0), (tainted_status s0); try exact Hread.
  apply keeps_bind; [apply keeps_modify; intros s; repeat split|].
  intros _. apply keeps_ret.
Qed.

End Frames.

(** ** [TestScheduler._run_test] *)

(** What [_run_test] does once its [try] statement has classified the
    attempt: the outcome it ends with. *)
Definition outcome_of_status (st : status) : outcome unit :=
  match st with
  | KERNEL_TAINTED => Raise (mk_exn KernelTaintedError [])
  | KERNEL_PANIC => Raise (mk_exn KernelPanicError [])
  | KERNEL_TIMEOUT => Raise (mk_exn KernelTimeoutError [])
  | STATUS_OK | TEST_TIMEOUT => Ok tt
  end.

Section RunTestFacts.
Context {W : Type} (sut : SUT W) (self : TestScheduler).
Variable argv0 : string.
Variable getpid : string.

(** [_run_test] up to the end of its [try] statement. *)
Definition attempt_phase (test : Test) : M (state W) attempt :=
  fire (test_started test) ;;
  _write_kmsg sut argv0 getpid test ;;
  modify (set_iobuffer_stdout "") ;;
  s0 <- get ;;
  _run_test_try sut self test (RedirectTestStdout test)
                (time_time sut (world s0)).

(** The result [_run_test] appends for an attempt. *)
Definition recorded (test : Test) (a : attempt) (s : state W)
  : TestResults :=
  let d := result_data test a (iobuffer_stdout s) in
  read_result (_framework self) test (cd_stdout d) (cd_returncode d)
              (cd_exec_time d).

Lemma keeps_fire_tainted messages :
  keeps (fire_tainted messages : M (state W) unit).
Proof.
  induction messages as [|m rest IH]; simpl; [apply keeps_ret|].
  apply keeps_bind; [|intros _; exact IH].
  destruct m; [apply keeps_ret|apply keeps_fire].
Qed.

Lemma keeps__get_tainted_status : keeps (_get_tainted_status sut).
Proof.
  unfold _get_tainted_status.
  apply keeps_bind; [apply keeps_get_tainted_info|]. intros r.
  apply keeps_bind; [apply keeps_fire_tainted|]. intros _. apply keeps_ret.
Qed.

Lemma keeps__write_kmsg test : keeps (_write_kmsg sut argv0 getpid test).
Proof.
  unfold _write_kmsg. apply keeps_bind; [apply keeps_run_command|].
  intros d. destruct (negb _); [apply keeps_ret|].
  cbv zeta. apply keeps_bind; [apply keeps_run_command|].
  intros _. apply keeps_ret.
Qed.

Lemma keeps__run_test_try test iobuffer start_t :
  keeps (_run_test_try sut self test iobuffer start_t).
Proof.
  unfold _run_test_try. apply keeps_try_except.
  - apply keeps_bind; [apply keeps__get_tainted_status|]. intros r1.
    apply keeps_bind; [apply keeps_wait_for, keeps_run_command|]. intros d.
    apply keeps_bind; [apply keeps__get_tainted_status|]. intros r2.
    destruct (negb _); apply keeps_ret.
  - intros e k Hk.
    destruct (isinstance e KernelPanicError).
    + inversion Hk; subst. apply keeps_bind; [apply keeps_get|].
      intros s. apply keeps_ret.
    + destruct (isinstance e TimeoutError); [|discriminate].
      inversion Hk; subst. apply keeps_bind; [apply keeps_get|].
      intros s. cbv zeta. apply keeps_try_except.
      * apply keeps_bind; [apply keeps_wait_for, keeps_ping|].
        intros _. apply keeps_ret.
      * intros e2 k2 Hk2. destruct (isinstance e2 TimeoutError);
          [|discriminate]. inversion Hk2; subst. apply keeps_ret.
Qed.

Lemma keeps_attempt_phase test : keeps (attempt_phase test).
Proof.
  unfold attempt_phase. apply keeps_bind; [apply keeps_fire|]. intros _.
  apply keeps_bind; [apply keeps__write_kmsg|]. intros _.
  apply keeps_bind; [apply keeps_modify; intros s; repeat split|].
  intros _. apply keeps_bind; [apply keeps_get|]. intros s0.
  apply keeps__run_test_try.
Qed.

(** [_run_test] when no stop is requested, in terms of its two phases. *)
Lemma _run_test_phases test timers (s : state W) :
  ts_stop s = false ->
  _run_test sut self argv0 getpid test timers s
  = match attempt_phase test timers s with
    | (Ok a, sa) =>
        let results := recorded test a sa in
        let sr := set_ts_results (ts_results sa ++ [results]) sa in
        match at_status a with
        | KERNEL_TAINTED =>
            (Raise (mk_exn KernelTaintedError []),
             set_log (log sr ++ [Fire (kernel_tainted_list (at_tainted_msg a))])
                     sr)
        | KERNEL_PANIC =>
            (Raise (mk_exn KernelPanicError []),
             set_log (log sr ++ [Fire kernel_panic]) sr)
        | KERNEL_TIMEOUT =>
            (Raise (mk_exn KernelTimeoutError []),
             set_log (log sr ++ [Fire sut_not_responding]) sr)
        | _ => (Ok tt, set_log (log sr ++ [Fire (test_completed results)]) sr)
        end
    | (Raise e, sa) => (Raise e, sa)
    | (Cancelled k, sa) => (Cancelled k, sa)
    end.
Proof.
  intros Hstop. unfold _run_test, attempt_phase.
  unfold bind at 1, get at 1. rewrite Hstop.
  unfold fire. unfold bind, get, modify, ret, raise. cbv beta iota.
  match goal with
  | |- context [_write_kmsg sut argv0 getpid test timers ?x] =>
      destruct (_write_kmsg sut argv0 getpid test timers x)
        as [[[]|e|k] s1]; [|reflexivity|reflexivity]
  end.
  cbv beta iota.
  match goal with
  | |- context [_run_test_try sut self test ?b ?t0 timers ?x] =>
      destruct (_run_test_try sut self test b t0 timers x)
        as [[a|e|k] sa]; [|reflexivity|reflexivity]
  end.
  cbv beta iota zeta. unfold recorded. destruct (at_status a); reflexivity.
Qed.

(** The command of a test, run under the timer of the scheduler. *)
Lemma timed_command test timers (s1 : state W) chunks rc w2 :
  sut_run_command sut (test_full_command test) (test_cwd test)
                  (test_env test) (_timeout self :: timers) (world s1)
  = (chunks, rc, w2) ->
  exists fires s2,
    wait_for (run_command sut (test_full_command test) (test_cwd test)
                          (test_env test) (Some (RedirectTestStdout test)))
             (_timeout self) timers s1
    = (match rc with
       | Cancelled O => Raise (mk_exn TimeoutError [])
       | Cancelled (Datatypes.S k) => Cancelled k
       | other => other
       end, s2) /\
    world s2 = w2 /\
    log s2 = log s1 ++ fires
               ++ [SutRunCommand (test_full_command test)
                                 (_timeout self :: timers) rc] /\
    calls fires = [].
Proof.
  intros E.
  destruct (primitive_spec (sut_run_command sut (test_full_command test)
                              (test_cwd test) (test_env test))
              (SutRunCommand (test_full_command test))
              (Some (RedirectTestStdout test)) (_timeout self :: timers) s1 E)
    as (fires & s2 & P & W2 & L2 & C2 & _).
  exists fires, s2. unfold wait_for, run_command. rewrite P.
  destruct rc as [d|e|[|k]]; repeat split; assumption.
Qed.

Lemma timed_ping timers (s2 : state W) :
  exists s3,
    wait_for (ping sut) 10 timers s2
    = (match fst (sut_ping sut (10%Q :: timers) (world s2)) with
       | Cancelled O => Raise (mk_exn TimeoutError [])
       | Cancelled (Datatypes.S k) => Cancelled k
       | other => other
       end, s3) /\
    world s3 = snd (sut_ping sut (10%Q :: timers) (world s2)) /\
    log s3 = log s2
               ++ [SutPing (10%Q :: timers)
                           (fst (sut_ping sut (10%Q :: timers) (world s2)))].
Proof.
  destruct (sut_ping sut (10%Q :: timers) (world s2)) as [rp w3] eqn:E.
  exists (set_log (log s2 ++ [SutPing (10%Q :: timers) rp])
                  (set_world w3 s2)).
  unfold wait_for, ping, primitive. rewrite E. simpl.
  destruct rp as [d|e|[|k]]; repeat split.
Qed.

End RunTestFacts.

(** X14.  In [_run_test], when the timer of the scheduler fires during the
    command of the test, the attempt is a TEST_TIMEOUT and [ping] is called
    under a timer of 10 seconds, right after the command.  The attempt
    becomes a KERNEL_TIMEOUT exactly when that timer fires too (or the ping
    itself raises a timeout); it stays a TEST_TIMEOUT when the ping
    returns; any other error of the ping, and a cancellation from outside,
    leave the [try] statement. *)
Theorem _run_test_try_timeout :
  forall W (sut : SUT W) self test start_t timers (s s1 : state W)
         r1 chunks w2,
    _get_tainted_status sut timers s = (Ok r1, s1) ->
    sut_run_command sut (test_full_command test) (test_cwd test)
                    (test_env test) (_timeout self :: timers) (world s1)
    = (chunks, Cancelled 0, w2) ->
    let rp := fst (sut_ping sut (10%Q :: timers) w2) in
    let exec_time := (time_time sut w2 - start_t)%Q in
    exists s2 s3,
      _run_test_try sut self test (RedirectTestStdout test) start_t timers s
      = (match rp with
         | Ok _ => Ok (mk_attempt TEST_TIMEOUT None None exec_time)
         | Cancelled O => Ok (mk_attempt KERNEL_TIMEOUT None None exec_time)
         | Cancelled (Datatypes.S k) => Cancelled k
         | Raise e =>
             if isinstance e TimeoutError
             then Ok (mk_attempt KERNEL_TIMEOUT None None exec_time)
             else Raise e
         end, s3) /\
      world s2 = w2 /\
      log s3 = log s2 ++ [SutPing (10%Q :: timers) rp] /\
      world s3 = snd (sut_ping sut (10%Q :: timers) w2).
Proof.
  intros W sut self test start_t timers s s1 r1 chunks w2 H1 E rp exec_time.
  destruct (timed_command sut self test timers s1 E)
    as (fires & s2 & Hcmd & W2 & _).
  destruct (timed_ping sut timers s2) as (s3 & Hping & W3 & L3).
  rewrite W2 in Hping, W3, L3. fold rp in Hping, L3.
  exists s2, s3. split; [|repeat split; assumption].
  unfold _run_test_try, try_except. unfold bind at 1. rewrite H1.
  unfold bind at 1. rewrite Hcmd.
  change (isinstance (mk_exn TimeoutError []) KernelPanicError) with false.
  change (isinstance (mk_exn TimeoutError []) TimeoutError) with true.
  cbv iota. unfold bind at 1, get at 1. cbv beta iota zeta.
  rewrite W2. fold exec_time. unfold try_except, bind. rewrite Hping.
  destruct rp as [d|e|[|k]]; try reflexivity.
  destruct (isinstance e TimeoutError); reflexivity.
Qed.

(** X15.  In [_run_test], when the command of the test raises
    [KernelPanicError] the attempt is a KERNEL_PANIC, with the time elapsed
    since the start, and no ping is made. *)
Theorem _run_test_try_panic :
  forall W (sut : SUT W) self test start_t timers (s s1 : state W)
         r1 chunks e w2,
    _get_tainted_status sut timers s = (Ok r1, s1) ->
    sut_run_command sut (test_full_command test) (test_cwd test)
                    (test_env test) (_timeout self :: timers) (world s1)
    = (chunks, Raise e, w2) ->
    isinstance e KernelPanicError = true ->
    exists fires s2,
      _run_test_try sut self test (RedirectTestStdout test) start_t timers s
      = (Ok (mk_attempt KERNEL_PANIC None None
                        (time_time sut w2 - start_t)%Q), s2) /\
      world s2 = w2 /\
      log s2 = log s1 ++ fires
                 ++ [SutRunCommand (test_full_command test)
                                   (_timeout self :: timers) (Raise e)] /\
      calls fires = [].
Proof.
  intros W sut self test start_t timers s s1 r1 chunks e w2 H1 E Hp.
  destruct (timed_command sut self test timers s1 E)
    as (fires & s2 & Hcmd & W2 & L2 & C2).
  exists fires, s2. split; [|repeat split; assumption].
  unfold _run_test_try, try_except. unfold bind at 1. rewrite H1.
  unfold bind at 1. rewrite Hcmd, Hp.
  unfold bind, get, ret. now rewrite W2.
Qed.

(** X16.  In [_run_test], when the command of the test returns, the taint
    is read again; the attempt is a KERNEL_TAINTED, with the new reasons,
    exactly when the bitmask differs from the one read before the command,
    whatever the return code of the command; otherwise it is OK.  Both
    keep the data of the command. *)
Theorem _run_test_try_tainted :
  forall W (sut : SUT W) self test start_t timers (s s1 s3 : state W)
         r1 r2 chunks data w2,
    _get_tainted_status sut timers s = (Ok r1, s1) ->
    sut_run_command sut (test_full_command test) (test_cwd test)
                    (test_env test) (_timeout self :: timers) (world s1)
    = (chunks, Ok data, w2) ->
    _get_tainted_status sut timers
      (snd (wait_for (run_command sut (test_full_command test)
                                  (test_cwd test) (test_env test)
                                  (Some (RedirectTestStdout test)))
                     (_timeout self) timers s1))
    = (Ok r2, s3) ->
    _run_test_try sut self test (RedirectTestStdout test) start_t timers s
    = (Ok (if (fst r2 =? fst r1)%Z
           then mk_attempt STATUS_OK (Some data) None 0
           else mk_attempt KERNEL_TAINTED (Some data) (Some (snd r2)) 0),
       s3).
Proof.
  intros W sut self test start_t timers s s1 s3 r1 r2 chunks data w2
         H1 E H2.
  destruct (primitive_spec (sut_run_command sut (test_full_command test)
                              (test_cwd test) (test_env test))
              (SutRunCommand (test_full_command test))
              (Some (RedirectTestStdout test)) (_timeout self :: timers) s1 E)
    as (fires & s2 & P & _).
  unfold wait_for, run_command in H2. rewrite P in H2. simpl snd in H2.
  unfold _run_test_try, try_except. unfold bind at 1. rewrite H1.
  unfold bind at 1, wait_for, run_command. rewrite P.
  unfold bind at 1. rewrite H2.
  destruct (fst r2 =? fst r1)%Z; reflexivity.
Qed.

(** A scheduler of LTP tests with the default timeout and one worker. *)
Definition ltp_scheduler : TestScheduler :=
  mk_TestScheduler LTPFramework 3600 1 false.

Definition some_test : Test := mk_Test "abort01" "abort01" None [] false.

(** The taint file of a pristine kernel, and of one with a warning. *)
Definition taint_clean : reply :=
  ReplyCommand [] (Ok (mk_cmd_data "" ("0" ++ newline) 0 0)).
Definition taint_warned : reply :=
  ReplyCommand [] (Ok (mk_cmd_data "" ("512" ++ newline) 0 0)).

(** A SUT that answers neither the test nor the ping in time. *)
Definition frozen : list reply :=
  [taint_clean; ReplyCommand ["star"] (Cancelled 0); ReplyPing (Cancelled 0)].

Lemma _run_test_try_timeout_witness :
  exists s3,
    _run_test_try scripted_sut ltp_scheduler some_test
                  (RedirectTestStdout some_test) 0 [] (init_state frozen)
    = (Ok (mk_attempt KERNEL_TIMEOUT None None (0 - 0)%Q), s3).
Proof.
  edestruct (@_run_test_try_timeout _ scripted_sut ltp_scheduler some_test
               0%Q [] (init_state frozen))
    as (s2 & s3 & H & _);
    [vm_compute; reflexivity|vm_compute; reflexivity|].
  exists s3. exact H.
Defined.

(** A SUT whose kernel panics during the test. *)
Definition panics : list reply :=
  [taint_clean;
   ReplyCommand ["Kernel panic"] (Raise (mk_exn KernelPanicError []))].

Lemma _run_test_try_panic_witness :
  exists s2,
    _run_test_try scripted_sut ltp_scheduler some_test
                  (RedirectTestStdout some_test) 0 [] (init_state panics)
    = (Ok (mk_attempt KERNEL_PANIC None None (0 - 0)%Q), s2).
Proof.
  edestruct (@_run_test_try_panic _ scripted_sut ltp_scheduler some_test
               0%Q [] (init_state panics))
    as (fires & s2 & H & _);
    [vm_compute; reflexivity|vm_compute; reflexivity|reflexivity|].
  exists s2. exact H.
Defined.

(** A SUT whose kernel gets tainted by a test that passes. *)
Definition taints : list reply :=
  [taint_clean;
   ReplyCommand ["TPASS"] (Ok (mk_cmd_data "abort01" "TPASS" 0 1));
   taint_warned].

Lemma _run_test_try_tainted_witness :
  exists s3,
    _run_test_try scripted_sut ltp_scheduler some_test
                  (RedirectTestStdout some_test) 0 [] (init_state taints)
    = (Ok (mk_attempt KERNEL_TAINTED
                      (Some (mk_cmd_data "abort01" "TPASS" 0 1))
                      (Some ["kernel issued warning"]) 0), s3).
Proof.
  pose (s1 := snd (_get_tainted_status scripted_sut [] (init_state taints))).
  pose (s2 := snd (wait_for
                     (run_command scripted_sut (test_full_command some_test)
                        (test_cwd some_test) (test_env some_test)
                        (Some (RedirectTestStdout some_test)))
                     (_timeout ltp_scheduler) [] s1)).
  pose (s3 := snd (_get_tainted_status scripted_sut [] s2)).
  assert (H1 : _get_tainted_status scripted_sut [] (init_state taints)
               = (Ok (0%Z, []), s1)) by (vm_compute; reflexivity).
  assert (E : sut_run_command scripted_sut (test_full_command some_test)
                (test_cwd some_test) (test_env some_test)
                (_timeout ltp_scheduler :: []) (world s1)
              = (["TPASS"], Ok (mk_cmd_data "abort01" "TPASS" 0 1),
                 [taint_warned])) by (vm_compute; reflexivity).
  assert (H2 : _get_tainted_status scripted_sut [] s2
               = (Ok (512%Z, ["kernel issued warning"]), s3))
    by (vm_compute; reflexivity).
  exists s3.
  exact (@_run_test_try_tainted _ scripted_sut ltp_scheduler some_test 0%Q []
           (init_state taints) s1 s3 (0%Z, [])
           (512%Z, ["kernel issued warning"]) ["TPASS"]
           (mk_cmd_data "abort01" "TPASS" 0 1) [taint_warned] H1 E H2).
Defined.

(** X13.  [_run_test] does nothing when a stop is requested.  Otherwise,
    as soon as its [try] statement has classified the attempt, it appends
    exactly one result to the results of the scheduler (read by the
    framework from the data of the command, or from the text gathered by
    the buffer with the return code -1 when the attempt is not OK nor
    KERNEL_TAINTED), and only then returns or raises the kernel error of
    the classification.  When the steps before (the note in the kernel
    log, the taint reads, the command, the ping) end in another way, that
    outcome leaves [_run_test] and no result is appended. *)
Theorem _run_test_records :
  forall W (sut : SUT W) self argv0 getpid test timers (s s' : state W) r,
    _run_test sut self argv0 getpid test timers s = (r, s') ->
    (ts_stop s = true -> r = Ok tt /\ s' = s) /\
    (ts_stop s = false ->
     match attempt_phase sut self argv0 getpid test timers s with
     | (Ok a, sa) =>
         ts_results s' = ts_results s ++ [recorded self test a sa] /\
         r = outcome_of_status (at_status a) /\
         world s' = world sa /\
         cd_returncode (result_data test a (iobuffer_stdout sa))
         = match at_status a, at_test_data a with
           | (STATUS_OK | KERNEL_TAINTED), Some d => cd_returncode d
           | _, _ => (-1)%Z
           end
     | (ra, sa) => r = pass ra /\ s' = sa /\ ts_results s' = ts_results s
     end).
Proof.
  intros W sut self argv0 getpid test timers s s' r Hrun. split.
  - intros Hstop. unfold _run_test, bind at 1, get at 1 in Hrun.
    rewrite Hstop in Hrun. inversion Hrun. split; reflexivity.
  - intros Hstop. rewrite _run_test_phases in Hrun by exact Hstop.
    destruct (attempt_phase sut self argv0 getpid test timers s)
      as [[a|e|k] sa] eqn:Ea;
      pose proof (keeps_attempt_phase sut self argv0 getpid test
                    _ _ Ea) as (Hres & _).
    + cbv zeta in Hrun. rewrite <- Hres.
      assert (Hrc : cd_returncode (result_data test a (iobuffer_stdout sa))
                    = match at_status a, at_test_data a with
                      | (STATUS_OK | KERNEL_TAINTED), Some d =>
                          cd_returncode d
                      | _, _ => (-1)%Z
                      end).
      { unfold result_data. destruct (at_status a), (at_test_data a);
          reflexivity. }
      destruct (at_status a); inversion Hrun; subst; simpl;
        repeat split; exact Hrc.
    + inversion Hrun; subst. repeat split. exact Hres.
    + inversion Hrun; subst. repeat split. exact Hres.
Qed.

(** A SUT that runs as a user, with a kernel that panics. *)
Definition user_panics : list reply :=
  ReplyCommand [] (Ok (mk_cmd_data "id -u" ("1000" ++ newline) 0 0))
  :: panics.

Lemma _run_test_records_witness :
  exists s',
    _run_test scripted_sut ltp_scheduler "kirk" "4242" some_test []
              (init_state user_panics)
    = (Raise (mk_exn KernelPanicError []), s') /\
    ts_results s'
    = [mk_TestResults some_test 0 0 1 0 0 (0 - 0)%Q (-1) "Kernel panic"].
Proof.
  pose (s' := snd (_run_test scripted_sut ltp_scheduler "kirk" "4242"
                             some_test [] (init_state user_panics))).
  assert (Hrun : _run_test scripted_sut ltp_scheduler "kirk" "4242"
                   some_test [] (init_state user_panics)
                 = (Raise (mk_exn KernelPanicError []), s'))
    by (vm_compute; reflexivity).
  pose (sa := snd (attempt_phase scripted_sut ltp_scheduler "kirk" "4242"
                                 some_test [] (init_state user_panics))).
  assert (Ea : attempt_phase scripted_sut ltp_scheduler "kirk" "4242"
                 some_test [] (init_state user_panics)
               = (Ok (mk_attempt KERNEL_PANIC None None (0 - 0)%Q), sa))
    by (vm_compute; reflexivity).
  destruct (_run_test_records _ _ _ _ _ _ _ Hrun) as [_ H].
  specialize (H eq_refl). rewrite Ea in H. destruct H as (H & _).
  exists s'. split; [exact Hrun|]. rewrite H. vm_compute. reflexivity.
Defined.

(** ** [TestScheduler.schedule] *)

(** [res] is a result the framework read for the test [t]. *)
Definition result_of (fw : Framework) (t : Test) (res : TestResults) : Prop :=
  exists out rc et, res = read_result fw t out rc et.

(** The flags and the suite results, which running tests does not touch. *)
Definition same_flags {W} (s s' : state W) : Prop :=
  ts_stop s' = ts_stop s /\ ts_stopped s' = ts_stopped s /\
  ss_results s' = ss_results s /\ ss_stop s' = ss_stop s /\
  ss_stopped s' = ss_stopped s.

Lemma same_flags_refl {W} (s : state W) : same_flags s s.
Proof. repeat split. Qed.

Lemma same_flags_trans {W} (s1 s2 s3 : state W) :
  same_flags s1 s2 -> same_flags s2 s3 -> same_flags s1 s3.
Proof.
  unfold same_flags; intros H1 H2.
  decompose [and] H1; decompose [and] H2; repeat split; congruence.
Qed.

Lemma same_sched_flags {W} (s s' : state W) :
  same_sched s s' -> same_flags s s'.
Proof.
  unfold same_sched, same_flags. intros H. decompose [and] H.
  repeat split; assumption.
Qed.

(** The tests no worker may run beside another one. *)
Definition sequential (tests : list Test) : Prop :=
  Forall (fun t => test_parallelizable t = false) tests.

Section ScheduleFacts.
Context {W : Type} (sut : SUT W) (self : TestScheduler).
Variable argv0 : string.
Variable getpid : string.
Variable parallel_batch : list Test -> M (state W) unit.

(** One attempt appends at most one result, read for its test, and a
    return means that it did. *)
Lemma _run_test_step test timers (s s' : state W) r :
  ts_stop s = false ->
  _run_test sut self argv0 getpid test timers s = (r, s') ->
  same_flags s s' /\ ts_tasks s' = ts_tasks s /\
  ((exists res, ts_results s' = ts_results s ++ [res] /\
                result_of (_framework self) test res) \/
   (ts_results s' = ts_results s /\ is_ok r = false)).
Proof.
  intros Hstop Hrun. rewrite _run_test_phases in Hrun by exact Hstop.
  destruct (attempt_phase sut self argv0 getpid test timers s)
    as [[a|e|k] sa] eqn:Ea;
    pose proof (keeps_attempt_phase sut self argv0 getpid test _ _ Ea)
      as Hk; pose proof (same_sched_flags Hk) as Hf;
      destruct Hk as (Hres & _ & _ & Htasks & _).
  - cbv zeta in Hrun.
    assert (Hgoal : forall r0 ev,
      (r0, set_log (log (set_ts_results
                           (ts_results sa ++ [recorded self test a sa]) sa)
                      ++ [ev])
                   (set_ts_results
                      (ts_results sa ++ [recorded self test a sa]) sa))
      = (r, s') ->
      same_flags s s' /\ ts_tasks s' = ts_tasks s /\
      ((exists res, ts_results s' = ts_results s ++ [res] /\
                    result_of (_framework self) test res) \/
       (ts_results s' = ts_results s /\ is_ok r = false))).
    { intros r0 ev H. inversion H; subst. split; [exact Hf|].
      split; [exact Htasks|]. left. eexists. simpl. rewrite Hres.
      split; [reflexivity|]. unfold recorded, result_of. eauto. }
    destruct (at_status a); eapply Hgoal; exact Hrun.
  - inversion Hrun; subst. repeat split; try apply Hf; try assumption.
    right. split; [exact Hres|reflexivity].
  - inversion Hrun; subst. repeat split; try apply Hf; try assumption.
    right. split; [exact Hres|reflexivity].
Qed.

(** The sequential batch: results come in the order of the tests, one for
    each test of a prefix, and for all of them when the batch returns. *)
Lemma _run_and_wait_spec : forall tests timers (s s' : state W) r,
  ts_stop s = false ->
  _run_and_wait sut self argv0 getpid tests timers s = (r, s') ->
  exists rs,
    ts_results s' = ts_results s ++ rs /\
    Forall2 (result_of (_framework self)) (firstn (List.length rs) tests) rs /\
    (List.length rs <= List.length tests)%nat /\
    (r = Ok tt -> List.length rs = List.length tests) /\
    same_flags s s'.
Proof.
  induction tests as [|test rest IH]; intros timers s s' r Hstop Hrun.
  - inversion Hrun; subst. exists []. rewrite app_nil_r.
    repeat split; constructor.
  - cbn [_run_and_wait] in Hrun. unfold bind at 1, modify at 1 in Hrun.
    unfold bind at 1 in Hrun.
    destruct (_run_test sut self argv0 getpid test timers
                (set_ts_tasks (ts_tasks s ++ [test]) s))
      as [r1 s1] eqn:E1.
    destruct (@_run_test_step test timers
                (set_ts_tasks (ts_tasks s ++ [test]) s) s1 r1 Hstop E1)
      as (Hf1 & _ & Hres1). simpl in Hf1, Hres1.
    destruct r1 as [[]|e|k].
    + destruct Hres1 as [(res & Hr & Hof)|[_ Hno]]; [|discriminate].
      assert (Hstop1 : ts_stop s1 = false).
      { destruct Hf1 as (H & _). simpl in H. congruence. }
      destruct (IH timers s1 s' r Hstop1 Hrun) as (rs & Hrs & Hall & Hlen & Hok & Hf).
      exists (res :: rs). rewrite Hrs, Hr, <- app_assoc. simpl.
      split; [reflexivity|]. split; [constructor; assumption|].
      split; [lia|]. split; [intros H; rewrite (Hok H); reflexivity|].
      eapply same_flags_trans; [|exact Hf]. exact Hf1.
    + inversion Hrun; subst.
      destruct Hres1 as [(res & Hr & Hof)|[Hr _]].
      * exists [res]. rewrite Hr. repeat split; try apply Hf1;
          simpl; try lia; try discriminate. constructor; [exact Hof|constructor].
      * exists []. rewrite Hr, app_nil_r. repeat split; try apply Hf1;
          simpl; try lia; try discriminate. constructor.
    + inversion Hrun; subst.
      destruct Hres1 as [(res & Hr & Hof)|[Hr _]].
      * exists [res]. rewrite Hr. repeat split; try apply Hf1;
          simpl; try lia; try discriminate. constructor; [exact Hof|constructor].
      * exists []. rewrite Hr, app_nil_r. repeat split; try apply Hf1;
          simpl; try lia; try discriminate. constructor.
Qed.

Lemma filter_sequential tests :
  sequential tests ->
  filter test_parallelizable tests = [] /\
  filter (fun t => negb (test_parallelizable t)) tests = tests.
Proof.
  induction 1 as [|t l Ht Hl [IH1 IH2]]; simpl; [split; reflexivity|].
  rewrite Ht. simpl. rewrite IH1, IH2. split; reflexivity.
Qed.

End ScheduleFacts.

(** X17.  [TestScheduler.schedule] on tests that are not parallelizable
    (and without the forced parallel mode), when no stop is requested:
    the results of the previous call are dropped; the new results come in
    the order of the jobs, one for each job of a prefix of the list, and
    one for every job when the call returns; the task list is empty at the
    end, and the flags and the suite results are not touched. *)
Theorem schedule_sequential :
  forall W (sut : SUT W) self argv0 getpid parallel_batch jobs timers
         (s s' : state W) r,
    jobs <> [] -> sequential jobs -> _force_parallel self = false ->
    ts_stop s = false ->
    TestScheduler_schedule sut self argv0 getpid parallel_batch jobs timers s
    = (r, s') ->
    Forall2 (result_of (_framework self))
            (firstn (List.length (ts_results s')) jobs) (ts_results s') /\
    (List.length (ts_results s') <= List.length jobs)%nat /\
    (r = Ok tt -> List.length (ts_results s') = List.length jobs) /\
    ts_tasks s' = [] /\ same_flags s s'.
Proof.
  intros W sut self argv0 getpid parallel_batch jobs timers s s' r
         Hne Hseq Hfp Hstop Hrun.
  destruct (filter_sequential Hseq) as [Fp Fs].
  unfold TestScheduler_schedule in Hrun.
  destruct jobs as [|j js]; [congruence|].
  rewrite Hfp, Fp, Fs in Hrun.
  unfold bind at 1, modify at 1 in Hrun.
  unfold bind at 1, modify at 1 in Hrun.
  unfold try_finally, try_except_cancelled in Hrun.
  unfold bind at 1, _run_parallel, ret at 1 in Hrun.
  destruct (_run_and_wait sut self argv0 getpid (j :: js) timers
              (set_ts_results [] (set_ts_tasks [] s))) as [r0 s1] eqn:E.
  destruct (@_run_and_wait_spec _ sut self argv0 getpid (j :: js) timers
              (set_ts_results [] (set_ts_tasks [] s)) s1 r0 Hstop E)
    as (rs & Hrs & Hall & Hlen & Hok & Hf).
  simpl in Hrs. unfold same_flags in Hf. simpl in Hf.
  assert (Hstop1 : ts_stop s1 = false) by (destruct Hf as (H & _); congruence).
  assert (Hend : (r0, set_ts_tasks [] s1) = (r, s')).
  { destruct r0 as [[]|e|k].
    - exact Hrun.
    - destruct (isinstance e KirkException).
      + unfold bind, get, raise in Hrun. rewrite Hstop1 in Hrun. exact Hrun.
      + exact Hrun.
    - unfold bind, get in Hrun. rewrite Hstop1 in Hrun. exact Hrun. }
  inversion Hend; subst. simpl.
  repeat split; try assumption; apply Hf.
Qed.

(** X18.  Both schedulers refuse an empty list of jobs with a
    [ValueError], before anything is cleared or run. *)
Theorem schedule_rejects_empty :
  forall W (sut : SUT W) ts ss argv0 getpid parallel_batch fuel timers
         (s : state W),
    TestScheduler_schedule sut ts argv0 getpid parallel_batch [] timers s
    = (Raise (mk_exn ValueError ["jobs list is empty"]), s) /\
    SuiteScheduler_schedule sut ss argv0 getpid parallel_batch fuel []
                            timers s
    = Some (Raise (mk_exn ValueError ["jobs list is empty"]), s).
Proof. intros. split; reflexivity. Qed.

Definition other_test : Test := mk_Test "accept01" "accept01" None [] false.

Definition id_user : reply :=
  ReplyCommand [] (Ok (mk_cmd_data "id -u" ("1000" ++ newline) 0 0)).

(** A SUT on which a first test passes and a second one panics. *)
Definition pass_then_panic : list reply :=
  [id_user; taint_clean;
   ReplyCommand ["TPASS"] (Ok (mk_cmd_data "abort01" "TPASS" 0 1));
   taint_clean;
   id_user; taint_clean;
   ReplyCommand ["Kernel panic"] (Raise (mk_exn KernelPanicError []))].

(** No concurrent batch. *)
Definition no_batch {W} : list Test -> M (state W) unit := fun _ => ret tt.

Lemma schedule_sequential_witness :
  let X := TestScheduler_schedule scripted_sut ltp_scheduler "kirk" "4242"
             no_batch [some_test; other_test] []
             (init_state pass_then_panic) in
  Forall2 (result_of LTPFramework)
          (firstn (List.length (ts_results (snd X))) [some_test; other_test])
          (ts_results (snd X)) /\
  (List.length (ts_results (snd X)) <= 2)%nat.
Proof.
  intros X.
  assert (Hne : [some_test; other_test] <> []) by discriminate.
  assert (Hseq : sequential [some_test; other_test]).
  { apply Forall_cons; [reflexivity|].
    apply Forall_cons; [reflexivity|apply Forall_nil]. }
  assert (Hrun : TestScheduler_schedule scripted_sut ltp_scheduler "kirk"
                   "4242" no_batch [some_test; other_test] []
                   (init_state pass_then_panic) = (fst X, snd X))
    by apply surjective_pairing.
  destruct (@schedule_sequential _ scripted_sut ltp_scheduler "kirk" "4242"
              no_batch [some_test; other_test] []
              (init_state pass_then_panic) (snd X) (fst X)
              Hne Hseq eq_refl eq_refl Hrun)
    as (H1 & H2 & _).
  split; [exact H1|exact H2].
Defined.

(** ** [SuiteScheduler] *)

(** The names of the tests of a list of results. *)
Definition names (rs : list TestResults) : list string :=
  map (fun r => test_name (res_test r)) rs.

(** A framework whose results carry the test they were read for. *)
Definition keeps_test (fw : Framework) : Prop :=
  forall t out rc et, res_test (read_result fw t out rc et) = t.

Section SuiteFrames.
Context {W : Type} (sut : SUT W).

Lemma keeps__run_cmd cmd : keeps (_run_cmd sut cmd).
Proof.
  unfold _run_cmd. apply keeps_try_except.
  - apply keeps_bind; [apply keeps_wait_for, keeps_run_command|].
    intros d. destruct (cd_returncode d =? 0)%Z; apply keeps_ret.
  - intros e k Hk. destruct (isinstance e TimeoutError); [|discriminate].
    inversion Hk; subst. apply keeps_ret.
Qed.

Lemma keeps_get_info : keeps (get_info sut).
Proof.
  unfold get_info.
  repeat (apply keeps_bind; [apply keeps__run_cmd|intros ?]).
  cbv zeta. destruct a4; [apply keeps_ret|].
  apply keeps_ret.
Qed.

(** [TestScheduler.stop] on a scheduler without tasks does nothing. *)
Lemma TestScheduler_stop_idle timers (s : state W) :
  ts_tasks s = [] -> TestScheduler_stop timers s = (Ok tt, s).
Proof.
  intros H. unfold TestScheduler_stop, bind, get. now rewrite H.
Qed.

Lemma _restart_sut_keeps timers (s s' : state W) r :
  ts_tasks s = [] ->
  _restart_sut sut timers s = (r, s') -> same_sched s s'.
Proof.
  intros Ht Hrun. unfold _restart_sut in Hrun.
  unfold bind at 1, fire at 1, modify at 1 in Hrun.
  unfold bind at 1 in Hrun.
  rewrite TestScheduler_stop_idle in Hrun by exact Ht.
  assert (Hk : keeps (stop sut (Some (RedirectSUTStdout (sut_name sut))) ;;
                      ensure_communicate sut
                        (Some (RedirectSUTStdout (sut_name sut))) 10)).
  { apply keeps_bind; [apply keeps_stop|].
    intros _. apply keeps_ensure_communicate. }
  apply Hk in Hrun. exact Hrun.
Qed.

End SuiteFrames.

(** *** Names of tests and of results *)

Lemma names_app rs1 rs2 : names (rs1 ++ rs2) = names rs1 ++ names rs2.
Proof. apply map_app. Qed.

Lemma found_In test rs :
  found test rs = true <-> In (test_name test) (names rs).
Proof.
  unfold found, names. rewrite existsb_exists, in_map_iff. split.
  - intros (r & Hin & Heq). apply String.eqb_eq in Heq.
    exists r. split; [symmetry; exact Heq|exact Hin].
  - intros (r & Heq & Hin). exists r. split; [exact Hin|].
    apply String.eqb_eq. symmetry. exact Heq.
Qed.

Lemma found_none test : found test [] = false.
Proof. reflexivity. Qed.

Lemma NoDup_map_filter {A B} (f : A -> B) (p : A -> bool) l :
  NoDup (map f l) -> NoDup (map f (filter p l)).
Proof.
  induction l as [|a l IH]; simpl; intros H; [constructor|].
  inversion H as [|x xs Hnin Hnd]; subst.
  destruct (p a); simpl; [|now apply IH].
  constructor; [|now apply IH].
  intros Hin. apply Hnin. apply in_map_iff in Hin.
  destruct Hin as (b & Hb & Hin). apply filter_In in Hin.
  apply in_map_iff. exists b. tauto.
Qed.

Lemma In_firstn {A} n (l : list A) x : In x (firstn n l) -> In x l.
Proof.
  revert l; induction n as [|n IH]; intros [|a l] H; simpl in *;
    try contradiction.
  destruct H as [H|H]; [now left|right; now apply IH].
Qed.

Lemma NoDup_firstn {A} n (l : list A) : NoDup l -> NoDup (firstn n l).
Proof.
  revert l; induction n as [|n IH]; intros [|a l] H; simpl;
    try constructor.
  - inversion H; subst. intros Hin. apply In_firstn in Hin. contradiction.
  - inversion H; subst. now apply IH.
Qed.

(** The tests of a suite that have no result yet. *)
Definition outstanding (suite : Suite) (rs : list TestResults) : list Test :=
  filter (fun test => negb (found test rs)) (suite_tests suite).

Lemma outstanding_none suite : outstanding suite [] = suite_tests suite.
Proof.
  unfold outstanding. induction (suite_tests suite) as [|t l IH];
    simpl; [reflexivity|]. f_equal. exact IH.
Qed.

Lemma outstanding_names suite rs t :
  In t (outstanding suite rs) ->
  In t (suite_tests suite) /\ ~ In (test_name t) (names rs).
Proof.
  unfold outstanding. intros H. apply filter_In in H. destruct H as [Hin Hf].
  split; [exact Hin|]. intros Hn. apply found_In in Hn.
  rewrite Hn in Hf. discriminate.
Qed.

Lemma outstanding_empty suite rs :
  outstanding suite rs = [] ->
  forall t, In t (suite_tests suite) -> found t rs = true.
Proof.
  unfold outstanding. intros H t Hin.
  destruct (found t rs) eqn:E; [reflexivity|].
  assert (Hf : In t (filter (fun test => negb (found test rs))
                            (suite_tests suite))).
  { apply filter_In. split; [exact Hin|]. now rewrite E. }
  rewrite H in Hf. destruct Hf.
Qed.

Lemma names_skipped l : names (map skipped_result l) = map test_name l.
Proof. unfold names. rewrite map_map. reflexivity. Qed.

(** Results read for a prefix of the outstanding tests, added to results
    without duplicate names, leave no duplicate. *)
Lemma NoDup_names_extend fw suite rs new n :
  keeps_test fw ->
  NoDup (map test_name (suite_tests suite)) ->
  NoDup (names rs) ->
  incl (names rs) (map test_name (suite_tests suite)) ->
  Forall2 (result_of fw) (firstn n (outstanding suite rs)) new ->
  NoDup (names (rs ++ new)) /\
  incl (names (rs ++ new)) (map test_name (suite_tests suite)).
Proof.
  intros Hfw Hnd Hrs Hincl Hall.
  assert (Hmap : map res_test new = firstn n (outstanding suite rs)).
  { clear - Hfw Hall. induction Hall as [|t r l l' Hr _ IH]; [reflexivity|].
    simpl. rewrite IH. destruct Hr as (o & rc & et & ->).
    now rewrite Hfw. }
  assert (Hnames : names new = map test_name (firstn n (outstanding suite rs))).
  { unfold names. rewrite <- Hmap, map_map. reflexivity. }
  assert (Hsub : forall x, In x (names new) ->
                           In x (map test_name (suite_tests suite)) /\
                           ~ In x (names rs)).
  { intros x Hx. rewrite Hnames in Hx. apply in_map_iff in Hx.
    destruct Hx as (t & <- & Ht). apply In_firstn in Ht.
    apply outstanding_names in Ht. destruct Ht as [Hin Hno].
    split; [now apply in_map|exact Hno]. }
  rewrite names_app. split.
  - apply NoDup_app; [exact Hrs| |].
    + rewrite Hnames, <- firstn_map. apply NoDup_firstn.
      now apply NoDup_map_filter.
    + intros x Hx Hy. apply Hsub in Hy. tauto.
  - intros x Hx. apply in_app_or in Hx. destruct Hx as [Hx|Hx];
      [now apply Hincl|now apply Hsub].
Qed.

Section SuiteFacts.
Context {W : Type} (sut : SUT W) (self : SuiteScheduler).
Variable argv0 : string.
Variable getpid : string.
Variable parallel_batch : list Test -> M (state W) unit.
Variable suite : Suite.

Hypothesis Hfp : _force_parallel (_scheduler self) = false.
Hypothesis Hfw : keeps_test (_framework (_scheduler self)).
Hypothesis Hseq : sequential (suite_tests suite).
Hypothesis Hnd : NoDup (map test_name (suite_tests suite)).

(** What the loop of [_run_suite] keeps true of its local variables. *)
Definition suite_inv (l : suite_locals) : Prop :=
  NoDup (names (tests_results l)) /\
  incl (names (tests_results l)) (map test_name (suite_tests suite)) /\
  tests_left l = outstanding suite (tests_results l).

Lemma sequential_outstanding rs : sequential (outstanding suite rs).
Proof.
  unfold sequential, outstanding. apply Forall_forall. intros t Ht.
  apply filter_In in Ht. destruct Ht as [Ht _].
  exact (proj1 (Forall_forall _ _) Hseq t Ht).
Qed.

Lemma suite_attempt_spec l timers (s s1 : state W) r l1 :
  suite_inv l -> tests_left l <> [] -> ts_stop s = false ->
  suite_attempt sut self argv0 getpid parallel_batch suite l timers s
  = (r, l1, s1) ->
  suite_inv (mk_locals (timed_out l1) (exec_times l1) (tests_results l1)
                       (outstanding suite (tests_results l1))) /\
  tests_results l1 = tests_results l ++ ts_results s1 /\
  (timed_out l = false -> timed_out l1 = true -> r = Ok tt) /\
  same_flags s s1 /\ ts_tasks s1 = [].
Proof.
  intros (Hn & Hi & Hl) Hne Hstop Hrun. unfold suite_attempt in Hrun.
  destruct (wait_for
              (TestScheduler_schedule sut (_scheduler self) argv0 getpid
                 parallel_batch (tests_left l))
              (_suite_timeout self) timers s) as [r0 s0] eqn:E.
  assert (Hsched : exists r00,
             TestScheduler_schedule sut (_scheduler self) argv0 getpid
               parallel_batch (tests_left l)
               (_suite_timeout self :: timers) s = (r00, s0)).
  { unfold wait_for in E.
    destruct (TestScheduler_schedule sut (_scheduler self) argv0 getpid
                parallel_batch (tests_left l)
                (_suite_timeout self :: timers) s) as [[[]|e|[|k]] sx];
      inversion E; subst; eexists; reflexivity. }
  destruct Hsched as (r00 & Hsched).
  assert (Hseql : sequential (tests_left l))
    by (rewrite Hl; apply sequential_outstanding).
  destruct (@schedule_sequential _ sut _ argv0 getpid parallel_batch _ _ _ _ _
              Hne Hseql Hfp Hstop Hsched)
    as (Hall & _ & _ & Htasks & Hflags).
  rewrite Hl in Hall.
  destruct (@NoDup_names_extend _ _ _ _ _ Hfw Hnd Hn Hi Hall) as (Hn' & Hi').
  assert (Hgoal : forall r' to ex s2,
    ts_results s2 = ts_results s0 -> same_flags s s2 -> ts_tasks s2 = [] ->
    (timed_out l = false -> to = true -> r' = Ok tt) ->
    (r', mk_locals to ex (tests_results l ++ ts_results s2) (tests_left l),
     s2) = (r, l1, s1) ->
    suite_inv (mk_locals (timed_out l1) (exec_times l1) (tests_results l1)
                         (outstanding suite (tests_results l1))) /\
    tests_results l1 = tests_results l ++ ts_results s1 /\
    (timed_out l = false -> timed_out l1 = true -> r = Ok tt) /\
    same_flags s s1 /\ ts_tasks s1 = []).
  { intros r' to ex s2 Hres Hf2 Ht2 Hto H. inversion H; subst. simpl.
    rewrite Hres. repeat split; try assumption; try apply Hf2. }
  destruct r0 as [[]|e|k].
  - eapply Hgoal; [reflexivity|exact Hflags|exact Htasks| |exact Hrun].
    simpl. congruence.
  - destruct (isinstance e TimeoutError).
    + unfold fire, modify in Hrun.
      eapply Hgoal; [| | | |exact Hrun]; simpl;
        [reflexivity|exact Hflags|exact Htasks|reflexivity].
    + destruct (is_kernel_error e).
      * destruct (_restart_sut sut timers s0) as [r2 s2] eqn:E2.
        pose proof (@_restart_sut_keeps _ sut timers s0 s2 r2 Htasks E2) as Hk.
        eapply Hgoal; [| | | |exact Hrun].
        -- apply Hk.
        -- eapply same_flags_trans; [exact Hflags|].
           now apply same_sched_flags.
        -- destruct Hk as (_ & _ & _ & Hk & _). congruence.
        -- congruence.
      * eapply Hgoal; [reflexivity|exact Hflags|exact Htasks| |exact Hrun].
        congruence.
  - eapply Hgoal; [reflexivity|exact Hflags|exact Htasks| |exact Hrun].
    congruence.
Qed.

(** The loop of [_run_suite]: no two results bear the same name, every
    name is the name of a test of the suite, and when the loop ends
    normally every test of the suite has a result. *)
Lemma suite_loop_spec : forall fuel l timers (s s' : state W) r l',
  suite_inv l -> timed_out l = false ->
  ts_stop s = false -> ss_stop s = false ->
  suite_loop sut self argv0 getpid parallel_batch fuel suite l timers s
  = Some (r, l', s') ->
  NoDup (names (tests_results l')) /\
  incl (names (tests_results l')) (map test_name (suite_tests suite)) /\
  (r = Ok tt ->
   forall t, In t (suite_tests suite) -> found t (tests_results l') = true) /\
  same_flags s s'.
Proof.
  induction fuel as [|fuel IH]; intros l timers s s' r l' Hinv Hto Hts Hss Hrun.
  - cbn [suite_loop] in Hrun. rewrite Hss in Hrun. simpl negb in Hrun.
    destruct (tests_left l) eqn:El; [|discriminate].
    simpl in Hrun. inversion Hrun; subst.
    destruct Hinv as (Hn & Hi & Hl).
    repeat split; try assumption.
    intros _. apply outstanding_empty. congruence.
  - cbn [suite_loop] in Hrun. rewrite Hss in Hrun. simpl negb in Hrun.
    destruct (tests_left l) as [|t0 rest] eqn:El.
    { simpl in Hrun. inversion Hrun; subst.
      destruct Hinv as (Hn & Hi & Hl).
      repeat split; try assumption.
      intros _. apply outstanding_empty. congruence. }
    simpl andb in Hrun. cbv iota in Hrun.
    destruct (suite_attempt sut self argv0 getpid parallel_batch suite l
                            timers s) as [[r1 l1] s1] eqn:Ea.
    assert (Hne : tests_left l <> []) by (rewrite El; discriminate).
    destruct (@suite_attempt_spec l timers s s1 r1 l1 Hinv Hne Hts Ea)
      as (Hinv1 & Hres1 & Hto1 & Hf1 & Htasks1).
    destruct Hinv1 as (Hn1 & Hi1 & _). simpl in Hn1, Hi1.
    destruct r1 as [[]|e|k].
    + destruct (timed_out l1) eqn:Et.
      * (* the suite timed out: the outstanding tests are skipped *)
        inversion Hrun; subst. simpl.
        fold (outstanding suite (tests_results l1)).
        split; [|split; [|split; [|exact Hf1]]].
        -- rewrite names_app, names_skipped. apply NoDup_app.
           ++ exact Hn1.
           ++ unfold outstanding. now apply NoDup_map_filter.
           ++ intros x Hx Hy. apply in_map_iff in Hy.
              destruct Hy as (t & <- & Ht).
              apply outstanding_names in Ht. tauto.
        -- rewrite names_app, names_skipped. intros x Hx.
           apply in_app_or in Hx. destruct Hx as [Hx|Hx]; [now apply Hi1|].
           apply in_map_iff in Hx. destruct Hx as (t & <- & Ht).
           apply outstanding_names in Ht. apply in_map. tauto.
        -- intros _ t Ht. apply found_In. rewrite names_app, names_skipped.
           apply in_or_app.
           destruct (found t (tests_results l1)) eqn:Ef.
           ++ left. now apply found_In.
           ++ right. apply in_map. unfold outstanding. apply filter_In.
              split; [exact Ht|now rewrite Ef].
      * fold (outstanding suite (tests_results l1)) in Hrun.
        assert (Hts1 : ts_stop s1 = false)
          by (destruct Hf1 as (H & _); congruence).
        assert (Hss1 : ss_stop s1 = false)
          by (destruct Hf1 as (_ & _ & _ & H & _); congruence).
        apply IH in Hrun; [|repeat split; assumption|reflexivity
                           |exact Hts1|exact Hss1].
        destruct Hrun as (Hn' & Hi' & Hall' & Hf').
        split; [exact Hn'|]. split; [exact Hi'|]. split; [exact Hall'|].
        eapply same_flags_trans; eassumption.
    + inversion Hrun; subst. repeat split; try assumption; try apply Hf1.
      discriminate.
    + inversion Hrun; subst. repeat split; try assumption; try apply Hf1.
      discriminate.
Qed.

End SuiteFacts.

Section SuiteRun.
Context {W : Type} (sut : SUT W) (self : SuiteScheduler).
Variable argv0 : string.
Variable getpid : string.
Variable parallel_batch : list Test -> M (state W) unit.

(** The [finally] clause of the inner [try]: the results of the scheduler
    always join the results of the suite. *)
Lemma suite_attempt_extends suite l timers (s s1 : state W) r l1 :
  suite_attempt sut self argv0 getpid parallel_batch suite l timers s
  = (r, l1, s1) ->
  tests_results l1 = tests_results l ++ ts_results s1.
Proof.
  unfold suite_attempt. intros H.
  destruct (wait_for _ _ timers s) as [[[]|e|k] s0].
  - inversion H; subst. reflexivity.
  - destruct (isinstance e TimeoutError).
    + unfold fire, modify in H. inversion H; subst. reflexivity.
    + destruct (is_kernel_error e).
      * destruct (_restart_sut sut timers s0) as [r2 s2].
        inversion H; subst. reflexivity.
      * inversion H; subst. reflexivity.
  - inversion H; subst. reflexivity.
Qed.

(** Once the loop has run the scheduler, the results of the suite hold
    those of the last run of the scheduler. *)
Lemma suite_loop_collects suite : forall fuel l timers (s s' : state W) r l',
  suite_loop sut self argv0 getpid parallel_batch fuel suite l timers s
  = Some (r, l', s') ->
  (ss_stop s = false /\ tests_left l <> []) \/
  incl (ts_results s) (tests_results l) ->
  incl (ts_results s') (tests_results l').
Proof.
  induction fuel as [|fuel IH]; intros l timers s s' r l' Hrun Hpre;
    cbn [suite_loop] in Hrun.
  - destruct (negb (ss_stop s)
              && match tests_left l with [] => false | _ => true end) eqn:Ec;
      [discriminate|].
    inversion Hrun; subst. destruct Hpre as [[Hs Hne]|Hin]; [|exact Hin].
    rewrite Hs in Ec. destruct (tests_left l'); [congruence|discriminate].
  - destruct (negb (ss_stop s)
              && match tests_left l with [] => false | _ => true end) eqn:Ec.
    + destruct (suite_attempt sut self argv0 getpid parallel_batch suite l
                              timers s) as [[r1 l1] s1] eqn:Ea.
      pose proof (@suite_attempt_extends suite l timers s s1 r1 l1 Ea) as Hext.
      destruct r1 as [[]|e|k].
      * destruct (timed_out l1).
        -- inversion Hrun; subst. simpl. rewrite Hext.
           intros x Hx. apply in_or_app. left. apply in_or_app. now right.
        -- apply IH in Hrun; [exact Hrun|]. right. simpl. rewrite Hext.
           intros x Hx. apply in_or_app. now right.
      * inversion Hrun; subst. rewrite Hext.
        intros x Hx. apply in_or_app. now right.
      * inversion Hrun; subst. rewrite Hext.
        intros x Hx. apply in_or_app. now right.
    + inversion Hrun; subst. destruct Hpre as [[Hs Hne]|Hin]; [|exact Hin].
      rewrite Hs in Ec. destruct (tests_left l'); [congruence|discriminate].
Qed.

Variable suite : Suite.
Hypothesis Hfp : _force_parallel (_scheduler self) = false.
Hypothesis Hfw : keeps_test (_framework (_scheduler self)).
Hypothesis Hseq : sequential (suite_tests suite).
Hypothesis Hnd : NoDup (map test_name (suite_tests suite)).

(** The suite results [_run_suite] builds from its local variables. *)
Definition suite_results_of (info : sut_info) (rs : list TestResults)
  : SuiteResults :=
  mk_SuiteResults suite rs (info_distro info) (info_distro_ver info)
                  (info_kernel info) (info_arch info) (info_cpu info)
                  (info_swap info) (info_ram info).

Lemma _run_suite_spec fuel timers (s s' : state W) r :
  ts_stop s = false -> ss_stop s = false ->
  _run_suite sut self argv0 getpid parallel_batch fuel suite timers s
  = Some (r, s') ->
  match (fire (suite_started suite) ;; get_info sut) timers s with
  | (Ok info, s0) =>
      exists rs t lg,
        ss_results s' = ss_results s ++ [suite_results_of info rs] /\
        log s' = lg ++ [Fire (suite_completed (suite_results_of info rs) t)] /\
        NoDup (names rs) /\
        incl (names rs) (map test_name (suite_tests suite)) /\
        (r = Ok tt ->
         forall t, In t (suite_tests suite) -> found t rs = true) /\
        (suite_tests suite <> [] -> incl (ts_results s') rs) /\
        ts_stop s' = false /\ ss_stop s' = false
  | (ro, s0) => r = pass ro /\ s' = s0 /\ same_sched s s'
  end.
Proof.
  intros Hts Hss Hrun. unfold _run_suite in Hrun.
  assert (Hk : keeps (fire (suite_started suite) ;; get_info sut
                      : M (state W) sut_info)).
  { apply keeps_bind; [apply keeps_fire|]. intros _. apply keeps_get_info. }
  destruct ((fire (suite_started suite) ;; get_info sut) timers s)
    as [[info|e|k] s0] eqn:Ep; specialize (Hk _ _ _ _ Ep).
  - destruct (suite_loop sut self argv0 getpid parallel_batch fuel suite
                {| timed_out := false; exec_times := [];
                   tests_results := []; tests_left := suite_tests suite |}
                timers s0) as [[[r1 l1] s1]|] eqn:El; [|discriminate].
    assert (Hts0 : ts_stop s0 = false)
      by (destruct Hk as (_ & H & _); congruence).
    assert (Hss0 : ss_stop s0 = false)
      by (destruct Hk as (_ & _ & _ & _ & _ & H & _); congruence).
    assert (Hinv : suite_inv suite
                     {| timed_out := false; exec_times := [];
                        tests_results := []; tests_left := suite_tests suite |}).
    { repeat split; simpl.
      - constructor.
      - intros x [].
      - symmetry. apply outstanding_none. }
    destruct (@suite_loop_spec _ sut self argv0 getpid parallel_batch suite
                Hfp Hfw Hseq Hnd fuel _ timers s0 s1 r1 l1
                Hinv eq_refl Hts0 Hss0 El)
      as (Hn & Hi & Hall & Hf).
    pose proof (@suite_loop_collects suite fuel _ timers s0 s1 r1 l1 El) as Hcol.
    unfold suite_finally, bind, fire, modify in Hrun. simpl in Hrun.
    inversion Hrun; subst r s'. clear Hrun.
    exists (tests_results l1). eexists. eexists. simpl.
    destruct Hf as (F1 & F2 & F3 & F4 & F5).
    destruct Hk as (K1 & K2 & K3 & K4 & K5 & K6 & K7).
    split; [rewrite F3, K5; reflexivity|].
    split; [reflexivity|].
    split; [exact Hn|]. split; [exact Hi|]. split; [exact Hall|].
    split.
    { intros Hne. apply Hcol. left. split; [exact Hss0|exact Hne]. }
    split; congruence.
  - inversion Hrun; subst. repeat split; apply Hk.
  - inversion Hrun; subst. repeat split; apply Hk.
Qed.

End SuiteRun.

(** X19.  For a suite whose tests bear distinct names and are not
    parallelizable, run without a requested stop with a framework that
    keeps the test in its results: when [_run_suite] returns, the suite
    results it appended hold exactly one result for each test name of the
    suite, none missing and none twice, whatever kernel errors, reboots
    and suite timeouts happened on the way. *)
Theorem _run_suite_one_result_per_test :
  forall W (sut : SUT W) self argv0 getpid parallel_batch fuel suite timers
         (s s' : state W),
    _force_parallel (_scheduler self) = false ->
    keeps_test (_framework (_scheduler self)) ->
    sequential (suite_tests suite) ->
    NoDup (map test_name (suite_tests suite)) ->
    ts_stop s = false -> ss_stop s = false ->
    _run_suite sut self argv0 getpid parallel_batch fuel suite timers s
    = Some (Ok tt, s') ->
    exists sr,
      ss_results s' = ss_results s ++ [sr] /\ sres_suite sr = suite /\
      Permutation (names (sres_tests sr)) (map test_name (suite_tests suite)).
Proof.
  intros W sut self argv0 getpid parallel_batch fuel suite timers s s'
         Hfp Hfw Hseq Hnd Hts Hss Hrun.
  pose proof (@_run_suite_spec _ sut self argv0 getpid parallel_batch suite
                Hfp Hfw Hseq Hnd fuel timers s s' (Ok tt) Hts Hss Hrun) as H.
  destruct ((fire (suite_started suite) ;; get_info sut) timers s)
    as [[info|e|k] s0].
  - destruct H as (rs & t & lg & Hres & _ & Hn & Hi & Hall & _).
    exists (suite_results_of suite info rs). split; [exact Hres|].
    split; [reflexivity|]. simpl. apply NoDup_Permutation; [exact Hn|exact Hnd|].
    intros x. split; [apply Hi|]. intros Hx. apply in_map_iff in Hx.
    destruct Hx as (t0 & <- & Ht0). apply found_In. now apply Hall.
  - destruct H as (H & _). discriminate.
  - destruct H as (H & _). discriminate.
Qed.

(** X20.  For such a suite, whatever way [_run_suite] ends once the
    information on the SUT has been read (a return, an error that escapes
    the loop such as a failed reboot, a cancellation), it fires
    suite_completed with, and appends to the results of the scheduler,
    one suite result; its tests have distinct names and include the
    results of the last run of the test scheduler.  When reading the
    information fails, that failure is the outcome and nothing is
    appended. *)
Theorem _run_suite_always_reports :
  forall W (sut : SUT W) self argv0 getpid parallel_batch fuel suite timers
         (s s' : state W) r,
    _force_parallel (_scheduler self) = false ->
    keeps_test (_framework (_scheduler self)) ->
    sequential (suite_tests suite) ->
    NoDup (map test_name (suite_tests suite)) ->
    ts_stop s = false -> ss_stop s = false ->
    _run_suite sut self argv0 getpid parallel_batch fuel suite timers s
    = Some (r, s') ->
    match (fire (suite_started suite) ;; get_info sut) timers s with
    | (Ok info, _) =>
        exists sr t lg,
          ss_results s' = ss_results s ++ [sr] /\
          log s' = lg ++ [Fire (suite_completed sr t)] /\
          sres_suite sr = suite /\
          sres_distro sr = info_distro info /\
          sres_kernel sr = info_kernel info /\
          NoDup (names (sres_tests sr)) /\
          (suite_tests suite <> [] -> incl (ts_results s') (sres_tests sr))
    | (ro, s0) => r = pass ro /\ s' = s0 /\ ss_results s' = ss_results s
    end.
Proof.
  intros W sut self argv0 getpid parallel_batch fuel suite timers s s' r
         Hfp Hfw Hseq Hnd Hts Hss Hrun.
  pose proof (@_run_suite_spec _ sut self argv0 getpid parallel_batch suite
                Hfp Hfw Hseq Hnd fuel timers s s' r Hts Hss Hrun) as H.
  destruct ((fire (suite_started suite) ;; get_info sut) timers s)
    as [[info|e|k] s0].
  - destruct H as (rs & t & lg & Hres & Hlog & Hn & _ & _ & Hcol & _).
    exists (suite_results_of suite info rs), t, lg.
    repeat split; assumption.
  - destruct H as (H1 & H2 & H3). repeat split; try assumption. apply H3.
  - destruct H as (H1 & H2 & H3). repeat split; try assumption. apply H3.
Qed.

(** X21.  When the first run of the test scheduler is cut by the timeout
    of the suite, [_run_suite] fires suite_timeout, keeps the results the
    scheduler had recorded, gives every test of the suite that has none a
    result with return code 32 and one skipped (all other counts 0), and
    leaves its loop without running the scheduler again; if no test had a
    result, every test of the suite is skipped. *)
Theorem _run_suite_timeout :
  forall W (sut : SUT W) self argv0 getpid parallel_batch fuel suite timers
         (s s0 s1 : state W) info e,
    (fire (suite_started suite) ;; get_info sut) timers s = (Ok info, s0) ->
    ss_stop s0 = false -> suite_tests suite <> [] ->
    wait_for (TestScheduler_schedule sut (_scheduler self) argv0 getpid
                                     parallel_batch (suite_tests suite))
             (_suite_timeout self) timers s0 = (Raise e, s1) ->
    isinstance e TimeoutError = true ->
    let rs := ts_results s1
              ++ map skipped_result (outstanding suite (ts_results s1)) in
    exists s',
      _run_suite sut self argv0 getpid parallel_batch (Datatypes.S fuel)
                 suite timers s = Some (Ok tt, s') /\
      ss_results s' = ss_results s1 ++ [suite_results_of suite info rs] /\
      log s' = log s1
                 ++ [Fire (suite_timeout suite (_suite_timeout self));
                     Fire (suite_completed (suite_results_of suite info rs)
                                           (_suite_timeout self))] /\
      world s' = world s1 /\
      (ts_results s1 = [] -> rs = map skipped_result (suite_tests suite)).
Proof.
  intros W sut self argv0 getpid parallel_batch fuel suite timers s s0 s1
         info e Hp Hss Hne Hw He rs.
  assert (Hnb : match suite_tests suite with [] => false | _ => true end
                = true) by (destruct (suite_tests suite); congruence).
  unfold _run_suite. rewrite Hp. cbn [suite_loop tests_left].
  rewrite Hss, Hnb. cbn [negb andb]. unfold suite_attempt.
  cbn [tests_left]. rewrite Hw, He.
  unfold suite_finally, bind, fire, modify.
  cbn [timed_out tests_results exec_times app].
  fold (outstanding suite (ts_results s1)). fold rs.
  eexists. split; [reflexivity|]. cbn [ss_results set_ss_results set_log log
                                        world].
  split; [reflexivity|]. split; [rewrite <- app_assoc; reflexivity|].
  split; [reflexivity|].
  intros Hnone. subst rs. rewrite Hnone. cbn [app].
  now rewrite outstanding_none.
Qed.

(** The scheduler of suites of LTP with the default timeouts. *)
Definition ltp_suites : SuiteScheduler := mk_SuiteScheduler ltp_scheduler 3600.

Definition two_tests : Suite := mk_Suite "syscalls" [some_test; other_test].

(** The answers of a SUT to the six probes of [get_info]. *)
Definition probes_ok : list reply :=
  [ReplyCommand [] (Ok (mk_cmd_data "" ("opensuse" ++ newline) 0 0));
   ReplyCommand [] (Ok (mk_cmd_data "" ("15.5" ++ newline) 0 0));
   ReplyCommand [] (Ok (mk_cmd_data "" "Linux 6.4" 0 0));
   ReplyCommand [] (Ok (mk_cmd_data "" "x86_64" 0 0));
   ReplyCommand [] (Ok (mk_cmd_data "" "x86_64" 0 0));
   ReplyCommand [] (Ok (mk_cmd_data "" "MemTotal: 16 kB" 0 0))].

(** The answers to a test that passes. *)
Definition run_pass : list reply :=
  [id_user; taint_clean;
   ReplyCommand ["TPASS"] (Ok (mk_cmd_data "" "TPASS" 0 1));
   taint_clean].

(** The first test panics, the SUT reboots, the second test passes. *)
Definition panic_then_resume : list reply :=
  probes_ok ++ user_panics
    ++ [ReplySession [] (Ok tt); ReplySession ["booting"] (Ok tt)]
    ++ run_pass.

Lemma keeps_test_ltp : keeps_test LTPFramework.
Proof. intros t out rc et. reflexivity. Qed.

Lemma two_tests_sequential : sequential (suite_tests two_tests).
Proof.
  apply Forall_cons; [reflexivity|].
  apply Forall_cons; [reflexivity|apply Forall_nil].
Qed.

Lemma two_tests_distinct : NoDup (map test_name (suite_tests two_tests)).
Proof.
  apply NoDup_cons; [intros [H|[]]; discriminate|].
  apply NoDup_cons; [intros []|apply NoDup_nil].
Qed.

(** The state a run of [_run_suite] ends in. *)
Definition final_state {W} (x : option (outcome unit * state W))
    (default : state W) : state W :=
  match x with Some (_, s) => s | None => default end.

Lemma _run_suite_one_result_per_test_witness :
  exists s' sr,
    _run_suite scripted_sut ltp_suites "kirk" "4242" no_batch 5 two_tests []
               (init_state panic_then_resume) = Some (Ok tt, s') /\
    ss_results s' = [] ++ [sr] /\ sres_suite sr = two_tests /\
    Permutation (names (sres_tests sr)) ["abort01"; "accept01"].
Proof.
  pose (s' := final_state
                (_run_suite scripted_sut ltp_suites "kirk" "4242" no_batch 5
                            two_tests [] (init_state panic_then_resume))
                (init_state [])).
  assert (Hrun : _run_suite scripted_sut ltp_suites "kirk" "4242" no_batch 5
                   two_tests [] (init_state panic_then_resume)
                 = Some (Ok tt, s')) by (vm_compute; reflexivity).
  destruct (@_run_suite_one_result_per_test _ scripted_sut ltp_suites
              "kirk" "4242" no_batch 5 two_tests []
              (init_state panic_then_resume) s'
              eq_refl keeps_test_ltp two_tests_sequential two_tests_distinct
              eq_refl eq_refl Hrun) as (sr & H1 & H2 & H3).
  exists s', sr. split; [exact Hrun|]. split; [exact H1|].
  split; [exact H2|exact H3].
Defined.

(** The first test panics and the SUT never comes back. *)
Definition never_back : list reply :=
  probes_ok ++ user_panics
    ++ [ReplySession [] (Ok tt)]
    ++ List.concat (repeat [ReplySession [] (Raise (mk_exn SUTError ["no boot"]));
                       ReplySession [] (Ok tt)] 9)
    ++ [ReplySession [] (Raise (mk_exn SUTError ["no boot"]))].

Lemma _run_suite_always_reports_witness :
  exists s' sr,
    _run_suite scripted_sut ltp_suites "kirk" "4242" no_batch 5 two_tests []
               (init_state never_back)
    = Some (Raise (mk_exn SUTError ["no boot"]), s') /\
    ss_results s' = [] ++ [sr] /\ sres_suite sr = two_tests /\
    incl (ts_results s') (sres_tests sr).
Proof.
  pose (s' := final_state
                (_run_suite scripted_sut ltp_suites "kirk" "4242" no_batch 5
                            two_tests [] (init_state never_back))
                (init_state [])).
  assert (Hrun : _run_suite scripted_sut ltp_suites "kirk" "4242" no_batch 5
                   two_tests [] (init_state never_back)
                 = Some (Raise (mk_exn SUTError ["no boot"]), s'))
    by (vm_compute; reflexivity).
  assert (Hp : exists info s0,
             (fire (suite_started two_tests) ;; get_info scripted_sut) []
               (init_state never_back) = (Ok info, s0))
    by (eexists; eexists; vm_compute; reflexivity).
  destruct Hp as (info & s0 & Hp).
  pose proof (@_run_suite_always_reports _ scripted_sut ltp_suites
                "kirk" "4242" no_batch 5 two_tests []
                (init_state never_back) s' _
                eq_refl keeps_test_ltp two_tests_sequential two_tests_distinct
                eq_refl eq_refl Hrun) as H.
  rewrite Hp in H.
  destruct H as (sr & t & lg & H1 & _ & H2 & _ & _ & _ & H3).
  exists s', sr. split; [exact Hrun|]. split; [exact H1|].
  split; [exact H2|]. apply H3. discriminate.
Defined.

(** The timeout of the suite fires during the first test. *)
Definition suite_too_slow : list reply :=
  probes_ok ++ [id_user; taint_clean; ReplyCommand ["star"] (Cancelled 1)].

Lemma _run_suite_timeout_witness :
  exists s',
    _run_suite scripted_sut ltp_suites "kirk" "4242" no_batch 1 two_tests []
               (init_state suite_too_slow) = Some (Ok tt, s') /\
    map sres_tests (ss_results s')
    = [map skipped_result [some_test; other_test]].
Proof.
  pose (s0 := snd ((fire (suite_started two_tests) ;; get_info scripted_sut)
                     [] (init_state suite_too_slow))).
  pose (s1 := snd (wait_for
                     (TestScheduler_schedule scripted_sut
                        (_scheduler ltp_suites) "kirk" "4242" no_batch
                        (suite_tests two_tests))
                     (_suite_timeout ltp_suites) [] s0)).
  assert (Hp : (fire (suite_started two_tests) ;; get_info scripted_sut) []
                 (init_state suite_too_slow)
               = (Ok (mk_info "opensuse" "15.5" "Linux 6.4" "x86_64" "x86_64"
                              "16 kB" "unkown"), s0))
    by (vm_compute; reflexivity).
  assert (Hw : wait_for
                 (TestScheduler_schedule scripted_sut (_scheduler ltp_suites)
                    "kirk" "4242" no_batch (suite_tests two_tests))
                 (_suite_timeout ltp_suites) [] s0
               = (Raise (mk_exn TimeoutError []), s1))
    by (vm_compute; reflexivity).
  assert (Hnone : ts_results s1 = []) by (vm_compute; reflexivity).
  destruct (@_run_suite_timeout _ scripted_sut ltp_suites "kirk" "4242"
              no_batch 0 two_tests [] (init_state suite_too_slow) s0 s1 _ _
              Hp eq_refl ltac:(discriminate) Hw eq_refl)
    as (s' & Hrun & Hres & _ & _ & Hall).
  exists s'. split; [exact Hrun|].
  rewrite Hres, (Hall Hnone). vm_compute. reflexivity.
Defined.

(** ** [SuiteScheduler.schedule] and the reboot *)

(** A suite the theorems below speak of: tests with distinct names, none
    of them parallelizable. *)
Definition plain_suite (suite : Suite) : Prop :=
  sequential (suite_tests suite) /\
  NoDup (map test_name (suite_tests suite)).

(** A suite result that holds one result for each test name of the suite. *)
Definition complete_for (suite : Suite) (sr : SuiteResults) : Prop :=
  sres_suite sr = suite /\
  Permutation (names (sres_tests sr)) (map test_name (suite_tests suite)).

Section SuiteSchedule.
Context {W : Type} (sut : SUT W) (self : SuiteScheduler).
Variable argv0 : string.
Variable getpid : string.
Variable parallel_batch : list Test -> M (state W) unit.
Hypothesis Hfp : _force_parallel (_scheduler self) = false.
Hypothesis Hfw : keeps_test (_framework (_scheduler self)).

Lemma run_suites_spec fuel : forall jobs timers (s s' : state W),
  Forall plain_suite jobs ->
  ts_stop s = false -> ss_stop s = false ->
  run_suites sut self argv0 getpid parallel_batch fuel jobs timers s
  = Some (Ok tt, s') ->
  exists srs,
    ss_results s' = ss_results s ++ srs /\
    Forall2 complete_for jobs srs.
Proof.
  induction jobs as [|suite rest IH]; intros timers s s' Hall Hts Hss Hrun.
  - inversion Hrun; subst. exists []. rewrite app_nil_r.
    split; [reflexivity|constructor].
  - cbn [run_suites] in Hrun.
    destruct (_run_suite sut self argv0 getpid parallel_batch fuel suite
                         timers s) as [[[[]|e|k] s1]|] eqn:E;
      try discriminate.
    inversion Hall as [|x xs [Hseq Hnd] Hrest]; subst.
    destruct (@_run_suite_one_result_per_test _ sut self argv0 getpid
                parallel_batch fuel suite timers s s1
                Hfp Hfw Hseq Hnd Hts Hss E) as (sr & Hres & Hsuite & Hperm).
    pose proof (@_run_suite_spec _ sut self argv0 getpid parallel_batch suite
                  Hfp Hfw Hseq Hnd fuel timers s s1 (Ok tt) Hts Hss E) as Hsp.
    destruct ((fire (suite_started suite) ;; get_info sut) timers s)
      as [[info|e|k] s0].
    + destruct Hsp as (rs & t & lg & _ & _ & _ & _ & _ & _ & Hts1 & Hss1).
      destruct (IH timers s1 s' Hrest Hts1 Hss1 Hrun) as (srs & Hsrs & Hc).
      exists (sr :: srs). rewrite Hsrs, Hres, <- app_assoc.
      split; [reflexivity|]. constructor; [split; assumption|exact Hc].
    + destruct Hsp as (H & _). discriminate.
    + destruct Hsp as (H & _). discriminate.
Qed.

End SuiteSchedule.

(** X22.  [SuiteScheduler.schedule] on suites with distinct,
    non-parallelizable tests, without a requested stop: the suite results
    of the previous call are dropped, and when the call returns there is
    one suite result for each suite, in the order of the jobs, each with
    exactly one result for each test name of its suite. *)
Theorem SuiteScheduler_schedule_reports :
  forall W (sut : SUT W) self argv0 getpid parallel_batch fuel jobs timers
         (s s' : state W),
    _force_parallel (_scheduler self) = false ->
    keeps_test (_framework (_scheduler self)) ->
    Forall plain_suite jobs ->
    ts_stop s = false -> ss_stop s = false ->
    SuiteScheduler_schedule sut self argv0 getpid parallel_batch fuel jobs
                            timers s = Some (Ok tt, s') ->
    Forall2 complete_for jobs (ss_results s').
Proof.
  intros W sut self argv0 getpid parallel_batch fuel jobs timers s s'
         Hfp Hfw Hall Hts Hss Hrun.
  unfold SuiteScheduler_schedule in Hrun.
  destruct jobs as [|suite rest]; [discriminate|].
  destruct (@run_suites_spec _ sut self argv0 getpid parallel_batch Hfp Hfw
              fuel (suite :: rest) timers (set_ss_results [] s) s'
              Hall Hts Hss Hrun) as (srs & Hres & Hc).
  simpl in Hres. rewrite Hres. exact Hc.
Qed.

(** One suite of one test, and the answers of a SUT that runs the suite
    [two_tests] and then this one, every test passing. *)
Definition one_test : Suite := mk_Suite "smoke" [other_test].

Definition two_suites_pass : list reply :=
  probes_ok ++ run_pass ++ run_pass ++ probes_ok ++ run_pass.

Lemma SuiteScheduler_schedule_reports_witness :
  exists s',
    SuiteScheduler_schedule scripted_sut ltp_suites "kirk" "4242" no_batch 5
                            [two_tests; one_test] []
                            (init_state two_suites_pass) = Some (Ok tt, s') /\
    Forall2 complete_for [two_tests; one_test] (ss_results s').
Proof.
  pose (s' := final_state
                (SuiteScheduler_schedule scripted_sut ltp_suites "kirk" "4242"
                   no_batch 5 [two_tests; one_test] []
                   (init_state two_suites_pass))
                (init_state [])).
  assert (Hrun : SuiteScheduler_schedule scripted_sut ltp_suites "kirk" "4242"
                   no_batch 5 [two_tests; one_test] []
                   (init_state two_suites_pass) = Some (Ok tt, s'))
    by (vm_compute; reflexivity).
  assert (Hall : Forall plain_suite [two_tests; one_test]).
  { apply Forall_cons;
      [split; [exact two_tests_sequential|exact two_tests_distinct]|].
    apply Forall_cons; [|apply Forall_nil]. split.
    - apply Forall_cons; [reflexivity|apply Forall_nil].
    - apply NoDup_cons; [intros []|apply NoDup_nil]. }
  exists s'. split; [exact Hrun|].
  exact (@SuiteScheduler_schedule_reports _ scripted_sut ltp_suites "kirk"
           "4242" no_batch 5 [two_tests; one_test] []
           (init_state two_suites_pass) s'
           eq_refl keeps_test_ltp Hall eq_refl eq_refl Hrun).
Defined.

Section Restart.
Context {W : Type} (sut : SUT W).

(** X23.  The reboot of [_restart_sut], with a test scheduler that has no
    task left: sut_restart is fired, then the session is stopped; when
    [stop] does not return its outcome ends the reboot and no
    [communicate] is attempted; otherwise [communicate] is attempted at
    most 10 times, as [ensure_communicate] does. *)
Theorem _restart_sut_calls :
  forall timers (s s' : state W) r,
    ts_tasks s = [] ->
    _restart_sut sut timers s = (r, s') ->
    exists tr o rest,
      log s' = log s ++ Fire (sut_restart (sut_name sut)) :: tr /\
      calls tr = SutStop timers o :: rest /\
      (is_ok o = false -> rest = [] /\ r = o) /\
      (is_ok o = true ->
       exists es tail,
         rest = flat_map (failed_round timers) es ++ tail /\
         (List.length es < 10)%nat /\
         ensure_communicate_end timers 10 (List.length es) tail r).
Proof.
  intros timers s s' r Ht Hrun. unfold _restart_sut in Hrun.
  unfold bind at 1, fire at 1, modify at 1 in Hrun.
  unfold bind at 1 in Hrun.
  rewrite TestScheduler_stop_idle in Hrun by exact Ht.
  unfold bind at 1, stop in Hrun.
  destruct (sut_stop sut timers
              (world (set_log (log s ++ [Fire (sut_restart (sut_name sut))]) s)))
    as [[chunks o] w1] eqn:E.
  destruct (primitive_spec (sut_stop sut) SutStop
              (Some (RedirectSUTStdout (sut_name sut))) timers _ E)
    as (fires & s1 & P & _ & L1 & C1 & _).
  rewrite P in Hrun. simpl in L1.
  destruct o as [[]|e|k].
  - destruct (ensure_communicate_spec _ _ _ _ _ Hrun)
      as (es & tail & tr & L & C & _ & Len & End & _).
    change (Z.to_nat (Z.max 10 1)) with 10%nat in Len, End.
    exists (fires ++ [SutStop timers (Ok tt)] ++ tr), (Ok tt),
           (flat_map (failed_round timers) es ++ tail).
    split; [rewrite L, L1; repeat rewrite <- app_assoc; reflexivity|].
    split; [repeat rewrite calls_app; rewrite C1, C; reflexivity|].
    split; [discriminate|]. intros _. exists es, tail.
    repeat split; assumption.
  - inversion Hrun; subst.
    exists (fires ++ [SutStop timers (Raise e)]), (Raise e), [].
    split; [rewrite L1; repeat rewrite <- app_assoc; reflexivity|].
    split; [rewrite calls_app, C1; reflexivity|].
    split; [intros _; split; reflexivity|discriminate].
  - inversion Hrun; subst.
    exists (fires ++ [SutStop timers (Cancelled k)]), (Cancelled k), [].
    split; [rewrite L1; repeat rewrite <- app_assoc; reflexivity|].
    split; [rewrite calls_app, C1; reflexivity|].
    split; [intros _; split; reflexivity|discriminate].
Qed.

End Restart.

Lemma _restart_sut_calls_witness :
  exists s' tr,
    _restart_sut scripted_sut []
                 (init_state [ReplySession [] (Ok tt);
                              ReplySession ["booting"] (Ok tt)])
    = (Ok tt, s') /\
    log s' = [] ++ Fire (sut_restart "scripted") :: tr /\
    calls tr = [SutStop [] (Ok tt); SutCommunicate [] (Ok tt)].
Proof.
  pose (s0 := init_state [ReplySession [] (Ok tt);
                          ReplySession ["booting"] (Ok tt)]).
  pose (s' := snd (_restart_sut scripted_sut [] s0)).
  assert (Hrun : _restart_sut scripted_sut [] s0 = (Ok tt, s'))
    by (vm_compute; reflexivity).
  destruct (@_restart_sut_calls _ scripted_sut [] s0 s' (Ok tt) eq_refl Hrun)
    as (tr & o & rest & Hlog & Hcalls & _ & _).
  exists s', tr. split; [exact Hrun|]. split; [exact Hlog|].
  assert (Hc : calls tr = [SutStop [] (Ok tt); SutCommunicate [] (Ok tt)]).
  { assert (Hl : log s' = Fire (sut_restart "scripted")
                   :: [SutStop [] (Ok tt);
                       Fire (sut_stdout "scripted" "booting");
                       SutCommunicate [] (Ok tt)])
      by (vm_compute; reflexivity).
    rewrite Hl in Hlog. simpl in Hlog. inversion Hlog; subst. reflexivity. }
  exact Hc.
Defined.

(** ** [_run_suite] with any concurrent batch *)

Section SuiteGeneral.
Context {W : Type} (sut : SUT W) (self : SuiteScheduler).
Variable argv0 : string.
Variable getpid : string.
Variable parallel_batch : list Test -> M (state W) unit.
Variable suite : Suite.

(** When the loop ends normally and no stop is requested at that point,
    every test of the suite has a result. *)
Lemma suite_loop_complete : forall fuel l timers (s s' : state W) l',
  tests_left l = outstanding suite (tests_results l) ->
  suite_loop sut self argv0 getpid parallel_batch fuel suite l timers s
  = Some (Ok tt, l', s') ->
  ss_stop s' = false ->
  forall t, In t (suite_tests suite) -> found t (tests_results l') = true.
Proof.
  assert (Hexit : forall l (s s' : state W) l',
    tests_left l = outstanding suite (tests_results l) ->
    negb (ss_stop s)
    && match tests_left l with [] => false | _ => true end = false ->
    Some (Ok tt, l, s) = Some (Ok tt, l', s') ->
    ss_stop s' = false ->
    forall t, In t (suite_tests suite) -> found t (tests_results l') = true).
  { intros l s s' l' Hl Ec H Hss. inversion H; subst.
    rewrite Hss in Ec. simpl in Ec.
    apply outstanding_empty. destruct (tests_left l'); congruence. }
  induction fuel as [|fuel IH]; intros l timers s s' l' Hl Hrun Hss;
    cbn [suite_loop] in Hrun.
  - destruct (negb (ss_stop s)
              && match tests_left l with [] => false | _ => true end) eqn:Ec;
      [discriminate|]. eapply Hexit; eassumption.
  - destruct (negb (ss_stop s)
              && match tests_left l with [] => false | _ => true end) eqn:Ec;
      [|eapply Hexit; eassumption].
    destruct (suite_attempt sut self argv0 getpid parallel_batch suite l
                            timers s) as [[r1 l1] s1] eqn:Ea.
    destruct r1 as [[]|e|k]; try discriminate.
    destruct (timed_out l1).
    + inversion Hrun; subst. simpl. intros t Ht. apply found_In.
      rewrite names_app, names_skipped. apply in_or_app.
      destruct (found t (tests_results l1)) eqn:Ef.
      * left. now apply found_In.
      * right. apply in_map. apply filter_In. split; [exact Ht|].
        now rewrite Ef.
    + eapply IH; [|exact Hrun|exact Hss]. reflexivity.
Qed.

End SuiteGeneral.

(** X24.  For any suite, parallelizable tests included, and whatever the
    concurrent batch does: when [_run_suite] returns and no stop is
    requested at that point, the suite results it appended last hold a
    result for every test of the suite; none is missing. *)
Theorem _run_suite_none_missing :
  forall W (sut : SUT W) self argv0 getpid parallel_batch fuel suite timers
         (s s' : state W),
    _run_suite sut self argv0 getpid parallel_batch fuel suite timers s
    = Some (Ok tt, s') ->
    ss_stop s' = false ->
    exists previous sr,
      ss_results s' = previous ++ [sr] /\ sres_suite sr = suite /\
      forall t, In t (suite_tests suite) -> found t (sres_tests sr) = true.
Proof.
  intros W sut self argv0 getpid parallel_batch fuel suite timers s s'
         Hrun Hss.
  unfold _run_suite in Hrun.
  destruct ((fire (suite_started suite) ;; get_info sut) timers s)
    as [[info|e|k] s0]; try discriminate.
  destruct (suite_loop sut self argv0 getpid parallel_batch fuel suite
              {| timed_out := false; exec_times := [];
                 tests_results := []; tests_left := suite_tests suite |}
              timers s0) as [[[r1 l1] s1]|] eqn:El; [|discriminate].
  unfold suite_finally, bind, fire, modify in Hrun. simpl in Hrun.
  inversion Hrun; subst r1 s'. clear Hrun. simpl in Hss.
  eexists. eexists. split; [reflexivity|]. split; [reflexivity|].
  simpl. eapply suite_loop_complete; [|exact El|exact Hss].
  simpl. symmetry. apply outstanding_none.
Qed.

(** A suite with a parallelizable test, and a batch that records a passing
    result for each of the tests it is given. *)
Definition par_test : Test := mk_Test "fork01" "fork01" None [] true.

Definition mixed_tests : Suite := mk_Suite "mixed" [par_test; other_test].

Definition recording_batch : list Test -> M (state (list reply)) unit :=
  fun tests =>
    modify (fun s =>
              set_ts_results
                (ts_results s
                   ++ map (fun t => ltp_read_result t "TPASS" 0 0) tests) s).

Lemma _run_suite_none_missing_witness :
  exists s' previous sr,
    _run_suite scripted_sut ltp_suites "kirk" "4242" recording_batch 5
               mixed_tests [] (init_state (probes_ok ++ run_pass))
    = Some (Ok tt, s') /\
    ss_results s' = previous ++ [sr] /\ sres_suite sr = mixed_tests /\
    forall t, In t (suite_tests mixed_tests) -> found t (sres_tests sr) = true.
Proof.
  pose (s' := final_state
                (_run_suite scripted_sut ltp_suites "kirk" "4242"
                            recording_batch 5 mixed_tests []
                            (init_state (probes_ok ++ run_pass)))
                (init_state [])).
  assert (Hrun : _run_suite scripted_sut ltp_suites "kirk" "4242"
                   recording_batch 5 mixed_tests []
                   (init_state (probes_ok ++ run_pass))
                 = Some (Ok tt, s')) by (vm_compute; reflexivity).
  assert (Hss : ss_stop s' = false) by (vm_compute; reflexivity).
  destruct (@_run_suite_none_missing _ scripted_sut ltp_suites "kirk" "4242"
              recording_batch 5 mixed_tests []
              (init_state (probes_ok ++ run_pass)) s' Hrun Hss)
    as (previous & sr & H1 & H2 & H3).
  exists s', previous, sr. split; [exact Hrun|]. split; [exact H1|].
  split; [exact H2|exact H3].
Defined.

(** ** A reboot loop that never ends *)

Lemma kernel_error_classes e :
  is_kernel_error e = true ->
  isinstance e KirkException = true /\ isinstance e TimeoutError = false.
Proof.
  unfold is_kernel_error, isinstance. destruct (exn_cls e); simpl;
    intros H; try discriminate; split; reflexivity.
Qed.

Section RebootLoop.
Context {W : Type} (sut : SUT W) (self : SuiteScheduler).
Variable argv0 : string.
Variable getpid : string.
Variable parallel_batch : list Test -> M (state W) unit.
Variable suite : Suite.

Hypothesis Hfp : _force_parallel (_scheduler self) = false.
Hypothesis Hseq : sequential (suite_tests suite).
Hypothesis Hne : suite_tests suite <> [].

(** Every [id -u] runs into a kernel error; the session always stops and
    always comes back. *)
Hypothesis Hid : forall timers w, exists chunks e w',
  sut_run_command sut "id -u" None [] timers w = (chunks, Raise e, w') /\
  is_kernel_error e = true.
Hypothesis Hstop : forall timers w, exists chunks w',
  sut_stop sut timers w = (chunks, Ok tt, w').
Hypothesis Hcomm : forall timers w, exists chunks w',
  sut_communicate sut timers w = (chunks, Ok tt, w').

Lemma _run_test_kmsg_fails test timers (s : state W) :
  ts_stop s = false ->
  exists e s1,
    _run_test sut (_scheduler self) argv0 getpid test timers s
    = (Raise e, s1) /\
    is_kernel_error e = true /\ same_sched s s1.
Proof.
  intros Hts. rewrite _run_test_phases by exact Hts.
  destruct (Hid timers
              (world (set_log (log s ++ [Fire (test_started test)]) s)))
    as (chunks & e & w' & E & He).
  destruct (primitive_spec (sut_run_command sut "id -u" None [])
              (SutRunCommand "id -u") None timers _ E)
    as (fires & s1 & P & _ & _ & _ & S1).
  assert (Ha : attempt_phase sut (_scheduler self) argv0 getpid test timers s
               = (Raise e, s1)).
  { unfold attempt_phase. unfold bind at 1, fire at 1, modify at 1.
    unfold bind at 1, _write_kmsg, bind at 1, run_command.
    rewrite P. reflexivity. }
  rewrite Ha. exists e, s1. split; [reflexivity|]. split; [exact He|].
  eapply keeps_attempt_phase. exact Ha.
Qed.

Lemma schedule_kmsg_fails timers (s : state W) :
  ts_stop s = false ->
  exists e s1,
    TestScheduler_schedule sut (_scheduler self) argv0 getpid parallel_batch
                           (suite_tests suite) timers s = (Raise e, s1) /\
    is_kernel_error e = true /\
    ts_results s1 = [] /\ ts_tasks s1 = [] /\ same_flags s s1.
Proof.
  intros Hts. destruct (filter_sequential Hseq) as [Fp Fs].
  unfold TestScheduler_schedule.
  destruct (suite_tests suite) as [|t0 rest] eqn:Et; [congruence|].
  rewrite Hfp, Fp, Fs.
  unfold bind at 1, modify at 1. unfold bind at 1, modify at 1.
  unfold try_finally, try_except_cancelled.
  unfold bind at 1, _run_parallel, ret at 1.
  cbn [_run_and_wait]. unfold bind at 1, modify at 1. unfold bind at 1.
  destruct (@_run_test_kmsg_fails t0 timers
              (set_ts_tasks (ts_tasks (set_ts_results [] (set_ts_tasks [] s))
                               ++ [t0])
                            (set_ts_results [] (set_ts_tasks [] s))) Hts)
    as (e & s1 & Hrun & He & Hk).
  rewrite Hrun. destruct (kernel_error_classes _ He) as [Hkirk _].
  rewrite Hkirk. unfold bind, get, raise, modify.
  destruct Hk as (K1 & K2 & K3 & K4 & K5 & K6 & K7). simpl in *.
  rewrite K2, Hts. simpl.
  exists e. eexists. split; [reflexivity|]. simpl.
  repeat split; assumption.
Qed.

(** One turn of the loop: the scheduler fails before any result, the SUT
    reboots, and the loop is where it was. *)
Lemma suite_attempt_reboots timers (s : state W) :
  ts_stop s = false ->
  exists s2,
    suite_attempt sut self argv0 getpid parallel_batch suite
                  (mk_locals false [] [] (suite_tests suite)) timers s
    = (Ok tt, mk_locals false [] [] (suite_tests suite), s2) /\
    same_flags s s2.
Proof.
  intros Hts. unfold suite_attempt. cbn [tests_left].
  destruct (@schedule_kmsg_fails (_suite_timeout self :: timers) s Hts)
    as (e & s1 & Hrun & He & Hres & Htasks & Hf).
  unfold wait_for. rewrite Hrun.
  destruct (kernel_error_classes _ He) as [_ Hto]. rewrite Hto, He.
  (* the reboot *)
  assert (Hrb : exists s2, _restart_sut sut timers s1 = (Ok tt, s2) /\
                           same_sched s1 s2).
  { destruct (Hstop timers
                (world (set_log (log s1 ++ [Fire (sut_restart (sut_name sut))])
                                s1)))
      as (c1 & w1 & E1).
    destruct (primitive_spec (sut_stop sut) SutStop
                (Some (RedirectSUTStdout (sut_name sut))) timers _ E1)
      as (f1 & sa & P1 & _).
    destruct (Hcomm timers (world sa)) as (c2 & w2 & E2).
    destruct (primitive_spec (sut_communicate sut) SutCommunicate
                (Some (RedirectSUTStdout (sut_name sut))) timers sa E2)
      as (f2 & sb & P2 & _).
    assert (Hr : _restart_sut sut timers s1 = (Ok tt, sb)).
    { unfold _restart_sut. unfold bind at 1, fire at 1, modify at 1.
      unfold bind at 1. rewrite TestScheduler_stop_idle by exact Htasks.
      unfold bind at 1, stop. rewrite P1.
      unfold ensure_communicate.
      change (Z.to_nat (Z.max 10 1)) with 10%nat.
      cbn [ensure_communicate_loop].
      unfold bind at 1, try_except, bind at 1, communicate. rewrite P2.
      reflexivity. }
    exists sb. split; [exact Hr|].
    eapply _restart_sut_keeps; [exact Htasks|exact Hr]. }
  destruct Hrb as (s2 & Hr & Hk). rewrite Hr.
  exists s2. cbn [timed_out exec_times tests_results tests_left app].
  destruct Hk as (K1 & Hk). rewrite K1, Hres. split; [reflexivity|].
  eapply same_flags_trans; [exact Hf|].
  unfold same_flags. destruct Hk as (K2 & K3 & K4 & K5 & K6 & K7).
  repeat split; assumption.
Qed.

Lemma suite_loop_reboots_forever : forall fuel timers (s : state W),
  ts_stop s = false -> ss_stop s = false ->
  suite_loop sut self argv0 getpid parallel_batch fuel suite
             (mk_locals false [] [] (suite_tests suite)) timers s = None.
Proof.
  induction fuel as [|fuel IH]; intros timers s Hts Hss;
    cbn [suite_loop tests_left]; rewrite Hss; simpl negb.
  - destruct (suite_tests suite); [congruence|reflexivity].
  - destruct (@suite_attempt_reboots timers s Hts) as (s2 & Ha & Hf).
    destruct Hf as (F1 & _ & _ & F4 & _).
    assert (Hnb : match suite_tests suite with [] => false | _ => true end
                  = true) by (destruct (suite_tests suite); congruence).
    rewrite Hnb. cbn [andb]. rewrite Ha.
    cbn [timed_out exec_times tests_results].
    fold (outstanding suite []). rewrite outstanding_none.
    apply IH; congruence.
Qed.

End RebootLoop.

(** X25.  The loop of [_run_suite] has no bound on reboots.  On a SUT
    where the identity check that precedes every test runs into a kernel
    error, while the session always stops and comes back, a suite of
    non-parallelizable tests never completes: each turn reboots the SUT
    without any result recorded, so no number of turns is enough and no
    suite result is ever built. *)
Theorem _run_suite_reboots_forever :
  forall W (sut : SUT W) self argv0 getpid parallel_batch suite timers
         (s s0 : state W) info,
    _force_parallel (_scheduler self) = false ->
    sequential (suite_tests suite) -> suite_tests suite <> [] ->
    (forall timers w, exists chunks e w',
        sut_run_command sut "id -u" None [] timers w = (chunks, Raise e, w')
        /\ is_kernel_error e = true) ->
    (forall timers w, exists chunks w',
        sut_stop sut timers w = (chunks, Ok tt, w')) ->
    (forall timers w, exists chunks w',
        sut_communicate sut timers w = (chunks, Ok tt, w')) ->
    (fire (suite_started suite) ;; get_info sut) timers s = (Ok info, s0) ->
    ts_stop s = false -> ss_stop s = false ->
    forall fuel,
      _run_suite sut self argv0 getpid parallel_batch fuel suite timers s
      = None.
Proof.
  intros W sut self argv0 getpid parallel_batch suite timers s s0 info
         Hfp Hseq Hne Hid Hstop Hcomm Hp Hts Hss fuel.
  assert (Hk : keeps (fire (suite_started suite) ;; get_info sut
                      : M (state W) sut_info)).
  { apply keeps_bind; [apply keeps_fire|]. intros _. apply keeps_get_info. }
  destruct (Hk _ _ _ _ Hp) as (_ & K2 & _ & _ & _ & K6 & _).
  unfold _run_suite. rewrite Hp.
  rewrite (@suite_loop_reboots_forever _ sut self argv0 getpid parallel_batch
             suite Hfp Hseq Hne Hid Hstop Hcomm fuel timers s0);
    [reflexivity|congruence|congruence].
Qed.

(** A SUT whose kernel panics on every [id -u], and only then. *)
Definition panics_on_id : SUT unit :=
  mk_SUT "fragile"
         (fun _ w => ([], Ok tt, w))
         (fun _ w => ([], Ok tt, w))
         (fun _ w => (Ok 0%Q, w))
         (fun command _ _ _ w =>
            if String.eqb command "id -u"
            then ([], Raise (mk_exn KernelPanicError []), w)
            else ([], Ok (mk_cmd_data command "" 0 0), w))
         (fun _ => 0%Q).

Lemma _run_suite_reboots_forever_witness :
  _run_suite panics_on_id ltp_suites "kirk" "4242" no_batch 1000 two_tests
             [] (init_state tt) = None.
Proof.
  pose (p := (fire (suite_started two_tests) ;; get_info panics_on_id) []
               (init_state tt)).
  assert (Hp : (fire (suite_started two_tests) ;; get_info panics_on_id) []
                 (init_state tt)
               = (Ok (mk_info "" "" "" "" "" "unknown" "unkown"), snd p))
    by (vm_compute; reflexivity).
  apply (@_run_suite_reboots_forever _ panics_on_id ltp_suites "kirk" "4242"
           no_batch two_tests [] (init_state tt) (snd p)
           (mk_info "" "" "" "" "" "unknown" "unkown")
           eq_refl two_tests_sequential ltac:(discriminate));
    [intros timers w; eexists; eexists; eexists; split; reflexivity
    |intros timers w; eexists; eexists; reflexivity
    |intros timers w; eexists; eexists; reflexivity
    |exact Hp|reflexivity|reflexivity].
Defined.

(** ** The note in the kernel log *)

Lemma write_all_none {W} chunks timers (s : state W) :
  write_all None chunks timers s = (Ok tt, s).
Proof.
  induction chunks as [|c rest IH]; [reflexivity|].
  cbn [write_all]. unfold bind, ret at 1. exact IH.
Qed.

(** X26.  [_write_kmsg] first asks for the user identity.  Unless the
    answer is the line 0 (the user is root) it stops there, and nothing is
    written.  For root it runs one more command, which echoes the name of
    the program, its process identifier, and the name and full command of
    the test into /dev/kmsg; the outcome of that command is the outcome of
    the call. *)
Theorem _write_kmsg_only_as_root :
  forall W (sut : SUT W) argv0 getpid test timers (s : state W) chunks d w',
    sut_run_command sut "id -u" None [] timers (world s)
    = (chunks, Ok d, w') ->
    let echo :=
      ("echo -n " ++ dquote
         ++ (argv0 ++ "[" ++ getpid ++ "]: starting test " ++ test_name test
                   ++ " (" ++ test_full_command test ++ ")" ++ newline)
         ++ dquote ++ " > /dev/kmsg")%string in
    (cd_stdout d <> ("0" ++ newline)%string ->
     exists s1,
       _write_kmsg sut argv0 getpid test timers s = (Ok tt, s1) /\
       world s1 = w' /\
       log s1 = log s ++ [SutRunCommand "id -u" timers (Ok d)]) /\
    (cd_stdout d = ("0" ++ newline)%string ->
     exists s2,
       _write_kmsg sut argv0 getpid test timers s
       = (match snd (fst (sut_run_command sut echo None [] timers w')) with
          | Ok _ => Ok tt
          | Raise e => Raise e
          | Cancelled k => Cancelled k
          end, s2) /\
       world s2 = snd (sut_run_command sut echo None [] timers w') /\
       log s2 = log s
                  ++ [SutRunCommand "id -u" timers (Ok d);
                      SutRunCommand echo timers
                        (snd (fst (sut_run_command sut echo None [] timers
                                                   w')))]).
Proof.
  intros W sut argv0 getpid test timers s chunks d w' E echo.
  assert (P1 : run_command sut "id -u" None [] None timers s
               = (Ok d, set_log (log s ++ [SutRunCommand "id -u" timers (Ok d)])
                                (set_world w' s))).
  { unfold run_command, primitive. rewrite E, write_all_none.
    reflexivity. }
  split.
  - intros Hno. eexists. unfold _write_kmsg. rewrite (bind_ok _ _ _ _ P1).
    apply String.eqb_neq in Hno. rewrite Hno. simpl negb. cbv iota.
    split; [reflexivity|]. split; reflexivity.
  - intros Hroot.
    destruct (sut_run_command sut echo None [] timers w')
      as [[chunks2 r2] w2] eqn:E2.
    assert (P2 : run_command sut echo None [] None timers
                   (set_log (log s ++ [SutRunCommand "id -u" timers (Ok d)])
                            (set_world w' s))
                 = (r2, set_log ((log s ++ [SutRunCommand "id -u" timers (Ok d)])
                                   ++ [SutRunCommand echo timers r2])
                                (set_world w2
                                   (set_log (log s ++ [SutRunCommand "id -u"
                                                         timers (Ok d)])
                                            (set_world w' s))))).
    { unfold run_command, primitive. cbn [world set_log set_world].
      rewrite E2, write_all_none. reflexivity. }
    eexists. unfold _write_kmsg. rewrite (bind_ok _ _ _ _ P1).
    apply String.eqb_eq in Hroot. rewrite Hroot. simpl negb. cbv iota zeta.
    fold echo. unfold bind at 1. change (negb true) with false.
    cbv beta iota. rewrite P2. simpl fst; simpl snd.
    split; [destruct r2; reflexivity|].
    destruct r2; (split; [reflexivity|]); simpl;
      rewrite <- app_assoc; reflexivity.
Qed.

(** A SUT that runs as root. *)
Definition as_root : list reply :=
  [ReplyCommand [] (Ok (mk_cmd_data "id -u" ("0" ++ newline) 0 0));
   ReplyCommand [] (Ok (mk_cmd_data "" "" 0 0))].

Lemma _write_kmsg_only_as_root_witness :
  exists s2,
    _write_kmsg scripted_sut "kirk" "4242" some_test [] (init_state as_root)
    = (Ok tt, s2) /\
    world s2 = [] /\
    calls (log s2)
    = [SutRunCommand "id -u" [] (Ok (mk_cmd_data "id -u" ("0" ++ newline) 0 0));
       SutRunCommand
         ("echo -n " ++ dquote
            ++ ("kirk[4242]: starting test abort01 (abort01)" ++ newline)
            ++ dquote ++ " > /dev/kmsg")
         [] (Ok (mk_cmd_data "" "" 0 0))].
Proof.
  destruct (proj2 (@_write_kmsg_only_as_root _ scripted_sut "kirk" "4242"
                     some_test [] (init_state as_root) []
                     (mk_cmd_data "id -u" ("0" ++ newline) 0 0)
                     (tl as_root) eq_refl) eq_refl)
    as (s2 & Hrun & Hw & Hlog).
  exists s2. split; [exact Hrun|]. split; [exact Hw|].
  rewrite Hlog. vm_compute. reflexivity.
Defined.

(** ** The output gathered by the buffer of a test *)

(** A computation that leaves the text of the live test buffer alone. *)
Definition keeps_buffer {W A} (m : M (state W) A) : Prop :=
  forall timers s r s',
    m timers s = (r, s') -> iobuffer_stdout s' = iobuffer_stdout s.

Section Buffer.
Context {W : Type} (sut : SUT W).

Lemma kb_ret {A} (a : A) : keeps_buffer (ret a : M (state W) A).
Proof. intros t s r s' H. now inversion H. Qed.

Lemma kb_raise {A} e : keeps_buffer (raise e : M (state W) A).
Proof. intros t s r s' H. now inversion H. Qed.

Lemma kb_get : keeps_buffer (get : M (state W) (state W)).
Proof. intros t s r s' H. now inversion H. Qed.

Lemma kb_modify (f : state W -> state W) :
  (forall s, iobuffer_stdout (f s) = iobuffer_stdout s) ->
  keeps_buffer (modify f).
Proof. intros Hf t s r s' H. inversion H; subst. apply Hf. Qed.

Lemma kb_bind {A B} (m : M (state W) A) (f : A -> M (state W) B) :
  keeps_buffer m -> (forall a, keeps_buffer (f a)) -> keeps_buffer (bind m f).
Proof.
  intros Hm Hf t s r s' H. unfold bind in H.
  destruct (m t s) as [[a|e|k] s1] eqn:E; specialize (Hm _ _ _ _ E).
  - rewrite <- Hm. eapply Hf; exact H.
  - inversion H; subst. exact Hm.
  - inversion H; subst. exact Hm.
Qed.

Lemma kb_try_except {A} (m : M (state W) A) h :
  keeps_buffer m -> (forall e k, h e = Some k -> keeps_buffer k) ->
  keeps_buffer (try_except m h).
Proof.
  intros Hm Hh t s r s' H. unfold try_except in H.
  destruct (m t s) as [[a|e|k] s1] eqn:E; specialize (Hm _ _ _ _ E).
  - inversion H; subst. exact Hm.
  - destruct (h e) as [k|] eqn:Eh.
    + rewrite <- Hm. eapply Hh; eassumption.
    + inversion H; subst. exact Hm.
  - inversion H; subst. exact Hm.
Qed.

Lemma kb_try_finally {A} (m : M (state W) A) f :
  keeps_buffer m -> keeps_buffer f -> keeps_buffer (try_finally m f).
Proof.
  intros Hm Hf t s r s' H. unfold try_finally in H.
  destruct (m t s) as [r1 s1] eqn:E. specialize (Hm _ _ _ _ E).
  destruct (f t s1) as [[u|e|k] s2] eqn:E2; specialize (Hf _ _ _ _ E2);
    inversion H; subst; congruence.
Qed.

Lemma kb_wait_for {A} (m : M (state W) A) timeout :
  keeps_buffer m -> keeps_buffer (wait_for m timeout).
Proof.
  intros Hm t s r s' H. unfold wait_for in H.
  destruct (m (timeout :: t) s) as [[a|e|[|k]] s1] eqn:E;
    specialize (Hm _ _ _ _ E); inversion H; subst; exact Hm.
Qed.

Lemma kb_fire e : keeps_buffer (fire e : M (state W) unit).
Proof. apply kb_modify. reflexivity. Qed.

(** A primitive called without a buffer. *)
Lemma kb_primitive {A} (call : list Q -> W -> list string * outcome A * W) ev :
  keeps_buffer (primitive call ev None).
Proof.
  intros t s r s' H. unfold primitive in H.
  destruct (call t (world s)) as [[chunks r0] w'].
  rewrite write_all_none in H. inversion H; subst. reflexivity.
Qed.

Lemma kb_get_tainted_info : keeps_buffer (get_tainted_info sut).
Proof.
  unfold get_tainted_info. apply kb_bind; [apply kb_get|]. intros s0.
  assert (Hread : keeps_buffer
    (modify (set_tainted_lock true) ;;
     try_finally
       (ret_ <- run_command sut "cat /proc/sys/kernel/tainted" None [] None ;;
        if negb (cd_returncode ret_ =? 0)%Z then
          raise (mk_exn SUTError ["Can't read tainted kernel information"])
        else
          let code := strip (cd_stdout ret_) in
          if negb (isdigit code) then raise (mk_exn SUTError [code])
          else
            let code := int code in
            let messages := tainted_messages code in
            s1 <- get ;;
            match tainted_status s1 with
            | Some _ => modify (set_tainted_status None)
            | None => ret tt
            end ;;
            modify (set_tainted_status (Some (code, messages))) ;;
            ret (code, messages))
       (modify (set_tainted_lock false)) : M (state W) (Z * list string))).
  { apply kb_bind; [apply kb_modify; reflexivity|].
    intros _. apply kb_try_finally; [|apply kb_modify; reflexivity].
    apply kb_bind; [apply kb_primitive|]. intros d.
    destruct (negb (cd_returncode d =? 0)%Z); [apply kb_raise|].
    cbv zeta. destruct (negb (isdigit (strip (cd_stdout d))));
      [apply kb_raise|].
    apply kb_bind; [apply kb_get|]. intros s1.
    apply kb_bind.
    { destruct (tainted_status s1);
        [apply kb_modify; reflexivity|apply kb_ret]. }
    intros _. apply kb_bind; [apply kb_modify; reflexivity|].
    intros _. apply kb_ret. }
  destruct (tainted_lock s0), (tainted_status s0); try exact Hread.
  apply kb_bind; [apply kb_modify; reflexivity|].
  intros _. apply kb_ret.
Qed.

Lemma kb_fire_tainted messages :
  keeps_buffer (fire_tainted messages : M (state W) unit).
Proof.
  induction messages as [|m rest IH]; simpl; [apply kb_ret|].
  apply kb_bind; [|intros _; exact IH].
  destruct m; [apply kb_ret|apply kb_fire].
Qed.

Lemma kb__get_tainted_status : keeps_buffer (_get_tainted_status sut).
Proof.
  unfold _get_tainted_status.
  apply kb_bind; [apply kb_get_tainted_info|]. intros r.
  apply kb_bind; [apply kb_fire_tainted|]. intros _. apply kb_ret.
Qed.

(** The buffer of a test gathers the chunks written to it, in order. *)
Lemma write_all_gathers test chunks timers (s : state W) :
  exists s',
    write_all (Some (RedirectTestStdout test)) chunks timers s = (Ok tt, s') /\
    iobuffer_stdout s' = (iobuffer_stdout s ++ str_join chunks)%string /\
    world s' = world s.
Proof.
  revert s; induction chunks as [|c rest IH]; intros s.
  - exists s. simpl. rewrite append_nil_r. repeat split.
  - cbn [write_all write]. unfold bind at 1, bind at 1, fire, modify.
    match goal with |- context [write_all _ rest timers ?s1] =>
      destruct (IH s1) as (s' & E & B & Wd) end.
    exists s'. rewrite E. split; [reflexivity|]. simpl in B, Wd.
    rewrite B, Wd. simpl. rewrite append_assoc. split; reflexivity.
Qed.

End Buffer.

(** X27.  In [_run_test], whatever way the command of the test ends
    (data, panic, timeout, cancellation), the text of the buffer after the
    [try] statement is the text before it followed by all the chunks the
    command streamed, in order: the taint reads and the ping add nothing.
    It is this text that a result with return code -1 reports. *)
Theorem _run_test_try_gathers_output :
  forall W (sut : SUT W) self test start_t timers (s s1 s3 : state W)
         r1 chunks rc w2 ra,
    _get_tainted_status sut timers s = (Ok r1, s1) ->
    sut_run_command sut (test_full_command test) (test_cwd test)
                    (test_env test) (_timeout self :: timers) (world s1)
    = (chunks, rc, w2) ->
    _run_test_try sut self test (RedirectTestStdout test) start_t timers s
    = (ra, s3) ->
    iobuffer_stdout s3 = (iobuffer_stdout s ++ str_join chunks)%string /\
    forall a, ra = Ok a ->
              at_status a <> STATUS_OK -> at_status a <> KERNEL_TAINTED ->
              cd_stdout (result_data test a (iobuffer_stdout s3))
              = (iobuffer_stdout s ++ str_join chunks)%string /\
              cd_returncode (result_data test a (iobuffer_stdout s3))
              = (-1)%Z.
Proof.
  intros W sut self test start_t timers s s1 s3 r1 chunks rc w2 ra H1 E Hrun.
  pose proof (kb__get_tainted_status sut _ _ H1) as B1.
  (* the command *)
  assert (Hcmd : exists s2,
    run_command sut (test_full_command test) (test_cwd test) (test_env test)
                (Some (RedirectTestStdout test)) (_timeout self :: timers) s1
    = (rc, s2) /\
    iobuffer_stdout s2 = (iobuffer_stdout s1 ++ str_join chunks)%string).
  { unfold run_command, primitive. rewrite E.
    destruct (write_all_gathers test chunks (_timeout self :: timers)
                                (set_world w2 s1)) as (sx & Ew & Bw & _).
    rewrite Ew. eexists. split; [reflexivity|]. exact Bw. }
  destruct Hcmd as (s2 & Hcmd & B2).
  assert (Hbuf : iobuffer_stdout s3 = iobuffer_stdout s2).
  { unfold _run_test_try, try_except in Hrun. unfold bind at 1 in Hrun.
    rewrite H1 in Hrun. unfold bind at 1, wait_for in Hrun.
    rewrite Hcmd in Hrun.
    assert (Hh : forall e k,
      (if isinstance e KernelPanicError then
         Some (s <- get ;;
               let exec_time := (time_time sut (world s) - start_t)%Q in
               ret (mk_attempt KERNEL_PANIC None None exec_time))
       else if isinstance e TimeoutError then
         Some (s <- get ;;
               let exec_time := (time_time sut (world s) - start_t)%Q in
               try_except
                 (wait_for (ping sut) 10 ;;
                  ret (mk_attempt TEST_TIMEOUT None None exec_time))
                 (fun err2 =>
                    if isinstance err2 TimeoutError then
                      Some (ret (mk_attempt KERNEL_TIMEOUT None None
                                            exec_time))
                    else None))
       else None) = Some k -> keeps_buffer (k : M (state W) attempt)).
    { intros e k Hk. destruct (isinstance e KernelPanicError).
      - inversion Hk; subst. apply kb_bind; [apply kb_get|].
        intros s0. apply kb_ret.
      - destruct (isinstance e TimeoutError); [|discriminate].
        inversion Hk; subst. apply kb_bind; [apply kb_get|].
        intros s0. cbv zeta. apply kb_try_except.
        + apply kb_bind; [apply kb_wait_for, kb_primitive|].
          intros _. apply kb_ret.
        + intros e2 k2 Hk2. destruct (isinstance e2 TimeoutError);
            [|discriminate]. inversion Hk2; subst. apply kb_ret. }
    destruct rc as [d|e|[|k]].
    - unfold bind at 1 in Hrun.
      destruct (_get_tainted_status sut timers s2) as [[r2|e2|k2] sx] eqn:E2;
        pose proof (kb__get_tainted_status sut _ _ E2) as B3.
      + destruct (negb (fst r2 =? fst r1)%Z); inversion Hrun; subst; exact B3.
      + match type of Hrun with
        | match ?h with _ => _ end = _ => destruct h as [k|] eqn:Ek
        end.
        * rewrite <- B3. eapply (Hh _ _ Ek). exact Hrun.
        * inversion Hrun; subst. exact B3.
      + inversion Hrun; subst. exact B3.
    - match type of Hrun with
      | match ?h with _ => _ end = _ => destruct h as [k|] eqn:Ek
      end.
      + eapply (Hh _ _ Ek). exact Hrun.
      + inversion Hrun; subst. reflexivity.
    - change (isinstance (mk_exn TimeoutError []) KernelPanicError)
        with false in Hrun.
      change (isinstance (mk_exn TimeoutError []) TimeoutError)
        with true in Hrun.
      cbv iota in Hrun.
      eapply (Hh (mk_exn TimeoutError []) _ eq_refl). exact Hrun.
    - inversion Hrun; subst. reflexivity. }
  rewrite Hbuf, B2, B1. split; [reflexivity|].
  intros a _ Hok Htainted. unfold result_data.
  destruct (at_status a); try congruence; split; reflexivity.
Qed.

Lemma _run_test_try_gathers_output_witness :
  exists s3,
    _run_test_try scripted_sut ltp_scheduler some_test
                  (RedirectTestStdout some_test) 0 [] (init_state panics)
    = (Ok (mk_attempt KERNEL_PANIC None None (0 - 0)%Q), s3) /\
    iobuffer_stdout s3 = "Kernel panic".
Proof.
  pose (s1 := snd (_get_tainted_status scripted_sut [] (init_state panics))).
  pose (s3 := snd (_run_test_try scripted_sut ltp_scheduler some_test
                     (RedirectTestStdout some_test) 0 [] (init_state panics))).
  assert (H1 : _get_tainted_status scripted_sut [] (init_state panics)
               = (Ok (0%Z, []), s1)) by (vm_compute; reflexivity).
  assert (E : sut_run_command scripted_sut (test_full_command some_test)
                (test_cwd some_test) (test_env some_test)
                (_timeout ltp_scheduler :: []) (world s1)
              = (["Kernel panic"], Raise (mk_exn KernelPanicError []), []))
    by (vm_compute; reflexivity).
  assert (Hrun : _run_test_try scripted_sut ltp_scheduler some_test
                   (RedirectTestStdout some_test) 0 [] (init_state panics)
                 = (Ok (mk_attempt KERNEL_PANIC None None (0 - 0)%Q), s3))
    by (vm_compute; reflexivity).
  destruct (@_run_test_try_gathers_output _ scripted_sut ltp_scheduler
              some_test 0%Q [] (init_state panics) s1 s3 (0%Z, [])
              ["Kernel panic"] (Raise (mk_exn KernelPanicError [])) [] _
              H1 E Hrun) as (Hb & _).
  exists s3. split; [exact Hrun|]. rewrite Hb. reflexivity.
Defined.
